(** * Ride lifecycle and fare engine of the cab booking service

    A shallow embedding of [app/models.py] and of the class
    [CabBookingService] of [app/services.py], followed by the properties of
    the ride registry, of the status changes and of the fare computation.
    [app.py] holds an earlier copy of the same class, [CabBookingSystem],
    which prints to the console and sleeps, and whose [update_ride_status]
    and [cancel_ride] return nothing; the embedding follows
    [app/services.py], the copy the API serves, and embeds the methods of
    [CabBookingSystem] after it, with the console as the list of the lines
    printed.  Of [app/routes.py], the reading of cab types and statuses from
    the strings of a request is embedded.

    Conventions of the embedding:
    - a Python [float] is a binary64 number, here a primitive [float]; the
      Python [int]s that the code mixes into float arithmetic (the cab rate
      table, [111], [30], [60]) are the floats of the same value;
    - [datetime.now()], the [random] module and [uuid.uuid4()] are inputs of
      the method that calls them, one input per call;
    - a raised exception is a [Raise] result, and the service a call leaves
      behind is returned next to it, as Python keeps what was written before
      the [raise];
    - the [Dict[str, Ride]] of the service is an insertion-ordered
      association list with one entry per key; a [Ride] is stored under one
      key only, so the assignments to its attributes are assignments to the
      entry of that key. *)

From Stdlib Require Import ZArith List String Ascii Bool Lia Floats DecimalString.
Import ListNotations.

#[local] Set Warnings "-inexact-float".
#[local] Open Scope string_scope.
#[local] Open Scope Z_scope.

(** ** Exceptions *)

Inductive exn : Type :=
| ValueError (msg : string)
| OverflowError (msg : string).

Inductive result (A : Type) : Type :=
| Ok (a : A)
| Raise (e : exn).

Arguments Ok {A} a.
Arguments Raise {A} e.

Definition result_bind {A B : Type} (r : result A) (k : A -> result B) : result B :=
  match r with
  | Ok a => k a
  | Raise e => Raise e
  end.

Definition error_of {A : Type} (r : result A) : option exn :=
  match r with
  | Ok _ => None
  | Raise e => Some e
  end.

Declare Scope result_scope.
Delimit Scope result_scope with result.
Notation "'let?' x ':=' r 'in' k" := (result_bind r (fun x => k))
  (at level 10, x name, r at level 100, k at level 200) : result_scope.

(** ** Python's float builtins *)

Module PyFloat.

(** The integer nearest to [n * 2^e], ties to the even one. *)
Definition round_half_even_shift (n e : Z) : Z :=
  if 0 <=? e then n * 2 ^ e
  else
    let d := 2 ^ (- e) in
    let q := n / d in
    let r := n mod d in
    match 2 * r ?= d with
    | Lt => q
    | Gt => q + 1
    | Eq => if Z.even q then q else q + 1
    end.

Definition decimal_scale (ndigits : N) : positive := Z.to_pos (10 ^ Z.of_N ndigits).

(** [round(x, ndigits)] for [ndigits >= 0]: the exact value of [x] is rounded
    to the nearest multiple of [10^-ndigits] (ties to even), and the float
    nearest to that decimal is returned; an infinity or a NaN is returned as
    it is. *)
Definition round (x : float) (ndigits : N) : float :=
  match Prim2SF x with
  | S754_finite s m e =>
      let scale := decimal_scale ndigits in
      match round_half_even_shift (Zpos (m * scale)) e with
      | Zpos k => SF2Prim (SFdiv prec emax (S754_finite s k 0) (S754_finite false scale 0))
      | _ => SF2Prim (S754_zero s)
      end
  | _ => x
  end.

(** [int(x)]: truncation towards zero; [ValueError] on a NaN and
    [OverflowError] on an infinity. *)
Definition int (x : float) : result Z :=
  match Prim2SF x with
  | S754_zero _ => Ok 0
  | S754_finite s m e =>
      let a := if 0 <=? e then Zpos m * 2 ^ e else Zpos m / 2 ^ (- e) in
      Ok (if s then - a else a)
  | S754_nan => Raise (ValueError "cannot convert float NaN to integer")
  | S754_infinity _ => Raise (OverflowError "cannot convert float infinity to integer")
  end.

(** [x ** y] on floats is computed by the C library behind the interpreter;
    the service takes it as given.  It raises [OverflowError] when the result
    is out of range. *)
Class Pow : Type := pow : float -> float -> result float.

End PyFloat.

(** ** Python's [str] operations used by the models *)

Module PyStr.

Definition upper_ascii (c : ascii) : ascii :=
  let n := nat_of_ascii c in
  if (Nat.leb 97 n && Nat.leb n 122)%bool then ascii_of_nat (n - 32) else c.

Fixpoint upper (s : string) : string :=
  match s with
  | EmptyString => EmptyString
  | String c s' => String (upper_ascii c) (upper s')
  end.

(** [s[:n]] *)
Definition prefix (n : nat) (s : string) : string := substring 0 n s.

(** [str(n)] of an [int] *)
Definition of_int (n : Z) : string := NilZero.string_of_int (Z.to_int n).

End PyStr.

(** ** The insertion-ordered dictionary *)

Module Dict.

Section WithValue.
Context {V : Type}.

Definition t : Type := list (string * V).

Definition empty : t := [].

(** [d.get(k)] *)
Fixpoint get (k : string) (d : t) : option V :=
  match d with
  | [] => None
  | (k', v) :: d' => if String.eqb k k' then Some v else get k d'
  end.

(** [d[k] = v]: the entry of [k] is replaced where it stands; a new key
    goes to the end. *)
Fixpoint set (k : string) (v : V) (d : t) : t :=
  match d with
  | [] => [(k, v)]
  | (k', v') :: d' =>
      if String.eqb k k' then (k', v) :: d' else (k', v') :: set k v d'
  end.

Definition keys (d : t) : list string := map fst d.
Definition values (d : t) : list V := map snd d.

(** A dictionary holds each key once. *)
Definition wf (d : t) : Prop := NoDup (keys d).

End WithValue.

Arguments t V : clear implicits.

End Dict.

(** ** [app/models.py] *)

(** A naive local [datetime], as the microseconds of the wall clock. *)
Module Datetime.
Definition t : Type := Z.
Definition hour (d : t) : Z := (d / 3600000000) mod 24.
End Datetime.

Module RideStatus.
Inductive t : Type :=
| SEARCHING | ACCEPTED | ARRIVING | IN_PROGRESS | COMPLETED | CANCELLED.

Definition value (s : t) : string :=
  match s with
  | SEARCHING => "searching"
  | ACCEPTED => "accepted"
  | ARRIVING => "arriving"
  | IN_PROGRESS => "in_progress"
  | COMPLETED => "completed"
  | CANCELLED => "cancelled"
  end.

Definition eqb (a b : t) : bool :=
  match a, b with
  | SEARCHING, SEARCHING | ACCEPTED, ACCEPTED | ARRIVING, ARRIVING
  | IN_PROGRESS, IN_PROGRESS | COMPLETED, COMPLETED | CANCELLED, CANCELLED => true
  | _, _ => false
  end.

(** [s in l] *)
Definition mem (s : t) (l : list t) : bool := existsb (eqb s) l.
End RideStatus.

Module CabType.
Inductive t : Type := MINI | SEDAN | SUV | LUXURY.

Record rates : Type := {
  name : string;
  base_fare : float;
  per_km : float;
  per_min : float;
  capacity : Z
}.

Definition value (c : t) : rates :=
  match c with
  | MINI => {| name := "Mini"; base_fare := 50; per_km := 12; per_min := 2; capacity := 4 |}
  | SEDAN => {| name := "Sedan"; base_fare := 80; per_km := 15; per_min := 2.5; capacity := 4 |}
  | SUV => {| name := "SUV"; base_fare := 120; per_km := 20; per_min := 3; capacity := 6 |}
  | LUXURY => {| name := "Luxury"; base_fare := 200; per_km := 30; per_min := 5; capacity := 4 |}
  end.
End CabType.

Module Location.
Record t : Type := {
  latitude : float;
  longitude : float;
  address : string
}.

Definition distance_to `{PyFloat.Pow} (self other : t) : result float :=
  let lat_diff := abs (latitude self - latitude other) in
  let lng_diff := abs (longitude self - longitude other) in
  (let? lat_sq := PyFloat.pow lat_diff 2 in
   let? lng_sq := PyFloat.pow lng_diff 2 in
   let? root := PyFloat.pow (lat_sq + lng_sq) 0.5 in
   Ok (root * 111))%result%float.
End Location.

Module Driver.
Record t : Type := {
  id : string;
  name : string;
  phone : string;
  rating : float;
  total_trips : Z;
  vehicle_number : string;
  vehicle_model : string;
  vehicle_color : string;
  current_location : Location.t
}.

(** What the [random] module and [uuid.uuid4()] answer during one call of
    [generate_random], one field per call, in the order of the calls. *)
Record draws : Type := {
  first_name_index : nat;      (* choice(first_names) *)
  last_name_index : nat;       (* choice(last_names) *)
  vehicle_index : nat;         (* choice(vehicles) *)
  latitude_offset : float;     (* uniform(-0.01, 0.01) *)
  longitude_offset : float;    (* uniform(-0.01, 0.01) *)
  uuid4 : string;              (* str(uuid.uuid4()) *)
  phone_number : Z;            (* randint(7000000000, 9999999999) *)
  rating_draw : float;         (* uniform(4.0, 5.0) *)
  trips : Z;                   (* randint(100, 5000) *)
  plate_district : Z;          (* randint(10, 99) *)
  plate_letter_index : nat;    (* choice(['A','B','C']) *)
  plate_number : Z             (* randint(1000, 9999) *)
}.

(** [random.choice(seq)] is [seq[i]] for the index [i] below [len(seq)]
    that the generator draws. *)
Definition choice {A : Type} (i : nat) (seq : list A) (unreachable : A) : A :=
  nth i seq unreachable.

Definition first_names : list string :=
  ["Rajesh"; "Amit"; "Suresh"; "Vijay"; "Anil"; "Rahul"; "Sanjay"; "Manoj"].
Definition last_names : list string :=
  ["Kumar"; "Sharma"; "Singh"; "Patel"; "Reddy"; "Verma"; "Gupta"; "Joshi"].
Definition vehicles : list (string * string) :=
  [("Swift", "White"); ("Etios", "Silver"); ("Dzire", "Blue");
   ("Innova", "Grey"); ("XUV", "Black"); ("Scorpio", "Red")].

Definition generate_random (r : draws) (location : Location.t) : t :=
  let name := (choice (first_name_index r) first_names "" ++ " "
               ++ choice (last_name_index r) last_names "")%string in
  let '(vehicle_model, vehicle_color) := choice (vehicle_index r) vehicles ("", "") in
  let nearby_location :=
    {| Location.latitude := (Location.latitude location + latitude_offset r)%float;
       Location.longitude := (Location.longitude location + longitude_offset r)%float;
       Location.address := "Driver location" |} in
  {| id := PyStr.prefix 8 (uuid4 r);
     name := name;
     phone := ("+91-" ++ PyStr.of_int (phone_number r))%string;
     rating := PyFloat.round (rating_draw r) 1;
     total_trips := trips r;
     vehicle_number :=
       ("KA" ++ PyStr.of_int (plate_district r)
        ++ choice (plate_letter_index r) ["A"; "B"; "C"] ""
        ++ PyStr.of_int (plate_number r))%string;
     vehicle_model := vehicle_model;
     vehicle_color := vehicle_color;
     current_location := nearby_location |}.
End Driver.

Module Fare.
Record t : Type := {
  base_fare : float;
  distance_fare : float;
  time_fare : float;
  surge_multiplier : float;
  total : float
}.

(** [calculate_total] writes [self.total]; the fare it leaves is returned. *)
Definition calculate_total (self : t) : t :=
  let subtotal := (base_fare self + distance_fare self + time_fare self)%float in
  {| base_fare := base_fare self;
     distance_fare := distance_fare self;
     time_fare := time_fare self;
     surge_multiplier := surge_multiplier self;
     total := PyFloat.round (subtotal * surge_multiplier self)%float 2 |}.
End Fare.

Module Ride.
Record t : Type := {
  ride_id : string;
  cab_type : CabType.t;
  pickup : Location.t;
  dropoff : Location.t;
  status : RideStatus.t;
  driver : option Driver.t;
  fare : option Fare.t;
  created_at : Datetime.t;
  accepted_at : option Datetime.t;
  started_at : option Datetime.t;
  completed_at : option Datetime.t;
  eta_minutes : Z;
  distance_km : float;
  duration_minutes : Z
}.

(** Attribute assignments, [ride.status = v] and the like. *)
Definition set_status (v : RideStatus.t) (r : t) : t :=
  {| ride_id := ride_id r; cab_type := cab_type r; pickup := pickup r;
     dropoff := dropoff r; status := v; driver := driver r; fare := fare r;
     created_at := created_at r; accepted_at := accepted_at r;
     started_at := started_at r; completed_at := completed_at r;
     eta_minutes := eta_minutes r; distance_km := distance_km r;
     duration_minutes := duration_minutes r |}.

Definition set_driver (v : option Driver.t) (r : t) : t :=
  {| ride_id := ride_id r; cab_type := cab_type r; pickup := pickup r;
     dropoff := dropoff r; status := status r; driver := v; fare := fare r;
     created_at := created_at r; accepted_at := accepted_at r;
     started_at := started_at r; completed_at := completed_at r;
     eta_minutes := eta_minutes r; distance_km := distance_km r;
     duration_minutes := duration_minutes r |}.

Definition set_accepted_at (v : option Datetime.t) (r : t) : t :=
  {| ride_id := ride_id r; cab_type := cab_type r; pickup := pickup r;
     dropoff := dropoff r; status := status r; driver := driver r; fare := fare r;
     created_at := created_at r; accepted_at := v;
     started_at := started_at r; completed_at := completed_at r;
     eta_minutes := eta_minutes r; distance_km := distance_km r;
     duration_minutes := duration_minutes r |}.

Definition set_started_at (v : option Datetime.t) (r : t) : t :=
  {| ride_id := ride_id r; cab_type := cab_type r; pickup := pickup r;
     dropoff := dropoff r; status := status r; driver := driver r; fare := fare r;
     created_at := created_at r; accepted_at := accepted_at r;
     started_at := v; completed_at := completed_at r;
     eta_minutes := eta_minutes r; distance_km := distance_km r;
     duration_minutes := duration_minutes r |}.

Definition set_completed_at (v : option Datetime.t) (r : t) : t :=
  {| ride_id := ride_id r; cab_type := cab_type r; pickup := pickup r;
     dropoff := dropoff r; status := status r; driver := driver r; fare := fare r;
     created_at := created_at r; accepted_at := accepted_at r;
     started_at := started_at r; completed_at := v;
     eta_minutes := eta_minutes r; distance_km := distance_km r;
     duration_minutes := duration_minutes r |}.

Definition set_eta_minutes (v : Z) (r : t) : t :=
  {| ride_id := ride_id r; cab_type := cab_type r; pickup := pickup r;
     dropoff := dropoff r; status := status r; driver := driver r; fare := fare r;
     created_at := created_at r; accepted_at := accepted_at r;
     started_at := started_at r; completed_at := completed_at r;
     eta_minutes := v; distance_km := distance_km r;
     duration_minutes := duration_minutes r |}.
End Ride.

(** ** [app/services.py]: [CabBookingService] *)

Record CabBookingService : Type := {
  rides : Dict.t Ride.t;
  surge_areas : Dict.t float
}.

(** [CabBookingService()] *)
Definition init : CabBookingService :=
  {| rides := Dict.empty; surge_areas := Dict.empty |}.

Definition set_rides (d : Dict.t Ride.t) (self : CabBookingService) : CabBookingService :=
  {| rides := d; surge_areas := surge_areas self |}.

(** A method: from the service before the call to what the call returns or
    raises, and the service after it. *)
Definition method (A : Type) : Type := CabBookingService -> result A * CabBookingService.

Definition not_found {A : Type} : method A :=
  fun self => (Raise (ValueError "Ride not found"), self).

(** The dictionary [cancel_ride] returns. *)
Record cancellation : Type := {
  cancelled_ride_id : string;
  cancelled_status : string;
  reason : string;
  cancellation_fee : Z
}.

Definition peak_hour (hour : Z) : bool :=
  ((8 <=? hour) && (hour <=? 10)) || ((17 <=? hour) && (hour <=? 20)).

(** [uniform a b] is what [random.uniform(a, b)] answers at the one call
    made, and [now] what [datetime.now()] reads there. *)
Definition _get_surge_multiplier
    (uniform : float -> float -> float) (now : Datetime.t) (location : Location.t) : float :=
  let hour := Datetime.hour now in
  if peak_hour hour then PyFloat.round (uniform 1.2 2.0)%float 1
  else PyFloat.round (uniform 1.0 1.3)%float 1.

Section Service.
Context `{PyFloat.Pow}.

Definition get_fare_estimate
    (uniform : float -> float -> float) (now : Datetime.t)
    (pickup dropoff : Location.t) (cab_type : CabType.t) : result Fare.t :=
  (let? distance := Location.distance_to pickup dropoff in
   let duration := (distance / 30 * 60)%float in
   let cab_rates := CabType.value cab_type in
   let fare :=
     {| Fare.base_fare := CabType.base_fare cab_rates;
        Fare.distance_fare := (distance * CabType.per_km cab_rates)%float;
        Fare.time_fare := (duration * CabType.per_min cab_rates)%float;
        Fare.surge_multiplier := _get_surge_multiplier uniform now pickup;
        Fare.total := 0 |} in
   Ok (Fare.calculate_total fare))%result.

(** [uuid4] is [str(uuid.uuid4())]; [now] is read for the surge and
    [created] when the ride is constructed. *)
Definition book_ride
    (uuid4 : string) (uniform : float -> float -> float) (now created : Datetime.t)
    (pickup dropoff : Location.t) (cab_type : CabType.t) : method Ride.t :=
  fun self =>
    let ride_id := PyStr.upper (PyStr.prefix 8 uuid4) in
    match
      (let? distance := Location.distance_to pickup dropoff in
       let? duration := PyFloat.int (distance / 30 * 60)%float in
       let? fare := get_fare_estimate uniform now pickup dropoff cab_type in
       Ok {| Ride.ride_id := ride_id;
             Ride.cab_type := cab_type;
             Ride.pickup := pickup;
             Ride.dropoff := dropoff;
             Ride.status := RideStatus.SEARCHING;
             Ride.driver := None;
             Ride.fare := Some fare;
             Ride.created_at := created;
             Ride.accepted_at := None;
             Ride.started_at := None;
             Ride.completed_at := None;
             Ride.eta_minutes := 0;
             Ride.distance_km := PyFloat.round distance 2;
             Ride.duration_minutes := duration |})%result
    with
    | Raise e => (Raise e, self)
    | Ok ride => (Ok ride, set_rides (Dict.set ride_id ride (rides self)) self)
    end.
End Service.

(** [randint a b] is what [random.randint(a, b)] answers at the one call
    made. *)
Definition assign_driver
    (draws : Driver.draws) (now : Datetime.t) (randint : Z -> Z -> Z)
    (ride_id : string) : method Driver.t :=
  fun self =>
    match Dict.get ride_id (rides self) with
    | None => not_found self
    | Some ride =>
        let driver := Driver.generate_random draws (Ride.pickup ride) in
        let ride := Ride.set_driver (Some driver) ride in
        let ride := Ride.set_status RideStatus.ACCEPTED ride in
        let ride := Ride.set_accepted_at (Some now) ride in
        let ride := Ride.set_eta_minutes (randint 3 10) ride in
        (Ok driver, set_rides (Dict.set ride_id ride (rides self)) self)
    end.

Definition get_ride (ride_id : string) : method Ride.t :=
  fun self =>
    match Dict.get ride_id (rides self) with
    | None => not_found self
    | Some ride => (Ok ride, self)
    end.

Definition update_ride_status
    (now : Datetime.t) (ride_id : string) (new_status : RideStatus.t) : method Ride.t :=
  fun self =>
    match Dict.get ride_id (rides self) with
    | None => not_found self
    | Some ride =>
        let ride := Ride.set_status new_status ride in
        let ride :=
          if RideStatus.eqb new_status RideStatus.IN_PROGRESS
          then Ride.set_started_at (Some now) ride
          else if RideStatus.eqb new_status RideStatus.COMPLETED
          then Ride.set_completed_at (Some now) ride
          else ride in
        (Ok ride, set_rides (Dict.set ride_id ride (rides self)) self)
    end.

Definition cancel_ride (ride_id : string) (reason : string) : method cancellation :=
  fun self =>
    match Dict.get ride_id (rides self) with
    | None => not_found self
    | Some ride =>
        let ride := Ride.set_status RideStatus.CANCELLED ride in
        let cancellation_fee :=
          if RideStatus.mem (Ride.status ride) [RideStatus.ACCEPTED; RideStatus.ARRIVING]
          then 50 else 0 in
        (Ok {| cancelled_ride_id := ride_id;
               cancelled_status := "cancelled";
               reason := reason;
               cancellation_fee := cancellation_fee |},
         set_rides (Dict.set ride_id ride (rides self)) self)
    end.

Definition get_ride_history : method (list Ride.t) :=
  fun self =>
    (Ok (filter (fun ride => RideStatus.eqb (Ride.status ride) RideStatus.COMPLETED)
                (Dict.values (rides self))),
     self).

(** ** Sequences of calls *)

(** A call of a method of the service, with the inputs it consumes. *)
Inductive call : Type :=
| GetFareEstimate (uniform : float -> float -> float) (now : Datetime.t)
    (pickup dropoff : Location.t) (cab_type : CabType.t)
| BookRide (uuid4 : string) (uniform : float -> float -> float) (now created : Datetime.t)
    (pickup dropoff : Location.t) (cab_type : CabType.t)
| AssignDriver (draws : Driver.draws) (now : Datetime.t) (randint : Z -> Z -> Z)
    (ride_id : string)
| GetRide (ride_id : string)
| UpdateRideStatus (now : Datetime.t) (ride_id : string) (new_status : RideStatus.t)
| CancelRide (ride_id : string) (reason : string)
| GetRideHistory.

Section Run.
Context `{PyFloat.Pow}.

(** The service a call leaves behind, whether it returns or raises. *)
Definition step (c : call) (self : CabBookingService) : CabBookingService :=
  match c with
  | GetFareEstimate _ _ _ _ _ => self
  | BookRide uuid4 uniform now created pickup dropoff cab_type =>
      snd (book_ride uuid4 uniform now created pickup dropoff cab_type self)
  | AssignDriver draws now randint ride_id =>
      snd (assign_driver draws now randint ride_id self)
  | GetRide ride_id => snd (get_ride ride_id self)
  | UpdateRideStatus now ride_id new_status =>
      snd (update_ride_status now ride_id new_status self)
  | CancelRide ride_id reason => snd (cancel_ride ride_id reason self)
  | GetRideHistory => snd (get_ride_history self)
  end.

Definition run (cs : list call) (self : CabBookingService) : CabBookingService :=
  fold_left (fun s c => step c s) cs self.

(** The exception a call raises, if it raises. *)
Definition raised (c : call) (self : CabBookingService) : option exn :=
  match c with
  | GetFareEstimate uniform now pickup dropoff cab_type =>
      error_of (get_fare_estimate uniform now pickup dropoff cab_type)
  | BookRide uuid4 uniform now created pickup dropoff cab_type =>
      error_of (fst (book_ride uuid4 uniform now created pickup dropoff cab_type self))
  | AssignDriver draws now randint ride_id =>
      error_of (fst (assign_driver draws now randint ride_id self))
  | GetRide ride_id => error_of (fst (get_ride ride_id self))
  | UpdateRideStatus now ride_id new_status =>
      error_of (fst (update_ride_status now ride_id new_status self))
  | CancelRide ride_id reason => error_of (fst (cancel_ride ride_id reason self))
  | GetRideHistory => error_of (fst (get_ride_history self))
  end.

(** The identifier under which a call books a ride, if it is a booking. *)
Definition booked_id (c : call) : option string :=
  match c with
  | BookRide uuid4 _ _ _ _ _ _ => Some (PyStr.upper (PyStr.prefix 8 uuid4))
  | _ => None
  end.

End Run.

(** ** Sample inputs

    The demo of [app.py] and [test_api.py] book a sedan from MG Road to
    Koramangala; the examples below replay such calls. *)

Module Sample.

(** A power function to run the examples with: the correctly rounded square
    and square root, for the two exponents the service uses, with Python's
    [OverflowError] when a finite base gives an infinite result. *)
Definition pow : PyFloat.Pow :=
  fun x y =>
    if (y =? 2)%float then
      if (is_infinity (x * x) && negb (is_infinity x))%bool%float
      then Raise (OverflowError "(34, 'Numerical result out of range')")
      else Ok (x * x)%float
    else if (y =? 0.5)%float then Ok (sqrt x)
    else Ok nan.

Definition pickup : Location.t :=
  {| Location.latitude := 12.9716; Location.longitude := 77.5946;
     Location.address := "MG Road, Bangalore" |}.

Definition dropoff : Location.t :=
  {| Location.latitude := 12.9352; Location.longitude := 77.6245;
     Location.address := "Koramangala, Bangalore" |}.

(** A pickup further north, on the meridian of [pickup]. *)
Definition far_pickup : Location.t :=
  {| Location.latitude := 13.075577188473156; Location.longitude := 77.5946;
     Location.address := "Yelahanka, Bangalore" |}.

(** [**] as CPython 3.11 on glibc 2.36 (x86-64) answers on the trip from
    [far_pickup] to [dropoff]: the two squares are the products, as with
    [pow], and [0.020599765043627878 ** 0.5] is [0.14352618243243245], one
    unit in the last place above the square root [0.14352618243243243]. *)
Definition measured_pow : PyFloat.Pow :=
  fun x y =>
    if ((x =? 0.020599765043627878) && (y =? 0.5))%bool%float
    then Ok 0.14352618243243245%float
    else pow x y.

(** [random.uniform(a, b)] when [random.random()] answers [0.5]. *)
Definition uniform (a b : float) : float := (a + (b - a) * 0.5)%float.

(** [random.randint(a, b)] answering the middle of the range. *)
Definition randint (a b : Z) : Z := (a + b) / 2.

Definition uuid4 : string := "a1b2c3d4-e5f6-4789-8abc-def012345678".
Definition ride_id : string := "A1B2C3D4".

Definition draws : Driver.draws :=
  {| Driver.first_name_index := 1; Driver.last_name_index := 2;
     Driver.vehicle_index := 3;
     Driver.latitude_offset := 0.004; Driver.longitude_offset := -0.003;
     Driver.uuid4 := "0f1e2d3c-4b5a-4678-9abc-0123456789ab";
     Driver.phone_number := 9876543210; Driver.rating_draw := 4.56;
     Driver.trips := 1234; Driver.plate_district := 51;
     Driver.plate_letter_index := 0; Driver.plate_number := 4321 |}.

Definition draws' : Driver.draws :=
  {| Driver.first_name_index := 5; Driver.last_name_index := 0;
     Driver.vehicle_index := 0;
     Driver.latitude_offset := -0.002; Driver.longitude_offset := 0.006;
     Driver.uuid4 := "9a8b7c6d-5e4f-4321-8fed-ba9876543210";
     Driver.phone_number := 7012345678; Driver.rating_draw := 4.91;
     Driver.trips := 250; Driver.plate_district := 12;
     Driver.plate_letter_index := 2; Driver.plate_number := 1000 |}.

(** Clock readings: 09:00:00, 09:00:05, ... of one day, in microseconds. *)
Definition at_9h (seconds : Z) : Datetime.t := (9 * 3600 + seconds) * 1000000.

(** The service after [book_ride] at 09:00:00. *)
Definition booked : CabBookingService :=
  snd (book_ride (H := pow) uuid4 uniform (at_9h 0) (at_9h 0) pickup dropoff CabType.SEDAN init).

(** ... after [assign_driver] at 09:00:05. *)
Definition accepted : CabBookingService :=
  snd (assign_driver draws (at_9h 5) randint ride_id booked).

(** ... after [update_ride_status] to ARRIVING, IN_PROGRESS and COMPLETED. *)
Definition arriving : CabBookingService :=
  snd (update_ride_status (at_9h 60) ride_id RideStatus.ARRIVING accepted).

Definition in_progress : CabBookingService :=
  snd (update_ride_status (at_9h 300) ride_id RideStatus.IN_PROGRESS arriving).

Definition completed : CabBookingService :=
  snd (update_ride_status (at_9h 900) ride_id RideStatus.COMPLETED in_progress).

(** The status, and the three optional timestamps, of the sample ride. *)
Definition status_in (self : CabBookingService) : option RideStatus.t :=
  option_map Ride.status (Dict.get ride_id (rides self)).

Definition stamps_in (self : CabBookingService)
  : option (option Datetime.t * option Datetime.t * option Datetime.t) :=
  option_map (fun r => (Ride.accepted_at r, Ride.started_at r, Ride.completed_at r))
             (Dict.get ride_id (rides self)).

End Sample.

(** ** Vocabulary of the properties *)

(** What [book_ride] fixes of a ride: everything but the status, the driver,
    the ETA and the three optional timestamps. *)
Definition same_booking (r r' : Ride.t) : Prop :=
  Ride.ride_id r' = Ride.ride_id r
  /\ Ride.cab_type r' = Ride.cab_type r
  /\ Ride.pickup r' = Ride.pickup r
  /\ Ride.dropoff r' = Ride.dropoff r
  /\ Ride.fare r' = Ride.fare r
  /\ Ride.created_at r' = Ride.created_at r
  /\ Ride.distance_km r' = Ride.distance_km r
  /\ Ride.duration_minutes r' = Ride.duration_minutes r.

(** The timestamp [update_ride_status] leaves in a field it stamps on
    reaching [stamped]. *)
Definition stamp_on (stamped new_status : RideStatus.t) (now : Datetime.t)
    (before : option Datetime.t) : option Datetime.t :=
  if RideStatus.eqb new_status stamped then Some now else before.

(** The other entries of the registry are as they were. *)
Definition others_kept (ride_id : string) (self self' : CabBookingService) : Prop :=
  (forall k, k <> ride_id -> Dict.get k (rides self') = Dict.get k (rides self))
  /\ Dict.keys (rides self') = Dict.keys (rides self)
  /\ surge_areas self' = surge_areas self.

(** What became of the ride stored under [id] across the calls [cs]: what
    the booking fixed stays, and a timestamp that differs was written by a
    call of [cs] that stamps it, with the clock reading of that call. *)
Definition stamps_explained (id : string) (cs : list call) (ride ride' : Ride.t) : Prop :=
  same_booking ride ride'
  /\ (Ride.accepted_at ride' <> Ride.accepted_at ride ->
      exists draws now randint,
        In (AssignDriver draws now randint id) cs /\ Ride.accepted_at ride' = Some now)
  /\ (Ride.started_at ride' <> Ride.started_at ride ->
      exists now,
        In (UpdateRideStatus now id RideStatus.IN_PROGRESS) cs
        /\ Ride.started_at ride' = Some now)
  /\ (Ride.completed_at ride' <> Ride.completed_at ride ->
      exists now,
        In (UpdateRideStatus now id RideStatus.COMPLETED) cs
        /\ Ride.completed_at ride' = Some now).

(** [lo <= x <= hi] on floats. *)
Definition between (lo x hi : float) : Prop :=
  (lo <=? x)%float = true /\ (x <=? hi)%float = true.

Arguments between (lo x hi)%_float_scope.

(** The float nearest to [k / 10]: what [round(x, 1)] returns when the
    decimal nearest to [x] is [k] tenths. *)
Definition tenths (k : positive) : float :=
  SF2Prim (SFdiv prec emax (S754_finite false k 0) (S754_finite false 10 0)).

(** The closed form of the fare in the specification, to compare
    [get_fare_estimate] with: [d = sqrt((lat_p - lat_d)^2 + (lng_p -
    lng_d)^2) * 111] with the products and the square root of the floats,
    on the differences of the coordinates, and no power of the
    interpreter. *)
Definition spec_distance (pickup dropoff : Location.t) : float :=
  let lat := (Location.latitude pickup - Location.latitude dropoff)%float in
  let lng := (Location.longitude pickup - Location.longitude dropoff)%float in
  (sqrt (lat * lat + lng * lng) * 111)%float.

Definition spec_total (rates : CabType.rates) (d s : float) : float :=
  PyFloat.round
    ((CabType.base_fare rates + d * CabType.per_km rates
      + d / 30 * 60 * CabType.per_min rates) * s)%float 2.

(** ** The rest of [app/services.py]: [get_available_cabs] *)

(** The members of [CabType] in the order of the class, which is the order
    of [for cab_type in CabType], and [cab_type.name]. *)
Definition cab_types : list CabType.t :=
  [CabType.MINI; CabType.SEDAN; CabType.SUV; CabType.LUXURY].

Definition cab_type_name (c : CabType.t) : string :=
  match c with
  | CabType.MINI => "MINI"
  | CabType.SEDAN => "SEDAN"
  | CabType.SUV => "SUV"
  | CabType.LUXURY => "LUXURY"
  end.

(** An entry of the list [get_available_cabs] returns. *)
Module AvailableCab.

Record t : Type := {
  type : string;
  name : string;
  capacity : Z;
  available_count : Z;
  eta_minutes : Z;
  surge_multiplier : float
}.

End AvailableCab.

(** The loop runs once per cab type and calls [random.randint(2, 10)],
    [random.randint(2, 15)] and [_get_surge_multiplier] in each round:
    [randint c], [uniform c] and [now c] are the answers of the round of
    cab type [c]. *)
Definition get_available_cabs
    (randint : CabType.t -> Z -> Z -> Z)
    (uniform : CabType.t -> float -> float -> float)
    (now : CabType.t -> Datetime.t)
    (location : Location.t) : method (list AvailableCab.t) :=
  fun self =>
    (Ok (map (fun cab_type =>
                let available_count := randint cab_type 2 10 in
                let eta := randint cab_type 2 15 in
                let surge := _get_surge_multiplier (uniform cab_type) (now cab_type) location in
                {| AvailableCab.type := cab_type_name cab_type;
                   AvailableCab.name := CabType.name (CabType.value cab_type);
                   AvailableCab.capacity := CabType.capacity (CabType.value cab_type);
                   AvailableCab.available_count := available_count;
                   AvailableCab.eta_minutes := eta;
                   AvailableCab.surge_multiplier := surge |})
             cab_types),
     self).

(** ** [app/routes.py]: the names of cab types and statuses

    The handlers turn the [cab_type] and [status] strings of a request into
    members with [CabType[s.upper()]] and [RideStatus[s.upper()]], and answer
    400 on the [KeyError].  [str.upper] is the one of [PyStr], which is
    Python's on ASCII strings. *)

Definition ride_statuses : list RideStatus.t :=
  [RideStatus.SEARCHING; RideStatus.ACCEPTED; RideStatus.ARRIVING;
   RideStatus.IN_PROGRESS; RideStatus.COMPLETED; RideStatus.CANCELLED].

Definition ride_status_name (s : RideStatus.t) : string :=
  match s with
  | RideStatus.SEARCHING => "SEARCHING"
  | RideStatus.ACCEPTED => "ACCEPTED"
  | RideStatus.ARRIVING => "ARRIVING"
  | RideStatus.IN_PROGRESS => "IN_PROGRESS"
  | RideStatus.COMPLETED => "COMPLETED"
  | RideStatus.CANCELLED => "CANCELLED"
  end.

(** [CabType[name]] and [RideStatus[name]]; [None] is the [KeyError]. *)
Definition cab_type_of_name (name : string) : option CabType.t :=
  find (fun c => String.eqb (cab_type_name c) name) cab_types.

Definition ride_status_of_name (name : string) : option RideStatus.t :=
  find (fun s => String.eqb (ride_status_name s) name) ride_statuses.

Record HTTPException : Type := {
  status_code : Z;
  detail : string
}.

Definition HTTP_400_BAD_REQUEST : Z := 400.

(** [', '.join(names)] *)
Definition join_names (names : list string) : string := String.concat ", " names.

(** The first statement of the handlers [get_fare_estimate] and [book_ride]. *)
Definition request_cab_type (cab_type : string) : HTTPException + CabType.t :=
  match cab_type_of_name (PyStr.upper cab_type) with
  | Some c => inr c
  | None =>
      inl {| status_code := HTTP_400_BAD_REQUEST;
             detail := "Invalid cab type. Must be one of: "
                       ++ join_names (map cab_type_name cab_types) |}
  end.

(** The first statement of the handler [update_ride_status]. *)
Definition request_status (status : string) : HTTPException + RideStatus.t :=
  match ride_status_of_name (PyStr.upper status) with
  | Some s => inr s
  | None =>
      inl {| status_code := HTTP_400_BAD_REQUEST;
             detail := "Invalid status. Must be one of: "
                       ++ join_names (map ride_status_name ride_statuses) |}
  end.

(** The characters of a string are all ASCII. *)
Fixpoint is_ascii (s : string) : bool :=
  match s with
  | EmptyString => true
  | String c s' => (nat_of_ascii c <? 128)%nat && is_ascii s'
  end.

(** ** [app.py]: [CabBookingSystem]

    The demo class has the registry of [CabBookingService] and writes to the
    console.  A printed line is recorded by its [print] statement and the
    values it interpolates, in the order printed; the text around them is
    not.  [time.sleep] is left out.  The classes of [app.py] for locations,
    drivers, fares, rides and the two enumerations are those of
    [app/models.py], and so are [get_fare_estimate],
    [_get_surge_multiplier] and [get_available_cabs]. *)

Module App.

Inductive error : Type :=
| Service (e : exn)
| AttributeError (msg : string).

Inductive outcome (A : Type) : Type :=
| Returned (a : A)
| Raised (e : error).

Arguments Returned {A} a.
Arguments Raised {A} e.

Inductive printed : Type :=
(* book_ride *)
| RideBooked (ride_id : string)
| Pickup (address : string)
| Dropoff (address : string)
| EstimatedFare (total : float)
| SearchingForDrivers
(* assign_driver *)
| DriverFound
| DriverLine (name : string)
| Rating (rating : float) (total_trips : Z)
| Vehicle (color model : string)
| Number (vehicle_number : string)
| Phone (phone : string)
| Eta (eta_minutes : Z)
(* update_ride_status *)
| DriverIsArriving
| RideStarted
(* simulate_ride *)
| Distance (distance_km : float)
| EstimatedTime (duration_minutes : Z)
(* cancel_ride *)
| RideCancelled
| Reason (reason : string)
| CancellationFee (fee : Z)
(* _complete_ride *)
| RideCompleted
| RideSummary
| SummaryRideId (ride_id : string)
| SummaryDistance (distance_km : float)
| SummaryDuration (duration_minutes : Z)
| FareBreakdown
| BaseFare (base_fare : float)
| DistanceFare (distance_km : float) (distance_fare : float)
| TimeFare (duration_minutes : Z) (time_fare : float)
| SurgeMultiplier (surge_multiplier : float)
| Rule
| Total (total : float)
| RateYourDriver (name : string).

(** The object and the console it prints to. *)
Record terminal : Type := {
  system : CabBookingService;
  console : list printed
}.

Definition method (A : Type) : Type := terminal -> outcome A * terminal.

Definition ret {A : Type} (a : A) : method A := fun w => (Returned a, w).

Definition raise {A : Type} (e : error) : method A := fun w => (Raised e, w).

Definition bind {A B : Type} (m : method A) (k : A -> method B) : method B :=
  fun w =>
    match m w with
    | (Returned a, w') => k a w'
    | (Raised e, w') => (Raised e, w')
    end.

Declare Scope app_scope.
Delimit Scope app_scope with app.
Notation "x <- m ;; k" := (bind m (fun x => k))
  (at level 61, m at next level, right associativity) : app_scope.
Notation "m ;; k" := (bind m (fun _ => k))
  (at level 61, right associativity) : app_scope.

Definition print (line : printed) : method unit :=
  fun w => (Returned tt, {| system := system w; console := console w ++ [line] |}).

(** [self.rides.get(ride_id)], [None] when the key is missing. *)
Definition rides_get (ride_id : string) : method (option Ride.t) :=
  fun w => (Returned (Dict.get ride_id (rides (system w))), w).

(** [self.rides[ride_id] = ride] *)
Definition rides_set (ride_id : string) (ride : Ride.t) : method unit :=
  fun w =>
    (Returned tt,
     {| system := set_rides (Dict.set ride_id ride (rides (system w))) (system w);
        console := console w |}).

(** [ride.attr = v] on the ride fetched under [ride_id]: the object is the
    one the registry holds, so the registry sees the assignment at once. *)
Definition setattr (ride_id : string) (f : Ride.t -> Ride.t) (ride : Ride.t) : method Ride.t :=
  fun w =>
    (Returned (f ride),
     {| system := set_rides (Dict.set ride_id (f ride) (rides (system w))) (system w);
        console := console w |}).

(** The ride fetched under [ride_id], as the calls made since have left it. *)
Definition reread (ride_id : string) (fetched : Ride.t) : method Ride.t :=
  fun w =>
    (Returned match Dict.get ride_id (rides (system w)) with
              | Some ride => ride
              | None => fetched
              end,
     w).

(** [x.attr] on an optional [x]: [AttributeError] on [None]. *)
Definition attribute {A : Type} (x : option A) (attr : string) : method A :=
  match x with
  | Some a => ret a
  | None => raise (AttributeError ("'NoneType' object has no attribute '" ++ attr ++ "'"))
  end.

(** [if not ride: raise ValueError("Ride not found")] *)
Definition found (ride : option Ride.t) : method Ride.t :=
  match ride with
  | Some r => ret r
  | None => raise (Service (ValueError "Ride not found"))
  end.

(** A function of the models that may raise, called from a method. *)
Definition called {A : Type} (r : result A) : method A :=
  match r with
  | Ok a => ret a
  | Raise e => raise (Service e)
  end.

#[local] Open Scope app_scope.

Section Booking.
Context `{PyFloat.Pow}.

Definition book_ride
    (uuid4 : string) (uniform : float -> float -> float) (now created : Datetime.t)
    (pickup dropoff : Location.t) (cab_type : CabType.t) : method Ride.t :=
  let ride_id := PyStr.upper (PyStr.prefix 8 uuid4) in
  distance <- called (Location.distance_to pickup dropoff) ;;
  duration <- called (PyFloat.int (distance / 30 * 60)%float) ;;
  fare <- called (get_fare_estimate uniform now pickup dropoff cab_type) ;;
  let ride :=
    {| Ride.ride_id := ride_id;
       Ride.cab_type := cab_type;
       Ride.pickup := pickup;
       Ride.dropoff := dropoff;
       Ride.status := RideStatus.SEARCHING;
       Ride.driver := None;
       Ride.fare := Some fare;
       Ride.created_at := created;
       Ride.accepted_at := None;
       Ride.started_at := None;
       Ride.completed_at := None;
       Ride.eta_minutes := 0;
       Ride.distance_km := PyFloat.round distance 2;
       Ride.duration_minutes := duration |} in
  rides_set ride_id ride ;;
  print (RideBooked ride_id) ;;
  print (Pickup (Location.address pickup)) ;;
  print (Dropoff (Location.address dropoff)) ;;
  print (EstimatedFare (Fare.total fare)) ;;
  print SearchingForDrivers ;;
  ret ride.

End Booking.

Definition assign_driver
    (draws : Driver.draws) (now : Datetime.t) (randint : Z -> Z -> Z)
    (ride_id : string) : method Driver.t :=
  got <- rides_get ride_id ;;
  ride <- found got ;;
  let driver := Driver.generate_random draws (Ride.pickup ride) in
  ride <- setattr ride_id (Ride.set_driver (Some driver)) ride ;;
  ride <- setattr ride_id (Ride.set_status RideStatus.ACCEPTED) ride ;;
  ride <- setattr ride_id (Ride.set_accepted_at (Some now)) ride ;;
  ride <- setattr ride_id (Ride.set_eta_minutes (randint 3 10)) ride ;;
  print DriverFound ;;
  print (DriverLine (Driver.name driver)) ;;
  print (Rating (Driver.rating driver) (Driver.total_trips driver)) ;;
  print (Vehicle (Driver.vehicle_color driver) (Driver.vehicle_model driver)) ;;
  print (Number (Driver.vehicle_number driver)) ;;
  print (Phone (Driver.phone driver)) ;;
  print (Eta (Ride.eta_minutes ride)) ;;
  ret driver.

Definition track_ride (ride_id : string) : method Ride.t :=
  got <- rides_get ride_id ;;
  found got.

Definition _complete_ride (ride : Ride.t) : method unit :=
  print RideCompleted ;;
  print RideSummary ;;
  print (SummaryRideId (Ride.ride_id ride)) ;;
  print (SummaryDistance (Ride.distance_km ride)) ;;
  print (SummaryDuration (Ride.duration_minutes ride)) ;;
  print FareBreakdown ;;
  fare <- attribute (Ride.fare ride) "base_fare" ;;
  print (BaseFare (Fare.base_fare fare)) ;;
  print (DistanceFare (Ride.distance_km ride) (Fare.distance_fare fare)) ;;
  print (TimeFare (Ride.duration_minutes ride) (Fare.time_fare fare)) ;;
  (if (1.0 <? Fare.surge_multiplier fare)%float
   then print (SurgeMultiplier (Fare.surge_multiplier fare))
   else ret tt) ;;
  print Rule ;;
  print (Total (Fare.total fare)) ;;
  driver <- attribute (Ride.driver ride) "name" ;;
  print (RateYourDriver (Driver.name driver)).

(** [now] is read on IN_PROGRESS and on COMPLETED only. *)
Definition update_ride_status
    (now : Datetime.t) (ride_id : string) (new_status : RideStatus.t) : method unit :=
  got <- rides_get ride_id ;;
  ride <- found got ;;
  ride <- setattr ride_id (Ride.set_status new_status) ride ;;
  (if RideStatus.eqb new_status RideStatus.ARRIVING then
     print DriverIsArriving
   else if RideStatus.eqb new_status RideStatus.IN_PROGRESS then
     (ride <- setattr ride_id (Ride.set_started_at (Some now)) ride ;;
      print RideStarted)
   else if RideStatus.eqb new_status RideStatus.COMPLETED then
     (ride <- setattr ride_id (Ride.set_completed_at (Some now)) ride ;;
      _complete_ride ride)
   else ret tt).

(** [accepted], [started] and [completed] are the clock readings of
    [assign_driver] and of the updates to IN_PROGRESS and COMPLETED; the
    update to ARRIVING reads no clock. *)
Definition simulate_ride
    (draws : Driver.draws) (randint : Z -> Z -> Z)
    (accepted started completed : Datetime.t) (ride_id : string) : method unit :=
  got <- rides_get ride_id ;;
  fetched <- found got ;;
  _ <- assign_driver draws accepted randint ride_id ;;
  update_ride_status accepted ride_id RideStatus.ARRIVING ;;
  ride <- reread ride_id fetched ;;
  print (Eta (Ride.eta_minutes ride)) ;;
  update_ride_status started ride_id RideStatus.IN_PROGRESS ;;
  ride <- reread ride_id fetched ;;
  print (Distance (Ride.distance_km ride)) ;;
  print (EstimatedTime (Ride.duration_minutes ride)) ;;
  update_ride_status completed ride_id RideStatus.COMPLETED.

Definition cancel_ride (ride_id : string) (reason : string) : method unit :=
  got <- rides_get ride_id ;;
  ride <- found got ;;
  ride <- setattr ride_id (Ride.set_status RideStatus.CANCELLED) ride ;;
  let cancellation_fee :=
    if RideStatus.mem (Ride.status ride) [RideStatus.ACCEPTED; RideStatus.ARRIVING]
    then 50 else 0 in
  print RideCancelled ;;
  print (Reason reason) ;;
  (if 0 <? cancellation_fee then print (CancellationFee cancellation_fee) else ret tt).

Definition get_ride_history : method (list Ride.t) :=
  fun w =>
    (Returned (filter (fun ride => RideStatus.eqb (Ride.status ride) RideStatus.COMPLETED)
                      (Dict.values (rides (system w)))),
     w).

End App.

(** ** Vocabulary of the further properties *)

(** The identifier of the ride a call addresses. *)
Definition target (c : call) : option string :=
  match c with
  | GetFareEstimate _ _ _ _ _ => None
  | BookRide uuid4 _ _ _ _ _ _ => Some (PyStr.upper (PyStr.prefix 8 uuid4))
  | AssignDriver _ _ _ ride_id => Some ride_id
  | GetRide ride_id => Some ride_id
  | UpdateRideStatus _ ride_id _ => Some ride_id
  | CancelRide ride_id _ => Some ride_id
  | GetRideHistory => None
  end.

(** What holds of the ride stored under [key] in every service reached from
    [CabBookingService()]. *)
Definition booked_as (key : string) (ride : Ride.t) : Prop :=
  Ride.ride_id ride = key
  /\ (String.length key <= 8)%nat
  /\ Ride.fare ride <> None.

Definition stamped_as_written (ride : Ride.t) : Prop :=
  (Ride.driver ride = None <-> Ride.accepted_at ride = None)
  /\ (Ride.driver ride = None -> Ride.eta_minutes ride = 0)
  /\ (Ride.status ride = RideStatus.IN_PROGRESS -> Ride.started_at ride <> None)
  /\ (Ride.status ride = RideStatus.COMPLETED -> Ride.completed_at ride <> None).

(** A method of [app.py] ends as the method of the service does: both
    return the same value, or both raise the same exception. *)
Definition same_outcome {A : Type} (o : App.outcome A) (r : result A) : Prop :=
  match o, r with
  | App.Returned a, Ok a' => a = a'
  | App.Raised (App.Service e), Raise e' => e = e'
  | _, _ => False
  end.

(** The calls that take a ride from the assignment of a driver to its
    completion, and the ride they make of [ride]. *)
Definition course
    (draws : Driver.draws) (randint : Z -> Z -> Z)
    (accepted arriving started completed : Datetime.t) (ride_id : string) : list call :=
  [AssignDriver draws accepted randint ride_id;
   UpdateRideStatus arriving ride_id RideStatus.ARRIVING;
   UpdateRideStatus started ride_id RideStatus.IN_PROGRESS;
   UpdateRideStatus completed ride_id RideStatus.COMPLETED].

Definition driven
    (draws : Driver.draws) (randint : Z -> Z -> Z)
    (accepted started completed : Datetime.t) (ride : Ride.t) : Ride.t :=
  {| Ride.ride_id := Ride.ride_id ride;
     Ride.cab_type := Ride.cab_type ride;
     Ride.pickup := Ride.pickup ride;
     Ride.dropoff := Ride.dropoff ride;
     Ride.status := RideStatus.COMPLETED;
     Ride.driver := Some (Driver.generate_random draws (Ride.pickup ride));
     Ride.fare := Ride.fare ride;
     Ride.created_at := Ride.created_at ride;
     Ride.accepted_at := Some accepted;
     Ride.started_at := Some started;
     Ride.completed_at := Some completed;
     Ride.eta_minutes := randint 3 10;
     Ride.distance_km := Ride.distance_km ride;
     Ride.duration_minutes := Ride.duration_minutes ride |}.


(** * Properties *)

(** ** The dictionary *)

Module DictFacts.
Import Dict.

Section WithValue.
Context {V : Type}.
Implicit Types (d : Dict.t V) (k : string) (v : V).

Lemma get_set_same k v d : get k (set k v d) = Some v.
Proof.
  induction d as [|[k' v'] d IH]; simpl.
  - now rewrite String.eqb_refl.
  - destruct (String.eqb k k') eqn:E; simpl; now rewrite E.
Qed.

Lemma get_set_other k k' v d : k' <> k -> get k' (set k v d) = get k' d.
Proof.
  intros Hne. induction d as [|[k0 v0] d IH]; simpl.
  - destruct (String.eqb k' k) eqn:E; [|reflexivity].
    apply String.eqb_eq in E. contradiction.
  - destruct (String.eqb k k0) eqn:E; simpl.
    + apply String.eqb_eq in E. subst k0.
      destruct (String.eqb k' k) eqn:E'; [|reflexivity].
      apply String.eqb_eq in E'. contradiction.
    + now rewrite IH.
Qed.

Lemma get_Some_In k v d : get k d = Some v -> In (k, v) d.
Proof.
  induction d as [|[k' v'] d IH]; simpl; [discriminate|].
  destruct (String.eqb k k') eqn:E.
  - apply String.eqb_eq in E. intros [= ->]. subst. now left.
  - intros H. right. now apply IH.
Qed.

Lemma get_None_keys k d : get k d = None <-> ~ In k (keys d).
Proof.
  induction d as [|[k' v'] d IH]; simpl.
  - tauto.
  - destruct (String.eqb k k') eqn:E.
    + apply String.eqb_eq in E. subst. split; [discriminate|]. intros H. exfalso. apply H. now left.
    + apply String.eqb_neq in E. rewrite IH. split.
      * intros H [H'|H']; [congruence|contradiction].
      * intros H H'. apply H. now right.
Qed.

Lemma get_Some_keys k d : (exists v, get k d = Some v) <-> In k (keys d).
Proof.
  destruct (get k d) eqn:E.
  - split; [|eauto]. intros _.
    apply get_Some_In in E. apply (in_map fst) in E. exact E.
  - split; [intros [v Hv]; discriminate|].
    intros H. apply get_None_keys in E. contradiction.
Qed.

Lemma In_get k v d : wf d -> In (k, v) d -> get k d = Some v.
Proof.
  unfold wf. induction d as [|[k' v'] d IH]; simpl; [tauto|].
  intros Hnd [H|H].
  - injection H as -> ->. now rewrite String.eqb_refl.
  - inversion Hnd as [|? ? Hnotin Hnd']; subst.
    destruct (String.eqb k k') eqn:E.
    + apply String.eqb_eq in E. subst k'. exfalso. apply Hnotin.
      apply (in_map fst) in H. exact H.
    + now apply IH.
Qed.

(** Assignment to a key the dictionary holds keeps the keys and their order. *)
Lemma keys_set_present k v d : In k (keys d) -> keys (set k v d) = keys d.
Proof.
  induction d as [|[k' v'] d IH]; simpl; [tauto|].
  intros H. destruct (String.eqb k k') eqn:E; simpl; [reflexivity|].
  apply String.eqb_neq in E. f_equal. apply IH.
  destruct H as [H|H]; [congruence|exact H].
Qed.

(** Assignment to a new key appends it. *)
Lemma keys_set_absent k v d : ~ In k (keys d) -> keys (set k v d) = (keys d ++ [k])%list.
Proof.
  induction d as [|[k' v'] d IH]; simpl; [reflexivity|].
  intros H. destruct (String.eqb k k') eqn:E; simpl.
  - apply String.eqb_eq in E. subst. exfalso. apply H. now left.
  - f_equal. apply IH. intros H'. apply H. now right.
Qed.

Lemma keys_set_incl k v d : incl (keys d) (keys (set k v d)).
Proof.
  destruct (in_dec string_dec k (keys d)) as [H|H].
  - rewrite keys_set_present by exact H. apply incl_refl.
  - rewrite keys_set_absent by exact H. apply incl_appl, incl_refl.
Qed.

Lemma wf_empty : wf (@empty V).
Proof. constructor. Qed.

Lemma wf_set k v d : wf d -> wf (set k v d).
Proof.
  unfold wf. intros Hd.
  destruct (in_dec string_dec k (keys d)) as [H|H].
  - now rewrite keys_set_present.
  - rewrite keys_set_absent by exact H.
    apply NoDup_app; [exact Hd|repeat constructor; simpl; tauto|].
    intros x Hx [<-|[]]. contradiction.
Qed.

End WithValue.

End DictFacts.

(** ** Statuses *)

Lemma status_eqb_eq a b : RideStatus.eqb a b = true <-> a = b.
Proof. destruct a, b; simpl; split; intros E; try reflexivity; discriminate. Qed.

(** ** The builtins and the sample calls *)

Example round_half_to_even :
  (PyFloat.round 0.125 2 = 0.12 /\ PyFloat.round 0.375 2 = 0.38
   /\ PyFloat.round 2.5 0 = 2 /\ PyFloat.round 3.5 0 = 4)%float.
Proof. repeat split; vm_compute; reflexivity. Qed.

(** [2.675] and [1.15] are the floats just below these decimals. *)
Example round_takes_the_exact_value :
  (PyFloat.round 2.675 2 = 2.67 /\ PyFloat.round 1.15 1 = 1.1
   /\ PyFloat.round (-0.04) 1 = -0 /\ PyFloat.round infinity 2 = infinity)%float.
Proof. repeat split; vm_compute; reflexivity. Qed.

Example int_truncates :
  PyFloat.int 10.457%float = Ok 10 /\ PyFloat.int (-10.457)%float = Ok (-10)
  /\ PyFloat.int 0.99%float = Ok 0
  /\ PyFloat.int nan = Raise (ValueError "cannot convert float NaN to integer")
  /\ PyFloat.int infinity
     = Raise (OverflowError "cannot convert float infinity to integer").
Proof. repeat split; vm_compute; reflexivity. Qed.

Example sample_distance :
  Location.distance_to (H := Sample.pow) Sample.pickup Sample.dropoff
  = Ok 5.22875983097319%float.
Proof. vm_compute. reflexivity. Qed.

Example sample_ride_id : PyStr.upper (PyStr.prefix 8 Sample.uuid4) = Sample.ride_id.
Proof. reflexivity. Qed.

Example sample_statuses :
  Sample.status_in Sample.booked = Some RideStatus.SEARCHING
  /\ Sample.status_in Sample.accepted = Some RideStatus.ACCEPTED
  /\ Sample.status_in Sample.arriving = Some RideStatus.ARRIVING
  /\ Sample.status_in Sample.in_progress = Some RideStatus.IN_PROGRESS
  /\ Sample.status_in Sample.completed = Some RideStatus.COMPLETED.
Proof. repeat split; vm_compute; reflexivity. Qed.

(** ** The methods on a stored ride and on an unknown identifier *)

Lemma same_booking_refl r : same_booking r r.
Proof. repeat split. Qed.

Lemma same_booking_trans r1 r2 r3 :
  same_booking r1 r2 -> same_booking r2 r3 -> same_booking r1 r3.
Proof.
  unfold same_booking. intros H12 H23.
  decompose [and] H12. decompose [and] H23. repeat split; congruence.
Qed.

Lemma others_kept_set id ride self :
  In id (Dict.keys (rides self)) ->
  others_kept id self (set_rides (Dict.set id ride (rides self)) self).
Proof.
  intros Hin. repeat split; simpl.
  - intros k Hk. now apply DictFacts.get_set_other.
  - now apply DictFacts.keys_set_present.
Qed.

Lemma stored_key id (self : CabBookingService) ride :
  Dict.get id (rides self) = Some ride -> In id (Dict.keys (rides self)).
Proof. intros Hget. apply DictFacts.get_Some_keys. eauto. Qed.

Lemma get_ride_stored id self ride :
  Dict.get id (rides self) = Some ride -> get_ride id self = (Ok ride, self).
Proof. unfold get_ride. now intros ->. Qed.

Lemma get_ride_unknown id self :
  Dict.get id (rides self) = None -> get_ride id self = not_found self.
Proof. unfold get_ride. now intros ->. Qed.

Lemma assign_driver_stored draws now randint id self ride :
  Dict.get id (rides self) = Some ride ->
  let driver := Driver.generate_random draws (Ride.pickup ride) in
  let ride' :=
    Ride.set_eta_minutes (randint 3 10)
      (Ride.set_accepted_at (Some now)
         (Ride.set_status RideStatus.ACCEPTED (Ride.set_driver (Some driver) ride))) in
  assign_driver draws now randint id self
  = (Ok driver, set_rides (Dict.set id ride' (rides self)) self).
Proof. unfold assign_driver. now intros ->. Qed.

Lemma assign_driver_unknown draws now randint id self :
  Dict.get id (rides self) = None ->
  assign_driver draws now randint id self = not_found self.
Proof. unfold assign_driver. now intros ->. Qed.

Lemma update_ride_status_stored now id st self ride :
  Dict.get id (rides self) = Some ride ->
  exists ride',
    update_ride_status now id st self
    = (Ok ride', set_rides (Dict.set id ride' (rides self)) self)
    /\ Ride.status ride' = st
    /\ Ride.started_at ride'
       = stamp_on RideStatus.IN_PROGRESS st now (Ride.started_at ride)
    /\ Ride.completed_at ride'
       = stamp_on RideStatus.COMPLETED st now (Ride.completed_at ride)
    /\ Ride.accepted_at ride' = Ride.accepted_at ride
    /\ Ride.driver ride' = Ride.driver ride
    /\ Ride.eta_minutes ride' = Ride.eta_minutes ride
    /\ same_booking ride ride'.
Proof.
  intros Hget. unfold update_ride_status. rewrite Hget.
  eexists. split; [reflexivity|].
  unfold stamp_on. destruct st; simpl; repeat split.
Qed.

Lemma update_ride_status_unknown now id st self :
  Dict.get id (rides self) = None ->
  update_ride_status now id st self = not_found self.
Proof. unfold update_ride_status. now intros ->. Qed.

(** The fee is computed from the status that was just overwritten. *)
Lemma cancel_ride_stored id why self ride :
  Dict.get id (rides self) = Some ride ->
  cancel_ride id why self
  = (Ok {| cancelled_ride_id := id; cancelled_status := "cancelled";
           reason := why; cancellation_fee := 0 |},
     set_rides (Dict.set id (Ride.set_status RideStatus.CANCELLED ride) (rides self)) self).
Proof. unfold cancel_ride. now intros ->. Qed.

Lemma cancel_ride_unknown id why self :
  Dict.get id (rides self) = None -> cancel_ride id why self = not_found self.
Proof. unfold cancel_ride. now intros ->. Qed.

(** C1.  Replaying book, assign, cancel: the ride is ACCEPTED (and, one
    status update later, ARRIVING) at the moment of the call, and
    [cancel_ride] answers a fee of 0, not 50. *)
Theorem cancel_ride_fee_after_acceptance :
  Sample.status_in Sample.accepted = Some RideStatus.ACCEPTED
  /\ fst (cancel_ride Sample.ride_id "User cancelled" Sample.accepted)
     = Ok {| cancelled_ride_id := "A1B2C3D4"; cancelled_status := "cancelled";
             reason := "User cancelled"; cancellation_fee := 0 |}
  /\ Sample.status_in Sample.arriving = Some RideStatus.ARRIVING
  /\ fst (cancel_ride Sample.ride_id "User cancelled" Sample.arriving)
     = Ok {| cancelled_ride_id := "A1B2C3D4"; cancelled_status := "cancelled";
             reason := "User cancelled"; cancellation_fee := 0 |}.
Proof. repeat split; vm_compute; reflexivity. Qed.

(** The fee of every cancellation that returns is 0, whatever the status. *)
Lemma cancel_ride_fee_zero id why self res self' :
  cancel_ride id why self = (Ok res, self') -> cancellation_fee res = 0.
Proof.
  destruct (Dict.get id (rides self)) as [ride|] eqn:Hget.
  - rewrite (cancel_ride_stored _ _ _ _ Hget). now intros [= <- _].
  - rewrite (cancel_ride_unknown _ _ _ Hget). discriminate.
Qed.

(** C2, as stated, fails: on the completed sample ride a status update back
    to SEARCHING returns and is stored, and so is a cancellation. *)
Lemma transitions_out_of_completed :
  Sample.status_in Sample.completed = Some RideStatus.COMPLETED
  /\ (exists ride self',
        update_ride_status (Sample.at_9h 1000) Sample.ride_id RideStatus.SEARCHING
          Sample.completed = (Ok ride, self')
        /\ Ride.status ride = RideStatus.SEARCHING
        /\ Sample.status_in self' = Some RideStatus.SEARCHING)
  /\ (exists res self',
        cancel_ride Sample.ride_id "changed my mind" Sample.completed = (Ok res, self')
        /\ Sample.status_in self' = Some RideStatus.CANCELLED).
Proof.
  split; [vm_compute; reflexivity|]. split.
  - do 2 eexists. split; [vm_compute; reflexivity|]. split; reflexivity.
  - do 2 eexists. split; [vm_compute; reflexivity|]. reflexivity.
Qed.

(** C2, amended.  [update_ride_status] and [cancel_ride] test nothing but the
    presence of the ride: on a stored ride, from any status, the update to
    any status returns the ride with that status, [started_at] stamped on
    IN_PROGRESS, [completed_at] stamped on COMPLETED and every other field
    as it was, and the cancellation returns and stores the ride as
    CANCELLED; on an unknown identifier both raise "Ride not found" and
    leave the service as it was. *)
Theorem status_updates_test_presence_only now id st why self :
  (forall ride, Dict.get id (rides self) = Some ride ->
     (exists ride',
        update_ride_status now id st self
        = (Ok ride', set_rides (Dict.set id ride' (rides self)) self)
        /\ Ride.status ride' = st
        /\ Ride.started_at ride'
           = stamp_on RideStatus.IN_PROGRESS st now (Ride.started_at ride)
        /\ Ride.completed_at ride'
           = stamp_on RideStatus.COMPLETED st now (Ride.completed_at ride)
        /\ Ride.accepted_at ride' = Ride.accepted_at ride
        /\ Ride.driver ride' = Ride.driver ride
        /\ Ride.eta_minutes ride' = Ride.eta_minutes ride
        /\ same_booking ride ride')
     /\ (exists res,
           cancel_ride id why self
           = (Ok res,
              set_rides (Dict.set id (Ride.set_status RideStatus.CANCELLED ride)
                           (rides self)) self)
           /\ cancelled_ride_id res = id /\ reason res = why))
  /\ (Dict.get id (rides self) = None ->
      update_ride_status now id st self = (Raise (ValueError "Ride not found"), self)
      /\ cancel_ride id why self = (Raise (ValueError "Ride not found"), self)).
Proof.
  split.
  - intros ride Hget. split.
    + exact (update_ride_status_stored now id st self ride Hget).
    + eexists. split; [exact (cancel_ride_stored id why self ride Hget)|].
      split; reflexivity.
  - intros Hget. split.
    + exact (update_ride_status_unknown now id st self Hget).
    + exact (cancel_ride_unknown id why self Hget).
Qed.

(** What one [assign_driver] does to a stored ride, whatever its status. *)
Lemma assign_driver_effect draws now randint id self ride :
  Dict.get id (rides self) = Some ride ->
  exists ride' self',
    assign_driver draws now randint id self
    = (Ok (Driver.generate_random draws (Ride.pickup ride)), self')
    /\ Dict.get id (rides self') = Some ride'
    /\ others_kept id self self'
    /\ Ride.status ride' = RideStatus.ACCEPTED
    /\ Ride.driver ride' = Some (Driver.generate_random draws (Ride.pickup ride))
    /\ Ride.accepted_at ride' = Some now
    /\ Ride.eta_minutes ride' = randint 3 10
    /\ Ride.started_at ride' = Ride.started_at ride
    /\ Ride.completed_at ride' = Ride.completed_at ride
    /\ same_booking ride ride'.
Proof.
  intros Hget. do 2 eexists.
  split; [exact (assign_driver_stored draws now randint id self ride Hget)|].
  split; [apply DictFacts.get_set_same|].
  split; [apply others_kept_set, (stored_key _ _ _ Hget)|].
  repeat split.
Qed.

(** C3, as stated, fails: a second [assign_driver] on the sample ride, already
    ACCEPTED, returns another driver and replaces the driver and
    [accepted_at] of the first call. *)
Lemma assign_driver_twice_succeeds_twice :
  Sample.status_in Sample.accepted = Some RideStatus.ACCEPTED
  /\ option_map (fun r => (option_map Driver.name (Ride.driver r), Ride.accepted_at r))
       (Dict.get Sample.ride_id (rides Sample.accepted))
     = Some (Some "Amit Singh", Some (Sample.at_9h 5))
  /\ exists driver self',
       assign_driver Sample.draws' (Sample.at_9h 50) Sample.randint Sample.ride_id
         Sample.accepted = (Ok driver, self')
       /\ Driver.name driver = "Rahul Kumar"
       /\ option_map (fun r => (option_map Driver.name (Ride.driver r), Ride.accepted_at r))
            (Dict.get Sample.ride_id (rides self'))
          = Some (Some "Rahul Kumar", Some (Sample.at_9h 50)).
Proof.
  split; [vm_compute; reflexivity|]. split; [vm_compute; reflexivity|].
  do 2 eexists. split; [vm_compute; reflexivity|]. split; vm_compute; reflexivity.
Qed.

(** C3, amended.  For every ride in the registry [assign_driver] returns,
    whatever the status of the ride: it stores status ACCEPTED, the
    generated driver, [accepted_at = now] and the ETA that
    [random.randint(3, 10)] answers, an integer of [3,10], and keeps the
    rest of the ride and of the registry.  A second call on the same ride
    returns as well and replaces the driver, [accepted_at] and the ETA of
    the first. *)
Theorem assign_driver_tests_presence_only
    draws now randint draws2 now2 randint2 id self ride :
  Dict.get id (rides self) = Some ride ->
  3 <= randint 3 10 <= 10 ->
  3 <= randint2 3 10 <= 10 ->
  exists driver ride' self',
    assign_driver draws now randint id self = (Ok driver, self')
    /\ Dict.get id (rides self') = Some ride'
    /\ others_kept id self self'
    /\ Ride.status ride' = RideStatus.ACCEPTED
    /\ Ride.driver ride' = Some driver
    /\ driver = Driver.generate_random draws (Ride.pickup ride)
    /\ Ride.accepted_at ride' = Some now
    /\ Ride.eta_minutes ride' = randint 3 10
    /\ 3 <= Ride.eta_minutes ride' <= 10
    /\ Ride.started_at ride' = Ride.started_at ride
    /\ Ride.completed_at ride' = Ride.completed_at ride
    /\ same_booking ride ride'
    /\ exists driver2 ride'' self'',
         assign_driver draws2 now2 randint2 id self' = (Ok driver2, self'')
         /\ Dict.get id (rides self'') = Some ride''
         /\ others_kept id self self''
         /\ Ride.status ride'' = RideStatus.ACCEPTED
         /\ Ride.driver ride'' = Some driver2
         /\ driver2 = Driver.generate_random draws2 (Ride.pickup ride)
         /\ Ride.accepted_at ride'' = Some now2
         /\ Ride.eta_minutes ride'' = randint2 3 10
         /\ 3 <= Ride.eta_minutes ride'' <= 10
         /\ Ride.started_at ride'' = Ride.started_at ride
         /\ Ride.completed_at ride'' = Ride.completed_at ride
         /\ same_booking ride ride''.
Proof.
  intros Hget Heta Heta2.
  destruct (assign_driver_effect draws now randint id self ride Hget)
    as (ride' & self' & Hcall & Hget' & Hkept & Hst & Hdrv & Hacc & Heq & Hsta & Hcom & Hsame).
  destruct (assign_driver_effect draws2 now2 randint2 id self' ride' Hget')
    as (ride'' & self'' & Hcall2 & Hget'' & Hkept2 & Hst2 & Hdrv2 & Hacc2 & Heq2
        & Hsta2 & Hcom2 & Hsame2).
  assert (Hpick : Ride.pickup ride' = Ride.pickup ride) by apply Hsame.
  rewrite Hpick in Hcall2, Hdrv2.
  assert (Hkept' : others_kept id self self'').
  { destruct Hkept as (Hget1 & Hkeys1 & Hsurge1), Hkept2 as (Hget2 & Hkeys2 & Hsurge2).
    repeat split.
    - intros k Hk. now rewrite (Hget2 k Hk), (Hget1 k Hk).
    - now rewrite Hkeys2.
    - now rewrite Hsurge2. }
  exists (Driver.generate_random draws (Ride.pickup ride)), ride', self'.
  repeat (split; [first [assumption | reflexivity | now rewrite Heq]|]).
  exists (Driver.generate_random draws2 (Ride.pickup ride)), ride'', self''.
  repeat (split; [first [assumption | reflexivity | now rewrite Heq2
                         | now rewrite Hsta2 | now rewrite Hcom2]|]).
  exact (same_booking_trans _ _ _ Hsame Hsame2).
Qed.

Lemma assign_driver_tests_presence_only_witness :
  exists driver ride' self',
    assign_driver Sample.draws (Sample.at_9h 5) Sample.randint Sample.ride_id
      Sample.completed = (Ok driver, self')
    /\ Dict.get Sample.ride_id (rides self') = Some ride'
    /\ Ride.status ride' = RideStatus.ACCEPTED
    /\ Ride.eta_minutes ride' = Sample.randint 3 10
    /\ 3 <= Ride.eta_minutes ride' <= 10.
Proof.
  destruct (Dict.get Sample.ride_id (rides Sample.completed)) as [ride|] eqn:Hget;
    [|vm_compute in Hget; discriminate].
  destruct (assign_driver_tests_presence_only
              Sample.draws (Sample.at_9h 5) Sample.randint
              Sample.draws' (Sample.at_9h 50) Sample.randint
              Sample.ride_id Sample.completed ride Hget)
    as (driver & ride' & self' & Hcall & Hget' & _ & Hst & _ & _ & _ & Hdrawn & Heta & _);
    [vm_compute; split; discriminate | vm_compute; split; discriminate |].
  exists driver, ride', self'. repeat split; try assumption; apply Heta.
Defined.

(** C9.  [cancel_ride] on a stored ride stores the same ride with status
    CANCELLED: identifier, cab type, pickup, dropoff, driver, fare, the four
    timestamps, ETA, distance and duration are those of before, the other
    rides and the keys of the registry are untouched, and the reason (with
    the fee) is in the returned dictionary only; a [Ride] has no field for
    them. *)
Theorem cancel_ride_writes_status_only id why self ride :
  Dict.get id (rides self) = Some ride ->
  exists res ride' self',
    cancel_ride id why self = (Ok res, self')
    /\ Dict.get id (rides self') = Some ride'
    /\ ride' = Ride.set_status RideStatus.CANCELLED ride
    /\ Ride.status ride' = RideStatus.CANCELLED
    /\ Ride.ride_id ride' = Ride.ride_id ride
    /\ Ride.cab_type ride' = Ride.cab_type ride
    /\ Ride.pickup ride' = Ride.pickup ride
    /\ Ride.dropoff ride' = Ride.dropoff ride
    /\ Ride.driver ride' = Ride.driver ride
    /\ Ride.fare ride' = Ride.fare ride
    /\ Ride.created_at ride' = Ride.created_at ride
    /\ Ride.accepted_at ride' = Ride.accepted_at ride
    /\ Ride.started_at ride' = Ride.started_at ride
    /\ Ride.completed_at ride' = Ride.completed_at ride
    /\ Ride.eta_minutes ride' = Ride.eta_minutes ride
    /\ Ride.distance_km ride' = Ride.distance_km ride
    /\ Ride.duration_minutes ride' = Ride.duration_minutes ride
    /\ others_kept id self self'
    /\ cancelled_ride_id res = id
    /\ cancelled_status res = "cancelled"
    /\ reason res = why.
Proof.
  intros Hget. do 3 eexists.
  split; [exact (cancel_ride_stored id why self ride Hget)|].
  split; [apply DictFacts.get_set_same|].
  do 15 (split; [reflexivity|]).
  split; [apply others_kept_set, (stored_key _ _ _ Hget)|].
  repeat split.
Qed.

Lemma cancel_ride_writes_status_only_witness :
  exists res ride' self',
    cancel_ride Sample.ride_id "User cancelled" Sample.accepted = (Ok res, self')
    /\ Dict.get Sample.ride_id (rides self') = Some ride'
    /\ Ride.status ride' = RideStatus.CANCELLED
    /\ Ride.accepted_at ride' = Some (Sample.at_9h 5)
    /\ reason res = "User cancelled".
Proof.
  destruct (Dict.get Sample.ride_id (rides Sample.accepted)) as [ride|] eqn:Hget;
    [|vm_compute in Hget; discriminate].
  destruct (cancel_ride_writes_status_only Sample.ride_id "User cancelled"
              Sample.accepted ride Hget)
    as (res & ride' & self' & Hcall & Hget' & _ & Hst & _ & _ & _ & _ & _ & _ & _
        & Hacc & _ & _ & _ & _ & _ & _ & _ & _ & Hwhy).
  exists res, ride', self'. repeat split; try assumption.
  rewrite Hacc. vm_compute in Hget. now injection Hget as <-.
Defined.

(** ** Sequences of calls *)

Section Sequences.
Context `{PyFloat.Pow}.

Lemma book_ride_returns uuid4 uniform now created pickup dropoff cab_type self ride self' :
  book_ride uuid4 uniform now created pickup dropoff cab_type self = (Ok ride, self') ->
  self' = set_rides (Dict.set (PyStr.upper (PyStr.prefix 8 uuid4)) ride (rides self)) self
  /\ Ride.ride_id ride = PyStr.upper (PyStr.prefix 8 uuid4)
  /\ Ride.status ride = RideStatus.SEARCHING
  /\ Ride.created_at ride = created.
Proof.
  unfold book_ride.
  destruct (Location.distance_to pickup dropoff) as [distance|e]; simpl; [|discriminate].
  destruct (PyFloat.int _) as [duration|e]; simpl; [|discriminate].
  destruct (get_fare_estimate _ _ _ _ _) as [fare|e]; simpl; [|discriminate].
  intros [= <- <-]. repeat split.
Qed.

Lemma book_ride_raises uuid4 uniform now created pickup dropoff cab_type self e self' :
  book_ride uuid4 uniform now created pickup dropoff cab_type self = (Raise e, self') ->
  self' = self.
Proof.
  unfold book_ride.
  destruct (Location.distance_to pickup dropoff) as [distance|e0]; simpl;
    [|now intros [= _ <-]].
  destruct (PyFloat.int _) as [duration|e0]; simpl; [|now intros [= _ <-]].
  destruct (get_fare_estimate _ _ _ _ _) as [fare|e0]; simpl; [|now intros [= _ <-]].
  discriminate.
Qed.

(** A call either leaves the registry alone or assigns one key of it. *)
Lemma step_rides c self :
  rides (step c self) = rides self
  \/ exists id ride,
       rides (step c self) = Dict.set id ride (rides self)
       /\ (In id (Dict.keys (rides self)) \/ booked_id c = Some id).
Proof.
  destruct c as [uniform now pickup dropoff cab | uuid4 uniform now created pickup dropoff cab
                | draws now randint id | id | now id st | id why | ]; simpl.
  - now left.
  - destruct (book_ride uuid4 uniform now created pickup dropoff cab self)
      as [[ride|e] self'] eqn:Hcall; simpl.
    + apply book_ride_returns in Hcall. destruct Hcall as (-> & _).
      right. do 2 eexists. split; [reflexivity|]. now right.
    + apply book_ride_raises in Hcall. subst. now left.
  - destruct (Dict.get id (rides self)) as [ride|] eqn:Hget.
    + rewrite (assign_driver_stored _ _ _ _ _ _ Hget). right. do 2 eexists.
      split; [reflexivity|]. left. exact (stored_key _ _ _ Hget).
    + rewrite (assign_driver_unknown _ _ _ _ _ Hget). now left.
  - unfold get_ride. destruct (Dict.get id (rides self)); now left.
  - destruct (Dict.get id (rides self)) as [ride|] eqn:Hget.
    + destruct (update_ride_status_stored now id st self ride Hget) as (ride' & -> & _).
      right. do 2 eexists. split; [reflexivity|]. left. exact (stored_key _ _ _ Hget).
    + rewrite (update_ride_status_unknown _ _ _ _ Hget). now left.
  - destruct (Dict.get id (rides self)) as [ride|] eqn:Hget.
    + rewrite (cancel_ride_stored _ _ _ _ Hget). right. do 2 eexists.
      split; [reflexivity|]. left. exact (stored_key _ _ _ Hget).
    + rewrite (cancel_ride_unknown _ _ _ Hget). now left.
  - now left.
Qed.

Lemma step_keys_incl c self :
  incl (Dict.keys (rides self)) (Dict.keys (rides (step c self))).
Proof.
  destruct (step_rides c self) as [->|(id & ride & -> & _)].
  - apply incl_refl.
  - apply DictFacts.keys_set_incl.
Qed.

Lemma step_keys_not_booking c self :
  booked_id c = None -> Dict.keys (rides (step c self)) = Dict.keys (rides self).
Proof.
  intros Hnb. destruct (step_rides c self) as [->|(id & ride & -> & [Hin|Hb])].
  - reflexivity.
  - now apply DictFacts.keys_set_present.
  - congruence.
Qed.

Lemma step_wf c self : Dict.wf (rides self) -> Dict.wf (rides (step c self)).
Proof.
  intros Hwf. destruct (step_rides c self) as [->|(id & ride & -> & _)].
  - exact Hwf.
  - now apply DictFacts.wf_set.
Qed.

Lemma run_keys_incl cs self :
  incl (Dict.keys (rides self)) (Dict.keys (rides (run cs self))).
Proof.
  revert self. induction cs as [|c cs IH]; intros self; simpl.
  - apply incl_refl.
  - eapply incl_tran; [apply step_keys_incl|apply IH].
Qed.

Lemma run_wf cs self : Dict.wf (rides self) -> Dict.wf (rides (run cs self)).
Proof.
  revert self. induction cs as [|c cs IH]; intros self Hwf; simpl.
  - exact Hwf.
  - apply IH, step_wf, Hwf.
Qed.

(** Every service reached from [CabBookingService()] holds each key once. *)
Lemma reachable_wf cs : Dict.wf (rides (run cs init)).
Proof. apply run_wf, DictFacts.wf_empty. Qed.

End Sequences.

(** ** Calls that raise *)

Section Raising.
Context `{PyFloat.Pow}.

(** A call that raises has written nothing. *)
Lemma raised_keeps_service c self e : raised c self = Some e -> step c self = self.
Proof.
  destruct c as [uniform now pickup dropoff cab | uuid4 uniform now created pickup dropoff cab
                | draws now randint id | id | now id st | id why | ]; simpl.
  - reflexivity.
  - destruct (book_ride uuid4 uniform now created pickup dropoff cab self)
      as [[ride|e0] self'] eqn:Hcall; simpl; [discriminate|].
    intros _. now apply book_ride_raises in Hcall.
  - destruct (Dict.get id (rides self)) as [ride|] eqn:Hget.
    + rewrite (assign_driver_stored _ _ _ _ _ _ Hget). discriminate.
    + now rewrite (assign_driver_unknown _ _ _ _ _ Hget).
  - unfold get_ride. now destruct (Dict.get id (rides self)).
  - destruct (Dict.get id (rides self)) as [ride|] eqn:Hget.
    + destruct (update_ride_status_stored now id st self ride Hget) as (ride' & -> & _).
      discriminate.
    + now rewrite (update_ride_status_unknown _ _ _ _ Hget).
  - destruct (Dict.get id (rides self)) as [ride|] eqn:Hget.
    + rewrite (cancel_ride_stored _ _ _ _ Hget). discriminate.
    + now rewrite (cancel_ride_unknown _ _ _ Hget).
  - reflexivity.
Qed.

(** C8.  For an identifier the registry does not hold, [get_ride],
    [assign_driver], [update_ride_status] and [cancel_ride] each raise
    "Ride not found" and hand back the service they were given; and whenever
    a call of any method raises, for whatever identifier, the service, with
    its keys and every stored ride, is the one before the call. *)
Theorem unknown_ride_raises_and_writes_nothing
    id self draws now randint st why :
  (~ In id (Dict.keys (rides self)) ->
     get_ride id self = (Raise (ValueError "Ride not found"), self)
     /\ assign_driver draws now randint id self
        = (Raise (ValueError "Ride not found"), self)
     /\ update_ride_status now id st self
        = (Raise (ValueError "Ride not found"), self)
     /\ cancel_ride id why self = (Raise (ValueError "Ride not found"), self))
  /\ (forall c e, raised c self = Some e -> step c self = self)
  /\ (forall e,
        raised (GetRide id) self = Some e
        \/ raised (AssignDriver draws now randint id) self = Some e
        \/ raised (UpdateRideStatus now id st) self = Some e
        \/ raised (CancelRide id why) self = Some e ->
        e = ValueError "Ride not found" /\ ~ In id (Dict.keys (rides self))).
Proof.
  split; [|split].
  - intros Hnot. apply DictFacts.get_None_keys in Hnot.
    rewrite (get_ride_unknown _ _ Hnot), (assign_driver_unknown _ _ _ _ _ Hnot),
      (update_ride_status_unknown _ _ _ _ Hnot), (cancel_ride_unknown _ _ _ Hnot).
    repeat split.
  - intros c e. apply raised_keeps_service.
  - intros e. simpl. destruct (Dict.get id (rides self)) as [ride|] eqn:Hget.
    + rewrite (get_ride_stored _ _ _ Hget), (assign_driver_stored _ _ _ _ _ _ Hget),
        (cancel_ride_stored _ _ _ _ Hget).
      destruct (update_ride_status_stored now id st self ride Hget) as (ride' & -> & _).
      simpl. intros [E|[E|[E|E]]]; discriminate E.
    + rewrite (get_ride_unknown _ _ Hget), (assign_driver_unknown _ _ _ _ _ Hget),
        (update_ride_status_unknown _ _ _ _ Hget), (cancel_ride_unknown _ _ _ Hget).
      apply DictFacts.get_None_keys in Hget. simpl.
      intros [E|[E|[E|E]]]; injection E as <-; now split.
Qed.

End Raising.

(** ** The registry over sequences of calls *)

(** C10, as stated, fails: a booking whose UUID starts with the eight
    characters of a stored ride's identifier returns, and the registry has
    the one key it had; the accepted ride stored under it is replaced by the
    new one. *)
Lemma book_ride_on_a_stored_identifier :
  Dict.keys (rides Sample.accepted) = ["A1B2C3D4"]
  /\ Sample.status_in Sample.accepted = Some RideStatus.ACCEPTED
  /\ exists ride self',
       book_ride (H := Sample.pow) "a1b2c3d4-1111-4222-8333-444455556666"
         Sample.uniform (Sample.at_9h 100) (Sample.at_9h 100)
         Sample.dropoff Sample.pickup CabType.MINI Sample.accepted = (Ok ride, self')
       /\ Ride.ride_id ride = "A1B2C3D4"
       /\ Dict.keys (rides self') = ["A1B2C3D4"]
       /\ Dict.get "A1B2C3D4" (rides self') = Some ride
       /\ Ride.status ride = RideStatus.SEARCHING
       /\ Ride.cab_type ride = CabType.MINI.
Proof.
  split; [vm_compute; reflexivity|]. split; [vm_compute; reflexivity|].
  do 2 eexists. split; [vm_compute; reflexivity|].
  repeat split; vm_compute; reflexivity.
Qed.

Section Registry.
Context `{PyFloat.Pow}.

(** C10, amended.  The keys of the registry never go away.  A [book_ride]
    that returns has stored the ride under the identifier cut from its UUID:
    as a new last key when the registry did not hold that identifier, in
    place of the ride stored under it when it did (the code does not look);
    the other entries are kept.  No call shrinks the keys and no call but a
    booking changes them.  So after [book_ride] has returned a ride,
    [get_ride] on its identifier returns after any further calls. *)
Theorem registry_keys_never_go_away
    uuid4 uniform now created pickup dropoff cab_type self ride self' :
  book_ride uuid4 uniform now created pickup dropoff cab_type self = (Ok ride, self') ->
  let id := PyStr.upper (PyStr.prefix 8 uuid4) in
  Ride.ride_id ride = id
  /\ Dict.get id (rides self') = Some ride
  /\ (forall k, k <> id -> Dict.get k (rides self') = Dict.get k (rides self))
  /\ (~ In id (Dict.keys (rides self)) ->
      Dict.keys (rides self') = (Dict.keys (rides self) ++ [id])%list)
  /\ (In id (Dict.keys (rides self)) -> Dict.keys (rides self') = Dict.keys (rides self))
  /\ (forall c s, incl (Dict.keys (rides s)) (Dict.keys (rides (step c s))))
  /\ (forall c s, booked_id c = None -> Dict.keys (rides (step c s)) = Dict.keys (rides s))
  /\ (forall cs, exists ride',
        get_ride id (run cs self') = (Ok ride', run cs self')).
Proof.
  intros Hcall id. apply book_ride_returns in Hcall.
  destruct Hcall as (-> & Hid & _). fold id in Hid |- *. simpl.
  split; [exact Hid|].
  split; [apply DictFacts.get_set_same|].
  split; [intros k Hk; now apply DictFacts.get_set_other|].
  split; [apply DictFacts.keys_set_absent|].
  split; [apply DictFacts.keys_set_present|].
  split; [exact step_keys_incl|].
  split; [exact step_keys_not_booking|].
  intros cs.
  set (self' := set_rides (Dict.set id ride (rides self)) self).
  assert (Hin : In id (Dict.keys (rides (run cs self')))).
  { apply run_keys_incl. apply DictFacts.get_Some_keys.
    exists ride. apply DictFacts.get_set_same. }
  apply DictFacts.get_Some_keys in Hin. destruct Hin as [ride' Hget].
  exists ride'. now apply get_ride_stored.
Qed.

End Registry.

Lemma registry_keys_never_go_away_witness :
  Dict.keys (rides Sample.booked) = ["A1B2C3D4"]
  /\ exists ride',
       get_ride "A1B2C3D4"
         (run (H := Sample.pow)
            [AssignDriver Sample.draws (Sample.at_9h 5) Sample.randint "A1B2C3D4";
             CancelRide "A1B2C3D4" "User cancelled"; GetRideHistory]
            Sample.booked)
       = (Ok ride',
          run (H := Sample.pow)
            [AssignDriver Sample.draws (Sample.at_9h 5) Sample.randint "A1B2C3D4";
             CancelRide "A1B2C3D4" "User cancelled"; GetRideHistory]
            Sample.booked).
Proof.
  destruct (book_ride (H := Sample.pow) Sample.uuid4 Sample.uniform (Sample.at_9h 0)
              (Sample.at_9h 0) Sample.pickup Sample.dropoff CabType.SEDAN init)
    as [[ride|e] self'] eqn:Hcall; [|vm_compute in Hcall; discriminate].
  assert (Hself : self' = Sample.booked)
    by (unfold Sample.booked; now rewrite Hcall).
  destruct (registry_keys_never_go_away (H := Sample.pow) _ _ _ _ _ _ _ _ _ _ Hcall)
    as (_ & _ & _ & Hnew & _ & _ & _ & Hget).
  rewrite Hself in Hnew, Hget. split.
  - rewrite Hnew; [reflexivity|]. simpl. tauto.
  - apply Hget.
Defined.

(** ** Timestamps *)

(** C4, as stated, fails.  A second [assign_driver] at 09:00:50 replaces the
    [accepted_at] of 09:00:05, so the stamp is set twice; and an update of
    the completed ride back to IN_PROGRESS at 09:16:40 leaves [started_at]
    later than the [completed_at] of 09:15:00. *)
Lemma stamps_set_twice_and_out_of_order :
  Sample.stamps_in Sample.accepted = Some (Some (Sample.at_9h 5), None, None)
  /\ Sample.stamps_in
       (snd (assign_driver Sample.draws' (Sample.at_9h 50) Sample.randint Sample.ride_id
               Sample.accepted))
     = Some (Some (Sample.at_9h 50), None, None)
  /\ Sample.stamps_in Sample.completed
     = Some (Some (Sample.at_9h 5), Some (Sample.at_9h 300), Some (Sample.at_9h 900))
  /\ Sample.stamps_in
       (snd (update_ride_status (Sample.at_9h 1000) Sample.ride_id RideStatus.IN_PROGRESS
               Sample.completed))
     = Some (Some (Sample.at_9h 5), Some (Sample.at_9h 1000), Some (Sample.at_9h 900))
  /\ Sample.at_9h 900 < Sample.at_9h 1000.
Proof. repeat split; vm_compute; reflexivity. Qed.

Section Stamps.
Context `{PyFloat.Pow}.

Lemma stamps_explained_refl id cs ride : stamps_explained id cs ride ride.
Proof.
  split; [apply same_booking_refl|]. repeat split; intros Hne; now elim Hne.
Qed.

Lemma stamp_eq_dec (a b : option Datetime.t) : {a = b} + {a <> b}.
Proof. decide equality. apply Z.eq_dec. Qed.

Lemma stamps_explained_app id cs1 cs2 r1 r2 r3 :
  stamps_explained id cs1 r1 r2 ->
  stamps_explained id cs2 r2 r3 ->
  stamps_explained id (cs1 ++ cs2) r1 r3.
Proof.
  intros (Hb1 & Ha1 & Hs1 & Hc1) (Hb2 & Ha2 & Hs2 & Hc2).
  split; [exact (same_booking_trans _ _ _ Hb1 Hb2)|]. split; [|split].
  - intros Hne. destruct (stamp_eq_dec (Ride.accepted_at r3) (Ride.accepted_at r2)) as [E|E].
    + rewrite E in Hne |- *. destruct (Ha1 Hne) as (draws & now & randint & Hin & Heq).
      exists draws, now, randint. split; [apply in_or_app; now left|exact Heq].
    + destruct (Ha2 E) as (draws & now & randint & Hin & Heq).
      exists draws, now, randint. split; [apply in_or_app; now right|exact Heq].
  - intros Hne. destruct (stamp_eq_dec (Ride.started_at r3) (Ride.started_at r2)) as [E|E].
    + rewrite E in Hne |- *. destruct (Hs1 Hne) as (now & Hin & Heq).
      exists now. split; [apply in_or_app; now left|exact Heq].
    + destruct (Hs2 E) as (now & Hin & Heq).
      exists now. split; [apply in_or_app; now right|exact Heq].
  - intros Hne. destruct (stamp_eq_dec (Ride.completed_at r3) (Ride.completed_at r2)) as [E|E].
    + rewrite E in Hne |- *. destruct (Hc1 Hne) as (now & Hin & Heq).
      exists now. split; [apply in_or_app; now left|exact Heq].
    + destruct (Hc2 E) as (now & Hin & Heq).
      exists now. split; [apply in_or_app; now right|exact Heq].
Qed.

Lemma stamp_on_changed stamped st now before :
  stamp_on stamped st now before <> before ->
  st = stamped /\ stamp_on stamped st now before = Some now.
Proof.
  unfold stamp_on. destruct (RideStatus.eqb st stamped) eqn:E.
  - apply status_eqb_eq in E. now split.
  - intros Hne. now elim Hne.
Qed.

(** One call that does not book under [id]. *)
Lemma step_stamps c self id ride :
  Dict.get id (rides self) = Some ride ->
  booked_id c <> Some id ->
  exists ride',
    Dict.get id (rides (step c self)) = Some ride' /\ stamps_explained id [c] ride ride'.
Proof.
  intros Hget Hnb.
  assert (Hsame : exists ride', Dict.get id (rides self) = Some ride'
                                /\ stamps_explained id [c] ride ride')
    by (exists ride; split; [exact Hget|apply stamps_explained_refl]).
  destruct c as [uniform now pickup dropoff cab | uuid4 uniform now created pickup dropoff cab
                | draws now randint id0 | id0 | now id0 st | id0 why | ]; simpl.
  - exact Hsame.
  - destruct (book_ride uuid4 uniform now created pickup dropoff cab self)
      as [[ride0|e] self'] eqn:Hcall; simpl.
    + apply book_ride_returns in Hcall. destruct Hcall as (-> & _). simpl.
      rewrite DictFacts.get_set_other; [exact Hsame|].
      simpl in Hnb. congruence.
    + apply book_ride_raises in Hcall. now subst.
  - destruct (Dict.get id0 (rides self)) as [ride0|] eqn:Hget0.
    + rewrite (assign_driver_stored _ _ _ _ _ _ Hget0). simpl.
      destruct (string_dec id id0) as [<-|Hne].
      * rewrite DictFacts.get_set_same. eexists. split; [reflexivity|].
        assert (ride0 = ride) by congruence. subst ride0.
        split; [repeat split|]. simpl. split; [|split].
        -- intros _. exists draws, now, randint. split; [now left|reflexivity].
        -- intros Hne. now elim Hne.
        -- intros Hne. now elim Hne.
      * rewrite DictFacts.get_set_other by exact Hne. exact Hsame.
    + now rewrite (assign_driver_unknown _ _ _ _ _ Hget0).
  - unfold get_ride. destruct (Dict.get id0 (rides self)); exact Hsame.
  - destruct (Dict.get id0 (rides self)) as [ride0|] eqn:Hget0.
    + destruct (update_ride_status_stored now id0 st self ride0 Hget0)
        as (ride' & -> & _ & Hsta & Hcom & Hacc & _ & _ & Hbook). simpl.
      destruct (string_dec id id0) as [<-|Hne].
      * rewrite DictFacts.get_set_same. exists ride'. split; [reflexivity|].
        assert (ride0 = ride) by congruence. subst ride0.
        split; [exact Hbook|]. split; [|split].
        -- intros Hne. now elim Hne.
        -- rewrite Hsta. intros Hne. apply stamp_on_changed in Hne.
           destruct Hne as [-> Hnow]. exists now. split; [now left|exact Hnow].
        -- rewrite Hcom. intros Hne. apply stamp_on_changed in Hne.
           destruct Hne as [-> Hnow]. exists now. split; [now left|exact Hnow].
      * rewrite DictFacts.get_set_other by exact Hne. exact Hsame.
    + now rewrite (update_ride_status_unknown _ _ _ _ Hget0).
  - destruct (Dict.get id0 (rides self)) as [ride0|] eqn:Hget0.
    + rewrite (cancel_ride_stored _ _ _ _ Hget0). simpl.
      destruct (string_dec id id0) as [<-|Hne].
      * rewrite DictFacts.get_set_same. eexists. split; [reflexivity|].
        assert (ride0 = ride) by congruence. subst ride0.
        split; [repeat split|]. simpl. repeat split; intros Hne; now elim Hne.
      * rewrite DictFacts.get_set_other by exact Hne. exact Hsame.
    + now rewrite (cancel_ride_unknown _ _ _ Hget0).
  - exact Hsame.
Qed.

Lemma run_stamps cs : forall self id ride,
  Dict.get id (rides self) = Some ride ->
  Forall (fun c => booked_id c <> Some id) cs ->
  exists ride',
    Dict.get id (rides (run cs self)) = Some ride' /\ stamps_explained id cs ride ride'.
Proof.
  induction cs as [|c cs IH]; intros self id ride Hget Hnb; simpl.
  - exists ride. split; [exact Hget|apply stamps_explained_refl].
  - inversion Hnb as [|? ? Hc Hcs]; subst.
    destruct (step_stamps c self id ride Hget Hc) as (ride1 & Hget1 & Hexp1).
    destruct (IH (step c self) id ride1 Hget1 Hcs) as (ride' & Hget' & Hexp').
    exists ride'. split; [exact Hget'|].
    exact (stamps_explained_app id [c] cs _ _ _ Hexp1 Hexp').
Qed.

(** C4, amended.  For a ride stored under [id] and any sequence of calls
    none of which books under [id] again, the ride is still stored under
    [id] afterwards, and: [accepted_at] differs from before only if the
    sequence has an [assign_driver] on [id], [started_at] only if it has an
    [update_ride_status] of [id] to IN_PROGRESS, [completed_at] only if it
    has one to COMPLETED, and the stamp is then the clock reading of such a
    call (a repeated call stamps again, and the stamps are ordered as the
    calls and the clock were, not by the code); [created_at], [distance_km]
    and [duration_minutes], with the rest of what the booking fixed, are
    those of before. *)
Theorem stamps_written_by_their_calls id self ride cs :
  Dict.get id (rides self) = Some ride ->
  Forall (fun c => booked_id c <> Some id) cs ->
  exists ride',
    Dict.get id (rides (run cs self)) = Some ride'
    /\ stamps_explained id cs ride ride'
    /\ Ride.created_at ride' = Ride.created_at ride
    /\ Ride.distance_km ride' = Ride.distance_km ride
    /\ Ride.duration_minutes ride' = Ride.duration_minutes ride.
Proof.
  intros Hget Hcs.
  destruct (run_stamps cs self id ride Hget Hcs) as (ride' & Hget' & Hexp).
  exists ride'. split; [exact Hget'|]. split; [exact Hexp|].
  destruct Hexp as ((_ & _ & _ & _ & _ & Hcre & Hdis & Hdur) & _). now repeat split.
Qed.

End Stamps.

Lemma stamps_written_by_their_calls_witness :
  exists ride',
    Dict.get Sample.ride_id
      (rides (run (H := Sample.pow)
                [AssignDriver Sample.draws (Sample.at_9h 5) Sample.randint Sample.ride_id;
                 UpdateRideStatus (Sample.at_9h 300) Sample.ride_id RideStatus.IN_PROGRESS;
                 AssignDriver Sample.draws' (Sample.at_9h 50) Sample.randint Sample.ride_id;
                 CancelRide Sample.ride_id "User cancelled"]
                Sample.booked)) = Some ride'
    /\ Ride.created_at ride' = Sample.at_9h 0
    /\ Ride.duration_minutes ride' = 10.
Proof.
  destruct (Dict.get Sample.ride_id (rides Sample.booked)) as [ride|] eqn:Hget;
    [|vm_compute in Hget; discriminate].
  destruct (stamps_written_by_their_calls (H := Sample.pow) Sample.ride_id Sample.booked
              ride
              [AssignDriver Sample.draws (Sample.at_9h 5) Sample.randint Sample.ride_id;
               UpdateRideStatus (Sample.at_9h 300) Sample.ride_id RideStatus.IN_PROGRESS;
               AssignDriver Sample.draws' (Sample.at_9h 50) Sample.randint Sample.ride_id;
               CancelRide Sample.ride_id "User cancelled"]
              Hget)
    as (ride' & Hget' & _ & Hcre & _ & Hdur).
  - repeat constructor; discriminate.
  - exists ride'. split; [exact Hget'|].
    rewrite Hcre, Hdur. vm_compute in Hget. injection Hget as <-. split; reflexivity.
Defined.

(** ** History *)

(** C7.  [get_ride_history] returns, in the order of the registry, the
    stored rides whose status is COMPLETED, and leaves the service as it
    was: a ride is in the returned list if and only if some identifier
    holds it and its status is COMPLETED. *)
Theorem ride_history_is_the_completed_rides self :
  Dict.wf (rides self) ->
  exists history,
    get_ride_history self = (Ok history, self)
    /\ history
       = filter (fun ride => RideStatus.eqb (Ride.status ride) RideStatus.COMPLETED)
           (Dict.values (rides self))
    /\ (forall ride,
          In ride history
          <-> exists id,
                Dict.get id (rides self) = Some ride
                /\ Ride.status ride = RideStatus.COMPLETED).
Proof.
  intros Hwf. eexists. split; [reflexivity|]. split; [reflexivity|].
  intros ride. rewrite filter_In, status_eqb_eq. unfold Dict.values. rewrite in_map_iff.
  split.
  - intros [([id ride0] & Heq & Hin) Hst]. simpl in Heq. subst ride0.
    exists id. split; [now apply DictFacts.In_get|exact Hst].
  - intros (id & Hget & Hst). split; [|exact Hst].
    exists (id, ride). split; [reflexivity|now apply DictFacts.get_Some_In].
Qed.

Lemma ride_history_is_the_completed_rides_witness :
  exists history,
    get_ride_history Sample.completed = (Ok history, Sample.completed)
    /\ history
       = filter (fun ride => RideStatus.eqb (Ride.status ride) RideStatus.COMPLETED)
           (Dict.values (rides Sample.completed))
    /\ (forall ride,
          In ride history
          <-> exists id,
                Dict.get id (rides Sample.completed) = Some ride
                /\ Ride.status ride = RideStatus.COMPLETED).
Proof.
  apply (ride_history_is_the_completed_rides Sample.completed).
  unfold Dict.wf. vm_compute. repeat constructor. simpl. tauto.
Defined.

Example sample_history :
  option_map (map Ride.ride_id)
    (match fst (get_ride_history Sample.completed) with Ok l => Some l | Raise _ => None end)
  = Some ["A1B2C3D4"]
  /\ fst (get_ride_history Sample.in_progress) = Ok [].
Proof. split; vm_compute; reflexivity. Qed.

(** ** Floats *)

Lemma abs_abs x : abs (abs x) = abs x.
Proof.
  apply Prim2SF_inj. rewrite !abs_spec. now destruct (Prim2SF x).
Qed.

Lemma mul_abs_abs x : (abs x * abs x = x * x)%float.
Proof.
  apply Prim2SF_inj. rewrite !mul_spec, abs_spec.
  destruct (Prim2SF x) as [s|s| |s m e]; try destruct s; reflexivity.
Qed.

Lemma is_infinity_abs x : is_infinity (abs x) = is_infinity x.
Proof. unfold is_infinity. now rewrite abs_abs. Qed.

Lemma digits2_pos_bounds m :
  2 ^ (Zpos (digits2_pos m) - 1) <= Zpos m < 2 ^ Zpos (digits2_pos m).
Proof.
  induction m as [m IH|m IH|]; simpl digits2_pos.
  - rewrite Pos2Z.inj_succ. 
    replace (Z.succ (Zpos (digits2_pos m)) - 1) with (Z.succ (Zpos (digits2_pos m) - 1)) by lia.
    rewrite !Z.pow_succ_r by lia. lia.
  - rewrite Pos2Z.inj_succ. 
    replace (Z.succ (Zpos (digits2_pos m)) - 1) with (Z.succ (Zpos (digits2_pos m) - 1)) by lia.
    rewrite !Z.pow_succ_r by lia. lia.
  - simpl. lia.
Qed.

(** A float above the subnormal range has a mantissa of 53 bits. *)
Lemma canonical_binade m e :
  bounded prec emax m e = true -> -1074 < e ->
  2 ^ 52 <= Zpos m < 2 ^ 53.
Proof.
  unfold bounded, canonical_mantissa, fexp, SpecFloat.emin, prec, emax.
  intros Hb He. apply andb_prop in Hb. destruct Hb as [Hc _].
  apply Z.eqb_eq in Hc.
  assert (Hd : Zpos (digits2_pos m) = 53) by lia.
  pose proof (digits2_pos_bounds m) as Hm. rewrite Hd in Hm. 
  change (53 - 1) with 52 in Hm. exact Hm.
Qed.

Lemma round_half_even_shift_bounds n klo khi :
  (2 * klo - 1) * 2 ^ 52 < 2 * n ->
  2 * n < (2 * khi + 1) * 2 ^ 52 ->
  klo <= PyFloat.round_half_even_shift n (-52) <= khi.
Proof.
  intros Hlo Hhi. unfold PyFloat.round_half_even_shift.
  change (0 <=? -52) with false. cbv iota. change (- -52) with 52.
  pose proof (Z.div_mod n (2 ^ 52) ltac:(lia)) as Hdiv.
  pose proof (Z.mod_pos_bound n (2 ^ 52) ltac:(lia)) as Hmod.
  set (q := n / 2 ^ 52) in *. set (r := n mod 2 ^ 52) in *.
  change (2 ^ 52) with 4503599627370496 in *.
  destruct (Z.compare_spec (2 * r) 4503599627370496) as [Heq|Hlt|Hgt].
  - destruct (Z.even q); lia.
  - lia.
  - lia.
Qed.

Lemma compare_cont_le a b :
  match PosDef.Pos.compare_cont Eq a b with Gt => false | _ => true end = true ->
  (a <= b)%positive.
Proof.
  intros Hle Hgt. change (PosDef.Pos.compare_cont Eq a b = Gt) in Hgt.
  rewrite Hgt in Hle. discriminate.
Qed.

(** [round(u, 1)] for [u] between two floats [lo <= hi] of [1, 2]: the
    nearest tenth [k] is between the tenths [klo] and [khi] that bracket
    [10 * lo] and [10 * hi]. *)
Lemma round_one_decimal_bracket lo hi mlo mhi ehi klo khi u :
  Prim2SF lo = S754_finite false mlo (-52) ->
  Prim2SF hi = S754_finite false mhi ehi ->
  (ehi = -52 /\ 20 * Zpos mhi < (2 * khi + 1) * 2 ^ 52
   \/ ehi = -51 /\ mhi = 4503599627370496%positive /\ klo <= 20 <= khi) ->
  (2 * klo - 1) * 2 ^ 52 < 20 * Zpos mlo ->
  0 < klo ->
  (lo <=? u)%float = true ->
  (u <=? hi)%float = true ->
  exists k, klo <= Zpos k <= khi /\ PyFloat.round u 1 = tenths k.
Proof.
  intros Hlo Hhi Hehi Hklo Hpos Hle1 Hle2.
  rewrite leb_spec, Hlo in Hle1. rewrite leb_spec, Hhi in Hle2.
  pose proof (Prim2SF_valid u) as Hvalid.
  unfold PyFloat.round.
  destruct (Prim2SF u) as [s|s| |s m e].
  - destruct s; discriminate Hle1.
  - destruct s; [discriminate Hle1|discriminate Hle2].
  - discriminate Hle1.
  - destruct s; [discriminate Hle1|].
    unfold SFleb, SFcompare in Hle1, Hle2. simpl in Hvalid.
    change (PyFloat.decimal_scale 1) with 10%positive. cbv zeta.
    change (2 ^ 52) with 4503599627370496 in *.
    destruct (Z.compare_spec (-52) e) as [He|He|He]; [| |discriminate Hle1].
    + subst e.
      assert (Hm : 4503599627370496 <= Zpos m < 2 ^ 53)
        by (apply (canonical_binade m (-52)); [exact Hvalid|lia]).
      change (2 ^ 53) with 9007199254740992 in Hm.
      assert (Hmlo : (mlo <= m)%positive)
        by (apply compare_cont_le; exact Hle1).
      assert (Hk : klo <= PyFloat.round_half_even_shift (Zpos (m * 10)) (-52) <= khi).
      { apply round_half_even_shift_bounds; rewrite Pos2Z.inj_mul;
          change (2 ^ 52) with 4503599627370496.
        - lia.
        - destruct Hehi as [[-> Hhi']|(-> & -> & Hk20)].
          + assert (Hmhi : (m <= mhi)%positive)
              by (apply compare_cont_le; exact Hle2).
            lia.
          + lia. }
      destruct (PyFloat.round_half_even_shift (Zpos (m * 10)) (-52)) as [|k|k];
        [lia| |lia].
      exists k. split; [exact Hk|reflexivity].
    + destruct Hehi as [[-> Hhi']|(-> & -> & Hk20)].
      * destruct (Z.compare_spec e (-52)) as [He'|He'|He']; [lia|lia|discriminate Hle2].
      * destruct (Z.compare_spec e (-51)) as [He'|He'|He']; [|lia|discriminate Hle2].
        subst e.
        assert (Hm : 4503599627370496 <= Zpos m < 2 ^ 53)
          by (apply (canonical_binade m (-51)); [exact Hvalid|lia]).
        change (2 ^ 53) with 9007199254740992 in Hm.
        assert (Hmhi : (m <= 4503599627370496)%positive)
          by (apply compare_cont_le; exact Hle2).
        apply Pos2Z.pos_le_pos in Hmhi.
        assert (Heq : Zpos m = 4503599627370496) by (clear - Hm Hmhi; lia).
        injection Heq as ->.
        exists 20%positive. split; [lia|].
        vm_compute. reflexivity.
Qed.

Lemma tenths_range (P : float -> bool) (klo khi : Z) :
  forallb (fun i => P (tenths (Z.to_pos i)))
    (map (fun n => klo + Z.of_nat n) (seq 0 (Z.to_nat (khi - klo + 1)))) = true ->
  forall k, klo <= Zpos k <= khi -> P (tenths k) = true.
Proof.
  intros Hall k Hk. rewrite forallb_forall in Hall.
  apply (Hall (Zpos k)). apply in_map_iff.
  exists (Z.to_nat (Zpos k - klo)). split; [lia|]. apply in_seq. lia.
Qed.

Lemma round_peak_draw u :
  (1.2 <=? u)%float = true -> (u <=? 2.0)%float = true ->
  (1.2 <=? PyFloat.round u 1)%float = true
  /\ (PyFloat.round u 1 <=? 2.0)%float = true
  /\ (1.0 <=? PyFloat.round u 1)%float = true.
Proof.
  intros Hlo Hhi.
  destruct (round_one_decimal_bracket 1.2 2.0 5404319552844595 4503599627370496 (-51)
              12 20 u) as (k & Hk & ->);
    [reflexivity | reflexivity | right; repeat split; lia | reflexivity | lia
    | exact Hlo | exact Hhi |].
  pose proof (tenths_range
                (fun x => (1.2 <=? x) && (x <=? 2.0) && (1.0 <=? x))%float%bool 12 20
                ltac:(vm_compute; reflexivity) k Hk) as Hall.
  cbv beta in Hall. apply andb_prop in Hall. destruct Hall as [Hall H1].
  apply andb_prop in Hall. destruct Hall as [H12 H2]. now repeat split.
Qed.

Lemma round_off_peak_draw u :
  (1.0 <=? u)%float = true -> (u <=? 1.3)%float = true ->
  (1.0 <=? PyFloat.round u 1)%float = true
  /\ (PyFloat.round u 1 <=? 1.3)%float = true
  /\ (PyFloat.round u 1 <=? 2.0)%float = true.
Proof.
  intros Hlo Hhi.
  destruct (round_one_decimal_bracket 1.0 1.3 4503599627370496 5854679515581645 (-52)
              10 13 u) as (k & Hk & ->);
    [reflexivity | reflexivity | left; split; [reflexivity|reflexivity] | reflexivity | lia
    | exact Hlo | exact Hhi |].
  pose proof (tenths_range
                (fun x => (1.0 <=? x) && (x <=? 1.3) && (x <=? 2.0))%float%bool 10 13
                ltac:(vm_compute; reflexivity) k Hk) as Hall.
  cbv beta in Hall. apply andb_prop in Hall. destruct Hall as [Hall H2].
  apply andb_prop in Hall. destruct Hall as [H1 H13]. now repeat split.
Qed.

(** ** Surge *)

(** C6.  The surge multiplier is decided by the hour of the clock and by
    what [random.uniform] answers, not by the location: in the hours 8 to 10
    and 17 to 20 it is the draw from [1.2, 2.0] rounded to one decimal, and
    then within [1.2, 2.0]; in the other hours the draw from [1.0, 1.3]
    rounded to one decimal, and then within [1.0, 1.3]; it is never below
    1.0 (nor above 2.0).  That a draw is within the bounds asked for is the
    contract of [random.uniform]. *)
Theorem surge_multiplier_by_hour uniform now location :
  between 1.2 (uniform 1.2 2.0)%float 2.0 ->
  between 1.0 (uniform 1.0 1.3)%float 1.3 ->
  let hour := Datetime.hour now in
  let s := _get_surge_multiplier uniform now location in
  (forall uniform' now' location',
     Datetime.hour now' = hour ->
     (uniform' 1.2 2.0 = uniform 1.2 2.0)%float ->
     (uniform' 1.0 1.3 = uniform 1.0 1.3)%float ->
     _get_surge_multiplier uniform' now' location' = s)
  /\ (8 <= hour <= 10 \/ 17 <= hour <= 20 ->
      s = PyFloat.round (uniform 1.2 2.0)%float 1 /\ between 1.2 s 2.0)
  /\ (~ (8 <= hour <= 10 \/ 17 <= hour <= 20) ->
      s = PyFloat.round (uniform 1.0 1.3)%float 1 /\ between 1.0 s 1.3)
  /\ between 1.0 s 2.0.
Proof.
  intros [Hp1 Hp2] [Ho1 Ho2] hour s.
  destruct (round_peak_draw _ Hp1 Hp2) as (Hpa & Hpb & Hpc).
  destruct (round_off_peak_draw _ Ho1 Ho2) as (Hoa & Hob & Hoc).
  assert (Hpeak : peak_hour hour = true <-> (8 <= hour <= 10 \/ 17 <= hour <= 20))
    by (unfold peak_hour; lia).
  subst s. unfold _get_surge_multiplier, between. fold hour.
  split; [|split; [|split]].
  - intros uniform' now' location' -> -> ->. reflexivity.
  - intros Hh. apply Hpeak in Hh. rewrite Hh. now repeat split.
  - intros Hh. destruct (peak_hour hour); [elim Hh; now apply Hpeak|]. now repeat split.
  - destruct (peak_hour hour); now split.
Qed.

Lemma surge_multiplier_by_hour_witness :
  _get_surge_multiplier Sample.uniform (Sample.at_9h 0) Sample.pickup
  = PyFloat.round (Sample.uniform 1.2 2.0)%float 1
  /\ between 1.0 (_get_surge_multiplier Sample.uniform (Sample.at_9h 0) Sample.pickup) 2.0.
Proof.
  destruct (surge_multiplier_by_hour Sample.uniform (Sample.at_9h 0) Sample.pickup)
    as (_ & Hpeak & _ & Hone); [split; reflexivity | split; reflexivity |].
  split; [|exact Hone].
  apply Hpeak. left. vm_compute. split; discriminate.
Defined.

Example surge_at_nine_and_at_noon :
  _get_surge_multiplier Sample.uniform (Sample.at_9h 0) Sample.pickup = 1.6%float
  /\ _get_surge_multiplier Sample.uniform (Sample.at_9h (3 * 3600)) Sample.dropoff
     = 1.1%float.
Proof. split; vm_compute; reflexivity. Qed.

(** ** Fare *)

(** C5, as stated, fails.  On the trip from [Sample.far_pickup] to
    [Sample.dropoff], in a Sedan at 09:00 with the surge drawn 1.6, the
    interpreter's [** 0.5] answers one unit in the last place above the
    square root: [distance_to] returns 15.931406250000002, where the closed
    form has 15.931406249999998, and the total of [get_fare_estimate] is
    637.81, where the closed form has 637.8. *)
Lemma power_is_not_the_square_root :
  Location.distance_to (H := Sample.measured_pow) Sample.far_pickup Sample.dropoff
  = Ok 15.931406250000002%float
  /\ spec_distance Sample.far_pickup Sample.dropoff = 15.931406249999998%float
  /\ _get_surge_multiplier Sample.uniform (Sample.at_9h 0) Sample.far_pickup = 1.6%float
  /\ option_map Fare.total
       (match get_fare_estimate (H := Sample.measured_pow) Sample.uniform (Sample.at_9h 0)
                Sample.far_pickup Sample.dropoff CabType.SEDAN with
        | Ok fare => Some fare
        | Raise _ => None
        end)
     = Some 637.81%float
  /\ spec_total (CabType.value CabType.SEDAN)
       (spec_distance Sample.far_pickup Sample.dropoff) 1.6
     = 637.8%float
  /\ (637.81 =? 637.8)%float = false.
Proof. repeat split; vm_compute; reflexivity. Qed.

Section FareEstimate.
Context `{PyFloat.Pow}.

(** Where the interpreter's [** 2] is the product and its [** 0.5] the
    square root, at the values of the trip, [distance_to] returns the
    distance of the closed form: the code squares the absolute values of the
    differences, the closed form the differences. *)
Lemma distance_to_closed_form pickup dropoff :
  let lat := abs (Location.latitude pickup - Location.latitude dropoff) in
  let lng := abs (Location.longitude pickup - Location.longitude dropoff) in
  PyFloat.pow lat 2%float = Ok (lat * lat)%float ->
  PyFloat.pow lng 2%float = Ok (lng * lng)%float ->
  PyFloat.pow (lat * lat + lng * lng)%float 0.5%float
  = Ok (sqrt (lat * lat + lng * lng)) ->
  Location.distance_to pickup dropoff = Ok (spec_distance pickup dropoff).
Proof.
  intros lat lng Hlat Hlng Hroot. unfold Location.distance_to, spec_distance.
  fold lat lng. rewrite Hlat. simpl. rewrite Hlng. simpl. rewrite Hroot. simpl.
  unfold lat, lng. now rewrite !mul_abs_abs.
Qed.

Lemma fare_of_distance uniform now pickup dropoff cab_type d :
  Location.distance_to pickup dropoff = Ok d ->
  let s := _get_surge_multiplier uniform now pickup in
  let rates := CabType.value cab_type in
  get_fare_estimate uniform now pickup dropoff cab_type
  = Ok {| Fare.base_fare := CabType.base_fare rates;
          Fare.distance_fare := (d * CabType.per_km rates)%float;
          Fare.time_fare := (d / 30 * 60 * CabType.per_min rates)%float;
          Fare.surge_multiplier := s;
          Fare.total := spec_total rates d s |}.
Proof. intros Hd s rates. unfold get_fare_estimate. now rewrite Hd. Qed.

(** C5, amended.  The fare [get_fare_estimate] returns has the total
    [round((base + d * per_km + ((d / 30) * 60) * per_min) * s, 2)], with
    [s] the surge multiplier drawn, the rates those of the cab type (Sedan:
    80, 15 and 2.5) and [d] the distance [distance_to] returns, which is
    computed with the interpreter's [** 2] and [** 0.5]; it returns a fare
    exactly when [distance_to] returns.  Where these powers are the product
    and the square root at the values of the trip, [d] is
    [sqrt((lat_p - lat_d)^2 + (lng_p - lng_d)^2) * 111] and the total is
    the one of the closed form. *)
Theorem fare_total_is_the_closed_form uniform now pickup dropoff cab_type :
  let s := _get_surge_multiplier uniform now pickup in
  let rates := CabType.value cab_type in
  let lat := abs (Location.latitude pickup - Location.latitude dropoff) in
  let lng := abs (Location.longitude pickup - Location.longitude dropoff) in
  (forall d, Location.distance_to pickup dropoff = Ok d ->
     exists fare,
       get_fare_estimate uniform now pickup dropoff cab_type = Ok fare
       /\ Fare.total fare = spec_total rates d s
       /\ Fare.surge_multiplier fare = s
       /\ Fare.base_fare fare = CabType.base_fare rates
       /\ Fare.distance_fare fare = (d * CabType.per_km rates)%float
       /\ Fare.time_fare fare = (d / 30 * 60 * CabType.per_min rates)%float)
  /\ (forall fare, get_fare_estimate uniform now pickup dropoff cab_type = Ok fare ->
        exists d,
          Location.distance_to pickup dropoff = Ok d
          /\ Fare.total fare = spec_total rates d s)
  /\ (PyFloat.pow lat 2%float = Ok (lat * lat)%float ->
      PyFloat.pow lng 2%float = Ok (lng * lng)%float ->
      PyFloat.pow (lat * lat + lng * lng)%float 0.5%float
      = Ok (sqrt (lat * lat + lng * lng)) ->
      Location.distance_to pickup dropoff = Ok (spec_distance pickup dropoff)
      /\ exists fare,
           get_fare_estimate uniform now pickup dropoff cab_type = Ok fare
           /\ Fare.total fare = spec_total rates (spec_distance pickup dropoff) s)
  /\ (CabType.base_fare (CabType.value CabType.SEDAN) = 80
      /\ CabType.per_km (CabType.value CabType.SEDAN) = 15
      /\ CabType.per_min (CabType.value CabType.SEDAN) = 2.5)%float.
Proof.
  intros s rates lat lng. split; [|split; [|split]].
  - intros d Hd. eexists.
    split; [exact (fare_of_distance uniform now pickup dropoff cab_type d Hd)|].
    repeat split.
  - intros fare. destruct (Location.distance_to pickup dropoff) as [d|e] eqn:Hd.
    + rewrite (fare_of_distance uniform now pickup dropoff cab_type d Hd).
      intros [= <-]. exists d. split; reflexivity.
    + unfold get_fare_estimate. rewrite Hd. simpl. intros Hcall. discriminate Hcall.
  - intros Hlat Hlng Hroot.
    pose proof (distance_to_closed_form pickup dropoff Hlat Hlng Hroot) as Hd.
    split; [exact Hd|]. eexists.
    split; [exact (fare_of_distance uniform now pickup dropoff cab_type _ Hd)|].
    reflexivity.
  - repeat split.
Qed.

End FareEstimate.

Lemma fare_total_is_the_closed_form_witness :
  exists fare,
    get_fare_estimate (H := Sample.pow) Sample.uniform (Sample.at_9h 0)
      Sample.pickup Sample.dropoff CabType.SEDAN = Ok fare
    /\ Fare.total fare
       = spec_total (CabType.value CabType.SEDAN)
           (spec_distance Sample.pickup Sample.dropoff) 1.6
    /\ Fare.total fare = 295.32%float.
Proof.
  destruct (fare_total_is_the_closed_form (H := Sample.pow)
              Sample.uniform (Sample.at_9h 0) Sample.pickup Sample.dropoff CabType.SEDAN)
    as (_ & _ & Hclosed & _).
  destruct Hclosed as (_ & fare & Hcall & Htotal);
    [vm_compute; reflexivity | vm_compute; reflexivity | vm_compute; reflexivity |].
  exists fare. split; [exact Hcall|]. split; [exact Htotal|].
  rewrite Htotal. vm_compute. reflexivity.
Defined.

(** * Further properties *)

(** ** Distances and fares *)

Lemma SFabs_binary_round_aux s s' mx ex lx :
  SFabs (binary_round_aux prec emax s mx ex lx)
  = SFabs (binary_round_aux prec emax s' mx ex lx).
Proof.
  unfold binary_round_aux.
  destruct (shr_fexp prec emax mx ex lx) as [mrs' e'].
  destruct (shr_fexp prec emax _ e' loc_Exact) as [mrs'' e''].
  destruct (shr_m mrs'') as [|m|m]; try reflexivity.
  destruct (e'' <=? emax - prec); reflexivity.
Qed.

Lemma SFabs_binary_normalize_opp z e :
  SFabs (binary_normalize prec emax (- z) e false)
  = SFabs (binary_normalize prec emax z e false).
Proof.
  destruct z as [|m|m]; simpl; try reflexivity;
    unfold binary_round; destruct (shl_align _ _ _) as [mz ez];
    apply SFabs_binary_round_aux.
Qed.

Lemma SFabs_sub_comm x y :
  SFabs (SFsub prec emax x y) = SFabs (SFsub prec emax y x).
Proof.
  destruct x as [sx|sx| |sx mx ex], y as [sy|sy| |sy my ey];
    try (destruct sx, sy; reflexivity); try (destruct sx; reflexivity);
    try (destruct sy; reflexivity); try reflexivity.
  unfold SFsub. rewrite (Z.min_comm ey ex).
  rewrite <- SFabs_binary_normalize_opp. f_equal. f_equal. lia.
Qed.

(** [abs(x - y) == abs(y - x)] on floats, NaN and infinities included. *)
Lemma abs_sub_comm x y : abs (x - y) = abs (y - x).
Proof.
  apply Prim2SF_inj. rewrite !abs_spec, !sub_spec. apply SFabs_sub_comm.
Qed.

Lemma finite_cases x :
  is_finite x = true ->
  (exists b, Prim2SF x = S754_zero b) \/ (exists s m e, Prim2SF x = S754_finite s m e).
Proof.
  unfold is_finite, is_nan, is_infinity. rewrite !eqb_spec, abs_spec.
  change (Prim2SF infinity) with (S754_infinity false).
  destruct (Prim2SF x) as [b|b| |s m e].
  - intros _. left. now exists b.
  - destruct b; discriminate.
  - discriminate.
  - intros _. right. now exists s, m, e.
Qed.

Lemma not_finite_cases x :
  is_finite x = false -> Prim2SF x = S754_nan \/ exists b, Prim2SF x = S754_infinity b.
Proof.
  unfold is_finite, is_nan, is_infinity. rewrite !eqb_spec, abs_spec.
  change (Prim2SF infinity) with (S754_infinity false).
  destruct (Prim2SF x) as [b|b| |s m e].
  - destruct b; discriminate.
  - intros _. right. now exists b.
  - intros _. now left.
  - unfold SFeqb, SFcompare, SFabs.
    rewrite Z.compare_refl.
    destruct s; (replace (PosDef.Pos.compare_cont Eq m m) with Eq
                   by (symmetry; apply Pos.compare_refl)); discriminate.
Qed.

(** [int(x)] returns exactly on the finite floats. *)
Lemma int_returns_iff_finite x :
  (exists n, PyFloat.int x = Ok n) <-> is_finite x = true.
Proof.
  unfold PyFloat.int. split.
  - intros [n Hn]. destruct (is_finite x) eqn:E; [reflexivity|].
    destruct (not_finite_cases x E) as [Hs|[b Hs]]; rewrite Hs in Hn; discriminate.
  - intros Hfin. destruct (finite_cases x Hfin) as [[b ->]|(s & m & e & ->)]; eauto.
Qed.

Lemma sub_self x : is_finite x = true -> (x - x)%float = 0%float.
Proof.
  intros Hfin. apply Prim2SF_inj. rewrite sub_spec.
  change (Prim2SF 0) with (S754_zero false).
  destruct (finite_cases x Hfin) as [[b ->]|(s & m & e & ->)].
  - now destruct b.
  - unfold SF64sub, SFsub. rewrite Z.sub_diag. reflexivity.
Qed.

Section Distances.
Context `{PyFloat.Pow}.

(** X1.  [distance_to] is symmetric: from [a] to [b] it returns, or
    raises, what it does from [b] to [a], whatever the floats of the
    coordinates are (infinities and NaN included). *)
Theorem distance_to_is_symmetric a b :
  Location.distance_to a b = Location.distance_to b a.
Proof.
  unfold Location.distance_to.
  now rewrite (abs_sub_comm (Location.latitude a)), (abs_sub_comm (Location.longitude a)).
Qed.

(** X2.  The fare does not depend on the direction: with the same clock and
    random draws, [get_fare_estimate] from [a] to [b] is the one from [b] to
    [a], and when [book_ride] returns one way it returns the other way, with
    the same fare, distance and duration. *)
Theorem fare_is_the_same_both_ways uniform now created uuid4 a b cab_type self :
  get_fare_estimate uniform now a b cab_type = get_fare_estimate uniform now b a cab_type
  /\ forall ride self',
       book_ride uuid4 uniform now created a b cab_type self = (Ok ride, self') ->
       exists back self'',
         book_ride uuid4 uniform now created b a cab_type self = (Ok back, self'')
         /\ Ride.fare back = Ride.fare ride
         /\ Ride.distance_km back = Ride.distance_km ride
         /\ Ride.duration_minutes back = Ride.duration_minutes ride.
Proof.
  assert (Hback : Location.distance_to b a = Location.distance_to a b).
  { unfold Location.distance_to.
    now rewrite (abs_sub_comm (Location.latitude a)), (abs_sub_comm (Location.longitude a)). }
  assert (Hfare : get_fare_estimate uniform now a b cab_type
                  = get_fare_estimate uniform now b a cab_type).
  { unfold get_fare_estimate. now rewrite Hback. }
  split; [exact Hfare|].
  unfold book_ride. rewrite <- Hfare, Hback.
  destruct (Location.distance_to a b) as [distance|e]; simpl; [|discriminate].
  destruct (PyFloat.int _) as [duration|e]; simpl; [|discriminate].
  destruct (get_fare_estimate uniform now a b cab_type) as [fare|e]; simpl; [|discriminate].
  intros ride self' [= <- _]. do 2 eexists. split; [reflexivity|]. repeat split.
Qed.

Hypothesis pow_0_2 : PyFloat.pow 0%float 2%float = Ok 0%float.
Hypothesis pow_0_half : PyFloat.pow 0%float 0.5%float = Ok 0%float.

(** X3.  A trip that ends where it starts, at finite coordinates, has
    distance 0, and its fare is the base fare of the cab type times the surge
    multiplier, rounded to two decimals: distance and time add nothing.  The
    interpreter's [0.0 ** 2] and [0.0 ** 0.5] are [0.0]. *)
Theorem fare_of_no_distance uniform now pickup dropoff cab_type :
  is_finite (Location.latitude pickup) = true ->
  is_finite (Location.longitude pickup) = true ->
  Location.latitude dropoff = Location.latitude pickup ->
  Location.longitude dropoff = Location.longitude pickup ->
  let s := _get_surge_multiplier uniform now pickup in
  let base := CabType.base_fare (CabType.value cab_type) in
  Location.distance_to pickup dropoff = Ok 0%float
  /\ get_fare_estimate uniform now pickup dropoff cab_type
     = Ok {| Fare.base_fare := base;
             Fare.distance_fare := 0;
             Fare.time_fare := 0;
             Fare.surge_multiplier := s;
             Fare.total := PyFloat.round (base * s)%float 2 |}.
Proof.
  intros Hlat Hlng Elat Elng s base.
  assert (Hd : Location.distance_to pickup dropoff = Ok 0%float).
  { unfold Location.distance_to. rewrite Elat, Elng, !sub_self by assumption.
    change (abs 0) with 0%float. rewrite pow_0_2. simpl.
    change (0 + 0)%float with 0%float. rewrite pow_0_half. reflexivity. }
  split; [exact Hd|].
  unfold get_fare_estimate. rewrite Hd. subst s base.
  destruct cab_type; reflexivity.
Qed.

End Distances.

Lemma fare_of_no_distance_witness :
  get_fare_estimate (H := Sample.pow) Sample.uniform (Sample.at_9h 0)
    Sample.pickup Sample.pickup CabType.SEDAN
  = Ok {| Fare.base_fare := 80; Fare.distance_fare := 0; Fare.time_fare := 0;
          Fare.surge_multiplier := 1.6; Fare.total := 128 |}.
Proof.
  destruct (fare_of_no_distance (H := Sample.pow) eq_refl eq_refl
              Sample.uniform (Sample.at_9h 0) Sample.pickup Sample.pickup CabType.SEDAN
              eq_refl eq_refl eq_refl eq_refl) as [_ Hfare].
  rewrite Hfare. vm_compute. reflexivity.
Defined.

(** ** Drivers and offers *)

Lemma round_half_even_shift_between n e klo khi :
  e < 0 ->
  (2 * klo - 1) * 2 ^ (- e) < 2 * n ->
  2 * n < (2 * khi + 1) * 2 ^ (- e) ->
  klo <= PyFloat.round_half_even_shift n e <= khi.
Proof.
  intros He Hlo Hhi. unfold PyFloat.round_half_even_shift.
  destruct (0 <=? e) eqn:E; [lia|].
  assert (HD : 0 < 2 ^ (- e)) by (apply Z.pow_pos_nonneg; lia).
  set (D := 2 ^ (- e)) in *. clearbody D.
  pose proof (Z.div_mod n D ltac:(lia)) as Hdiv.
  pose proof (Z.mod_pos_bound n D HD) as Hmod.
  set (q := n / D) in *. set (r := n mod D) in *. clearbody q r.
  assert (Hq : klo - 1 <= q <= khi) by nia.
  destruct (Z.compare_spec (2 * r) D) as [Heq|Hlt|Hgt].
  - destruct (Z.even q) eqn:Ev.
    + split; [|lia]. destruct (Z.eq_dec q (klo - 1)); [|lia]. subst q. nia.
    + split; [lia|]. destruct (Z.eq_dec q khi); [|lia]. subst q. nia.
  - split; [|lia]. destruct (Z.eq_dec q (klo - 1)); [|lia]. subst q. nia.
  - split; [lia|]. destruct (Z.eq_dec q khi); [|lia]. subst q. nia.
Qed.

(** [round(u, 1)] for [u] between two floats [lo <= hi] of one binade. *)
Lemma round_one_decimal_in_binade lo hi mlo mhi e klo khi u :
  Prim2SF lo = S754_finite false mlo e ->
  Prim2SF hi = S754_finite false mhi e ->
  e < 0 ->
  (2 * klo - 1) * 2 ^ (- e) < 20 * Zpos mlo ->
  20 * Zpos mhi < (2 * khi + 1) * 2 ^ (- e) ->
  0 < klo ->
  between lo u hi ->
  exists k, klo <= Zpos k <= khi /\ PyFloat.round u 1 = tenths k.
Proof.
  intros Hlo Hhi He Hklo Hkhi Hpos [Hle1 Hle2].
  rewrite leb_spec, Hlo in Hle1. rewrite leb_spec, Hhi in Hle2.
  unfold PyFloat.round.
  destruct (Prim2SF u) as [s|s| |s m e'].
  - destruct s; discriminate Hle1.
  - destruct s; [discriminate Hle1|discriminate Hle2].
  - discriminate Hle1.
  - destruct s; [discriminate Hle1|].
    unfold SFleb, SFcompare in Hle1, Hle2.
    change (PyFloat.decimal_scale 1) with 10%positive. cbv zeta.
    destruct (Z.compare_spec e e') as [E1|E1|E1]; [| |discriminate Hle1];
      destruct (Z.compare_spec e' e) as [E2|E2|E2]; try discriminate Hle2; try lia.
    subst e'.
    assert (Hmlo : (mlo <= m)%positive) by (apply compare_cont_le; exact Hle1).
    assert (Hmhi : (m <= mhi)%positive) by (apply compare_cont_le; exact Hle2).
    apply Pos2Z.pos_le_pos in Hmlo, Hmhi.
    assert (Hk : klo <= PyFloat.round_half_even_shift (Zpos (m * 10)) e <= khi).
    { apply round_half_even_shift_between; [exact He| |]; rewrite Pos2Z.inj_mul.
      - clear - Hklo Hmlo. lia.
      - clear - Hkhi Hmhi. lia. }
    destruct (PyFloat.round_half_even_shift (Zpos (m * 10)) e) as [|k|k];
      [lia| |lia].
    exists k. split; [exact Hk|reflexivity].
Qed.

(** A rating drawn from [4.0, 5.0] is rounded to a tenth of [4.0, 5.0]. *)
Lemma round_rating_draw u :
  between 4.0 u 5.0 ->
  exists k, 40 <= Zpos k <= 50 /\ PyFloat.round u 1 = tenths k
            /\ between 4.0 (PyFloat.round u 1) 5.0.
Proof.
  intros Hu.
  destruct (round_one_decimal_in_binade 4.0 5.0 4503599627370496 5629499534213120 (-50)
              40 50 u) as (k & Hk & Hr);
    [reflexivity | reflexivity | reflexivity | reflexivity | reflexivity | reflexivity
    | exact Hu |].
  exists k. split; [exact Hk|]. split; [exact Hr|]. rewrite Hr.
  pose proof (tenths_range (fun x => (4.0 <=? x) && (x <=? 5.0))%float%bool 40 50
                ltac:(vm_compute; reflexivity) k Hk) as Hall.
  cbv beta in Hall. apply andb_prop in Hall. exact Hall.
Qed.

Lemma prefix_length n s : (String.length (PyStr.prefix n s) <= n)%nat.
Proof.
  unfold PyStr.prefix. revert s. induction n as [|n IH]; intros s; simpl.
  - destruct s; simpl; lia.
  - destruct s as [|c s]; simpl; [lia|]. specialize (IH s). lia.
Qed.

Lemma upper_length s : String.length (PyStr.upper s) = String.length s.
Proof. induction s as [|c s IH]; simpl; congruence. Qed.

(** X4.  With [random.choice] answering an index of its list and
    [random.uniform(4.0, 5.0)] a float of that range, the driver of
    [generate_random] has a first and a last name of the two lists, a vehicle
    model with its colour as paired in the code, a rating that is a whole
    number of tenths from 4.0 to 5.0, an identifier of at most 8 characters,
    and the address "Driver location". *)
Theorem generated_driver_is_from_the_lists draws location :
  (Driver.first_name_index draws < 8)%nat ->
  (Driver.last_name_index draws < 8)%nat ->
  (Driver.vehicle_index draws < 6)%nat ->
  between 4.0 (Driver.rating_draw draws) 5.0 ->
  let driver := Driver.generate_random draws location in
  (exists first last,
     In first Driver.first_names /\ In last Driver.last_names
     /\ Driver.name driver = (first ++ " " ++ last)%string)
  /\ In (Driver.vehicle_model driver, Driver.vehicle_color driver) Driver.vehicles
  /\ between 4.0 (Driver.rating driver) 5.0
  /\ (exists k, 40 <= Zpos k <= 50 /\ Driver.rating driver = tenths k)
  /\ (String.length (Driver.id driver) <= 8)%nat
  /\ Driver.total_trips driver = Driver.trips draws
  /\ Location.address (Driver.current_location driver) = "Driver location".
Proof.
  intros Hfirst Hlast Hvehicle Hrating driver.
  destruct (round_rating_draw _ Hrating) as (k & Hk & Hr & Hbetween).
  subst driver. unfold Driver.generate_random, Driver.choice.
  assert (Hv : In (nth (Driver.vehicle_index draws) Driver.vehicles ("", ""))
                  Driver.vehicles) by (apply nth_In; exact Hvehicle).
  destruct (nth (Driver.vehicle_index draws) Driver.vehicles ("", "")) as [model color].
  split; [|split; [|split; [|split; [|split; [|split]]]]].
  - exists (nth (Driver.first_name_index draws) Driver.first_names ""),
      (nth (Driver.last_name_index draws) Driver.last_names "").
    split; [apply nth_In; exact Hfirst|]. split; [apply nth_In; exact Hlast|reflexivity].
  - exact Hv.
  - exact Hbetween.
  - exists k. split; [exact Hk|exact Hr].
  - apply prefix_length.
  - reflexivity.
  - reflexivity.
Qed.

Lemma generated_driver_is_from_the_lists_witness :
  In (Driver.vehicle_model (Driver.generate_random Sample.draws Sample.pickup),
      Driver.vehicle_color (Driver.generate_random Sample.draws Sample.pickup))
     Driver.vehicles
  /\ between 4.0 (Driver.rating (Driver.generate_random Sample.draws Sample.pickup)) 5.0.
Proof.
  destruct (generated_driver_is_from_the_lists Sample.draws Sample.pickup)
    as (_ & Hv & Hr & _);
    [simpl; lia | simpl; lia | simpl; lia | split; reflexivity |].
  split; [exact Hv|exact Hr].
Defined.

(** Under the contract of [random.uniform] the surge is within [1.0, 2.0]. *)
Lemma surge_between uniform now location :
  between 1.2 (uniform 1.2 2.0)%float 2.0 ->
  between 1.0 (uniform 1.0 1.3)%float 1.3 ->
  between 1.0 (_get_surge_multiplier uniform now location) 2.0.
Proof.
  intros [Hp1 Hp2] [Ho1 Ho2]. unfold _get_surge_multiplier, between.
  destruct (round_peak_draw _ Hp1 Hp2) as (_ & Hpb & Hpc).
  destruct (round_off_peak_draw _ Ho1 Ho2) as (Hoa & _ & Hoc).
  destruct (peak_hour _); now split.
Qed.

(** X5.  [get_available_cabs] returns one entry per cab type, in the order
    MINI, SEDAN, SUV, LUXURY, with the display name and the capacity of the
    rate table, and does not touch the service.  When [random.randint] and
    [random.uniform] answer within their bounds, every entry has 2 to 10
    cabs, an ETA of 2 to 15 minutes and a surge multiplier from 1.0 to
    2.0. *)
Theorem available_cabs_offer_every_type randint uniform now location self :
  (forall c, 2 <= randint c 2 10 <= 10 /\ 2 <= randint c 2 15 <= 15) ->
  (forall c, between 1.2 (uniform c 1.2 2.0)%float 2.0
             /\ between 1.0 (uniform c 1.0 1.3)%float 1.3) ->
  exists cabs,
    get_available_cabs randint uniform now location self = (Ok cabs, self)
    /\ map AvailableCab.type cabs = ["MINI"; "SEDAN"; "SUV"; "LUXURY"]
    /\ map AvailableCab.name cabs = ["Mini"; "Sedan"; "SUV"; "Luxury"]
    /\ map AvailableCab.capacity cabs = [4; 4; 6; 4]
    /\ Forall (fun cab =>
                 2 <= AvailableCab.available_count cab <= 10
                 /\ 2 <= AvailableCab.eta_minutes cab <= 15
                 /\ between 1.0 (AvailableCab.surge_multiplier cab) 2.0) cabs.
Proof.
  intros Hrandint Huniform. eexists. split; [reflexivity|].
  repeat (split; [reflexivity|]).
  unfold cab_types. simpl.
  repeat constructor; simpl;
    try apply Hrandint; apply surge_between; apply Huniform.
Qed.

Lemma available_cabs_offer_every_type_witness :
  exists cabs,
    get_available_cabs (fun _ => Sample.randint) (fun _ => Sample.uniform)
      (fun _ => Sample.at_9h 0) Sample.pickup init = (Ok cabs, init)
    /\ map AvailableCab.type cabs = ["MINI"; "SEDAN"; "SUV"; "LUXURY"].
Proof.
  destruct (available_cabs_offer_every_type (fun _ => Sample.randint)
              (fun _ => Sample.uniform) (fun _ => Sample.at_9h 0) Sample.pickup init)
    as (cabs & Hcall & Htypes & _).
  - intros _. vm_compute. repeat split; discriminate.
  - intros _. repeat split; reflexivity.
  - exists cabs. split; [exact Hcall|exact Htypes].
Defined.

(** ** Bookings *)

Section Bookings.
Context `{PyFloat.Pow}.

Lemma fare_estimate_of_distance uniform now pickup dropoff cab_type distance :
  Location.distance_to pickup dropoff = Ok distance ->
  exists fare, get_fare_estimate uniform now pickup dropoff cab_type = Ok fare.
Proof.
  intros Hd. unfold get_fare_estimate. rewrite Hd. simpl. eexists. reflexivity.
Qed.

(** The ride a booking returns. *)
Lemma booked_ride uuid4 uniform now created pickup dropoff cab_type self ride self' :
  book_ride uuid4 uniform now created pickup dropoff cab_type self = (Ok ride, self') ->
  exists distance duration fare,
    Location.distance_to pickup dropoff = Ok distance
    /\ PyFloat.int (distance / 30 * 60)%float = Ok duration
    /\ get_fare_estimate uniform now pickup dropoff cab_type = Ok fare
    /\ ride = {| Ride.ride_id := PyStr.upper (PyStr.prefix 8 uuid4);
                 Ride.cab_type := cab_type;
                 Ride.pickup := pickup;
                 Ride.dropoff := dropoff;
                 Ride.status := RideStatus.SEARCHING;
                 Ride.driver := None;
                 Ride.fare := Some fare;
                 Ride.created_at := created;
                 Ride.accepted_at := None;
                 Ride.started_at := None;
                 Ride.completed_at := None;
                 Ride.eta_minutes := 0;
                 Ride.distance_km := PyFloat.round distance 2;
                 Ride.duration_minutes := duration |}
    /\ self' = set_rides (Dict.set (PyStr.upper (PyStr.prefix 8 uuid4)) ride (rides self)) self.
Proof.
  unfold book_ride.
  destruct (Location.distance_to pickup dropoff) as [distance|e]; simpl; [|discriminate].
  destruct (PyFloat.int _) as [duration|e] eqn:Hint; simpl; [|discriminate].
  destruct (get_fare_estimate _ _ _ _ _) as [fare|e] eqn:Hfare; simpl; [|discriminate].
  intros [= <- <-]. exists distance, duration, fare.
  split; [reflexivity|]. split; [exact Hint|]. now repeat split.
Qed.

(** X6.  [book_ride] returns exactly when the distance is computed and the
    duration in minutes is a finite float (so that [int] takes it).  The
    ride it returns is stored under its identifier, is SEARCHING, has no
    driver, no ETA and none of the three later timestamps, and carries the
    fare estimate, the distance rounded to two decimals and the truncated
    duration.  When it raises, the service is as it was. *)
Theorem book_ride_returns_on_finite_distances
    uuid4 uniform now created pickup dropoff cab_type self :
  ((exists ride self',
      book_ride uuid4 uniform now created pickup dropoff cab_type self = (Ok ride, self'))
   <-> exists distance,
         Location.distance_to pickup dropoff = Ok distance
         /\ is_finite (distance / 30 * 60)%float = true)
  /\ (forall ride self',
        book_ride uuid4 uniform now created pickup dropoff cab_type self = (Ok ride, self') ->
        Dict.get (Ride.ride_id ride) (rides self') = Some ride
        /\ Ride.ride_id ride = PyStr.upper (PyStr.prefix 8 uuid4)
        /\ Ride.cab_type ride = cab_type
        /\ Ride.pickup ride = pickup
        /\ Ride.dropoff ride = dropoff
        /\ Ride.status ride = RideStatus.SEARCHING
        /\ Ride.driver ride = None
        /\ Ride.created_at ride = created
        /\ Ride.accepted_at ride = None
        /\ Ride.started_at ride = None
        /\ Ride.completed_at ride = None
        /\ Ride.eta_minutes ride = 0
        /\ (exists fare,
              Ride.fare ride = Some fare
              /\ get_fare_estimate uniform now pickup dropoff cab_type = Ok fare)
        /\ (exists distance,
              Location.distance_to pickup dropoff = Ok distance
              /\ Ride.distance_km ride = PyFloat.round distance 2
              /\ PyFloat.int (distance / 30 * 60)%float = Ok (Ride.duration_minutes ride)))
  /\ (forall e self',
        book_ride uuid4 uniform now created pickup dropoff cab_type self = (Raise e, self') ->
        self' = self).
Proof.
  split; [|split].
  - split.
    + intros (ride & self' & Hcall).
      destruct (booked_ride _ _ _ _ _ _ _ _ _ _ Hcall) as (d & n & fare & Hd & Hn & _).
      exists d. split; [exact Hd|]. apply int_returns_iff_finite. eauto.
    + intros (d & Hd & Hfin). apply int_returns_iff_finite in Hfin. destruct Hfin as [n Hn].
      destruct (fare_estimate_of_distance uniform now pickup dropoff cab_type d Hd)
        as [fare Hfare].
      unfold book_ride. rewrite Hd. simpl. rewrite Hn. simpl. rewrite Hfare. simpl. eauto.
  - intros ride self' Hcall.
    destruct (booked_ride _ _ _ _ _ _ _ _ _ _ Hcall)
      as (d & n & fare & Hd & Hn & Hfare & Hride & ->).
    split; [subst ride; simpl; apply DictFacts.get_set_same|].
    subst ride. simpl. repeat (split; [reflexivity|]). split.
    + exists fare. now split.
    + exists d. now repeat split.
  - intros e self' Hcall. exact (book_ride_raises _ _ _ _ _ _ _ _ _ _ Hcall).
Qed.

(** ** What every reached service holds *)

Section Invariant.
Variable P : string -> Ride.t -> Prop.

Hypothesis P_booked :
  forall uuid4 uniform now created pickup dropoff cab_type self ride self',
    book_ride uuid4 uniform now created pickup dropoff cab_type self = (Ok ride, self') ->
    P (PyStr.upper (PyStr.prefix 8 uuid4)) ride.

Hypothesis P_assigned :
  forall k ride draws now randint,
    P k ride ->
    P k (Ride.set_eta_minutes (randint 3 10)
           (Ride.set_accepted_at (Some now)
              (Ride.set_status RideStatus.ACCEPTED
                 (Ride.set_driver
                    (Some (Driver.generate_random draws (Ride.pickup ride))) ride)))).

Hypothesis P_updated :
  forall k ride ride' now st,
    P k ride ->
    Ride.status ride' = st ->
    Ride.started_at ride' = stamp_on RideStatus.IN_PROGRESS st now (Ride.started_at ride) ->
    Ride.completed_at ride' = stamp_on RideStatus.COMPLETED st now (Ride.completed_at ride) ->
    Ride.accepted_at ride' = Ride.accepted_at ride ->
    Ride.driver ride' = Ride.driver ride ->
    Ride.eta_minutes ride' = Ride.eta_minutes ride ->
    same_booking ride ride' ->
    P k ride'.

Hypothesis P_cancelled :
  forall k ride, P k ride -> P k (Ride.set_status RideStatus.CANCELLED ride).

Lemma step_keeps c self :
  (forall k ride, Dict.get k (rides self) = Some ride -> P k ride) ->
  forall k ride, Dict.get k (rides (step c self)) = Some ride -> P k ride.
Proof.
  intros Hall k ride'.
  destruct c as [uniform now pickup dropoff cab | uuid4 uniform now created pickup dropoff cab
                | draws now randint id | id | now id st | id why | ]; simpl.
  - apply Hall.
  - destruct (book_ride uuid4 uniform now created pickup dropoff cab self)
      as [[ride0|e] self'] eqn:Hcall; simpl.
    + pose proof (P_booked _ _ _ _ _ _ _ _ _ _ Hcall) as Hnew.
      apply book_ride_returns in Hcall. destruct Hcall as (-> & _). simpl.
      destruct (string_dec k (PyStr.upper (PyStr.prefix 8 uuid4))) as [->|Hne].
      * rewrite DictFacts.get_set_same. now intros [= <-].
      * rewrite DictFacts.get_set_other by exact Hne. apply Hall.
    + apply book_ride_raises in Hcall. subst. apply Hall.
  - destruct (Dict.get id (rides self)) as [ride|] eqn:Hget.
    + rewrite (assign_driver_stored _ _ _ _ _ _ Hget). simpl.
      destruct (string_dec k id) as [->|Hne].
      * rewrite DictFacts.get_set_same. intros [= <-]. apply P_assigned, Hall, Hget.
      * rewrite DictFacts.get_set_other by exact Hne. apply Hall.
    + rewrite (assign_driver_unknown _ _ _ _ _ Hget). apply Hall.
  - unfold get_ride. destruct (Dict.get id (rides self)); apply Hall.
  - destruct (Dict.get id (rides self)) as [ride|] eqn:Hget.
    + destruct (update_ride_status_stored now id st self ride Hget)
        as (r' & -> & Hst & Hsta & Hcom & Hacc & Hdrv & Heta & Hbook). simpl.
      destruct (string_dec k id) as [->|Hne].
      * rewrite DictFacts.get_set_same. intros [= <-].
        exact (P_updated id ride r' now st (Hall _ _ Hget) Hst Hsta Hcom Hacc Hdrv Heta Hbook).
      * rewrite DictFacts.get_set_other by exact Hne. apply Hall.
    + rewrite (update_ride_status_unknown _ _ _ _ Hget). apply Hall.
  - destruct (Dict.get id (rides self)) as [ride|] eqn:Hget.
    + rewrite (cancel_ride_stored _ _ _ _ Hget). simpl.
      destruct (string_dec k id) as [->|Hne].
      * rewrite DictFacts.get_set_same. intros [= <-]. apply P_cancelled, Hall, Hget.
      * rewrite DictFacts.get_set_other by exact Hne. apply Hall.
    + rewrite (cancel_ride_unknown _ _ _ Hget). apply Hall.
  - apply Hall.
Qed.

Lemma run_keeps cs : forall self,
  (forall k ride, Dict.get k (rides self) = Some ride -> P k ride) ->
  forall k ride, Dict.get k (rides (run cs self)) = Some ride -> P k ride.
Proof.
  induction cs as [|c cs IH]; intros self Hall; simpl; [exact Hall|].
  apply IH. now apply step_keeps.
Qed.

Lemma reached_keeps cs k ride :
  Dict.get k (rides (run cs init)) = Some ride -> P k ride.
Proof. apply run_keeps. intros k0 r0. discriminate. Qed.

End Invariant.

Lemma reached_booked_as cs key ride :
  Dict.get key (rides (run cs init)) = Some ride -> booked_as key ride.
Proof.
  apply reached_keeps; clear.
  - intros uuid4 uniform now created pickup dropoff cab_type self ride self' Hcall.
    destruct (booked_ride _ _ _ _ _ _ _ _ _ _ Hcall) as (d & n & fare & _ & _ & _ & -> & _).
    repeat split; simpl.
    + rewrite upper_length. apply prefix_length.
    + discriminate.
  - intros k ride draws now randint (Hid & Hlen & Hfare). now repeat split.
  - intros k ride ride' now st (Hid & Hlen & Hfare) _ _ _ _ _ _ Hsame.
    destruct Hsame as (Eid & _ & _ & _ & Efare & _). repeat split; congruence.
  - intros k ride (Hid & Hlen & Hfare). now repeat split.
Qed.

Lemma reached_stamped_as_written cs key ride :
  Dict.get key (rides (run cs init)) = Some ride -> stamped_as_written ride.
Proof.
  apply (reached_keeps (fun _ => stamped_as_written)); clear.
  - intros uuid4 uniform now created pickup dropoff cab_type self ride self' Hcall.
    destruct (booked_ride _ _ _ _ _ _ _ _ _ _ Hcall) as (d & n & fare & _ & _ & _ & -> & _).
    repeat split; simpl; try discriminate; reflexivity.
  - intros k ride draws now randint _. repeat split; simpl; intros E; discriminate E.
  - intros k ride ride' now st (Hda & Heta & Hsta & Hcom) Est Esta Ecom Eacc Edrv Eeta _.
    repeat split.
    + rewrite Edrv, Eacc. apply Hda.
    + rewrite Edrv, Eacc. apply Hda.
    + rewrite Edrv, Eeta. exact Heta.
    + intros E. subst st. rewrite Esta, E. unfold stamp_on. simpl. discriminate.
    + intros E. subst st. rewrite Ecom, E. unfold stamp_on. simpl. discriminate.
  - intros k ride (Hda & Heta & Hsta & Hcom). repeat split; simpl; try apply Hda;
      try exact Heta; intros E; discriminate E.
Qed.

(** X7.  In every service reached from [CabBookingService()] by calls of
    its methods, a ride is stored under its own [ride_id], of at most 8
    characters, and has a fare. *)
Theorem rides_are_stored_under_their_identifier cs key ride :
  Dict.get key (rides (run cs init)) = Some ride ->
  Ride.ride_id ride = key
  /\ (String.length key <= 8)%nat
  /\ (exists fare, Ride.fare ride = Some fare).
Proof.
  intros Hget. destruct (reached_booked_as cs key ride Hget) as (Hid & Hlen & Hfare).
  repeat split; try assumption. destruct (Ride.fare ride) as [fare|]; [eauto|now elim Hfare].
Qed.

(** X8.  In every service reached from [CabBookingService()], a stored
    ride has a driver exactly when it has [accepted_at]; without a driver
    its ETA is 0; a ride that is IN_PROGRESS has [started_at] and a ride that
    is COMPLETED has [completed_at]. *)
Theorem stamps_follow_the_writes cs key ride :
  Dict.get key (rides (run cs init)) = Some ride ->
  (Ride.driver ride = None <-> Ride.accepted_at ride = None)
  /\ (Ride.driver ride = None -> Ride.eta_minutes ride = 0)
  /\ (Ride.status ride = RideStatus.IN_PROGRESS -> Ride.started_at ride <> None)
  /\ (Ride.status ride = RideStatus.COMPLETED -> Ride.completed_at ride <> None).
Proof. intros Hget. exact (reached_stamped_as_written cs key ride Hget). Qed.

(** The rides of the history are the stored rides that are COMPLETED. *)
Lemma history_entries self ride :
  Dict.wf (rides self) ->
  In ride (filter (fun r => RideStatus.eqb (Ride.status r) RideStatus.COMPLETED)
             (Dict.values (rides self)))
  <-> exists id, Dict.get id (rides self) = Some ride
                 /\ Ride.status ride = RideStatus.COMPLETED.
Proof.
  intros Hwf. rewrite filter_In, status_eqb_eq. unfold Dict.values. rewrite in_map_iff.
  split.
  - intros [([id ride0] & Heq & Hin) Hst]. simpl in Heq. subst ride0.
    exists id. split; [now apply DictFacts.In_get|exact Hst].
  - intros (id & Hget & Hst). split; [|exact Hst].
    exists (id, ride). split; [reflexivity|now apply DictFacts.get_Some_In].
Qed.

(** X9.  In every service reached from [CabBookingService()], a ride of
    [get_ride_history] is COMPLETED, has [completed_at] and a fare, and is
    the ride the registry holds under its [ride_id]. *)
Theorem history_rides_are_complete cs history ride :
  fst (get_ride_history (run cs init)) = Ok history ->
  In ride history ->
  Ride.status ride = RideStatus.COMPLETED
  /\ Ride.completed_at ride <> None
  /\ Dict.get (Ride.ride_id ride) (rides (run cs init)) = Some ride
  /\ (exists fare, Ride.fare ride = Some fare).
Proof.
  unfold get_ride_history. simpl. intros [= <-] Hin.
  apply history_entries in Hin; [|apply reachable_wf].
  destruct Hin as (id & Hget & Hst).
  destruct (reached_booked_as cs id ride Hget) as (Hid & _ & Hfare).
  destruct (reached_stamped_as_written cs id ride Hget) as (_ & _ & _ & Hcom).
  split; [exact Hst|]. split; [now apply Hcom|]. split; [now rewrite Hid|].
  destruct (Ride.fare ride) as [fare|]; [eauto|now elim Hfare].
Qed.

End Bookings.

Lemma rides_are_stored_under_their_identifier_witness :
  exists ride,
    Dict.get "A1B2C3D4" (rides Sample.booked) = Some ride
    /\ Ride.ride_id ride = "A1B2C3D4"
    /\ (String.length "A1B2C3D4" <= 8)%nat
    /\ (exists fare, Ride.fare ride = Some fare).
Proof.
  destruct (Dict.get "A1B2C3D4" (rides Sample.booked)) as [ride|] eqn:Hget;
    [|vm_compute in Hget; discriminate Hget].
  exists ride. split; [reflexivity|].
  exact (rides_are_stored_under_their_identifier (H := Sample.pow)
           [BookRide Sample.uuid4 Sample.uniform (Sample.at_9h 0) (Sample.at_9h 0)
              Sample.pickup Sample.dropoff CabType.SEDAN]
           "A1B2C3D4" ride Hget).
Defined.

Lemma stamps_follow_the_writes_witness :
  exists ride,
    Dict.get "A1B2C3D4" (rides Sample.in_progress) = Some ride
    /\ (Ride.driver ride = None <-> Ride.accepted_at ride = None)
    /\ (Ride.driver ride = None -> Ride.eta_minutes ride = 0)
    /\ (Ride.status ride = RideStatus.IN_PROGRESS -> Ride.started_at ride <> None)
    /\ (Ride.status ride = RideStatus.COMPLETED -> Ride.completed_at ride <> None).
Proof.
  destruct (Dict.get "A1B2C3D4" (rides Sample.in_progress)) as [ride|] eqn:Hget;
    [|vm_compute in Hget; discriminate Hget].
  exists ride. split; [reflexivity|].
  exact (stamps_follow_the_writes (H := Sample.pow)
           [BookRide Sample.uuid4 Sample.uniform (Sample.at_9h 0) (Sample.at_9h 0)
              Sample.pickup Sample.dropoff CabType.SEDAN;
            AssignDriver Sample.draws (Sample.at_9h 5) Sample.randint Sample.ride_id;
            UpdateRideStatus (Sample.at_9h 60) Sample.ride_id RideStatus.ARRIVING;
            UpdateRideStatus (Sample.at_9h 300) Sample.ride_id RideStatus.IN_PROGRESS]
           "A1B2C3D4" ride Hget).
Defined.

Lemma history_rides_are_complete_witness :
  exists ride,
    In ride (filter (fun r => RideStatus.eqb (Ride.status r) RideStatus.COMPLETED)
               (Dict.values (rides Sample.completed)))
    /\ Ride.status ride = RideStatus.COMPLETED
    /\ Ride.completed_at ride <> None
    /\ Dict.get (Ride.ride_id ride) (rides Sample.completed) = Some ride
    /\ (exists fare, Ride.fare ride = Some fare).
Proof.
  destruct (Dict.get "A1B2C3D4" (rides Sample.completed)) as [ride|] eqn:Hget;
    [|vm_compute in Hget; discriminate Hget].
  assert (Hin : In ride (filter (fun r => RideStatus.eqb (Ride.status r) RideStatus.COMPLETED)
                           (Dict.values (rides Sample.completed)))).
  { apply filter_In. split.
    - unfold Dict.values. apply in_map_iff. exists ("A1B2C3D4", ride).
      split; [reflexivity|]. apply DictFacts.get_Some_In. exact Hget.
    - vm_compute in Hget. injection Hget as Hride. subst ride. reflexivity. }
  exists ride. split; [exact Hin|].
  exact (history_rides_are_complete (H := Sample.pow)
           [BookRide Sample.uuid4 Sample.uniform (Sample.at_9h 0) (Sample.at_9h 0)
              Sample.pickup Sample.dropoff CabType.SEDAN;
            AssignDriver Sample.draws (Sample.at_9h 5) Sample.randint Sample.ride_id;
            UpdateRideStatus (Sample.at_9h 60) Sample.ride_id RideStatus.ARRIVING;
            UpdateRideStatus (Sample.at_9h 300) Sample.ride_id RideStatus.IN_PROGRESS;
            UpdateRideStatus (Sample.at_9h 900) Sample.ride_id RideStatus.COMPLETED]
           _ ride eq_refl Hin).
Defined.

(** ** Calls in sequence *)

Lemma dict_set_set {V : Type} k (v v' : V) d :
  Dict.set k v' (Dict.set k v d) = Dict.set k v' d.
Proof.
  induction d as [|[k0 v0] d IH]; simpl.
  - now rewrite String.eqb_refl.
  - destruct (String.eqb k k0) eqn:E; simpl; rewrite E; [reflexivity|now rewrite IH].
Qed.

Lemma set_rides_set_rides d d' self : set_rides d' (set_rides d self) = set_rides d' self.
Proof. reflexivity. Qed.

(** A write to the ride stored under [id], and the next one. *)
Lemma written_twice id r r' self :
  set_rides (Dict.set id r' (rides (set_rides (Dict.set id r (rides self)) self)))
    (set_rides (Dict.set id r (rides self)) self)
  = set_rides (Dict.set id r' (rides self)) self.
Proof. simpl. unfold set_rides. simpl. now rewrite dict_set_set. Qed.

Lemma update_ride_status_writes now id st self ride :
  Dict.get id (rides self) = Some ride ->
  update_ride_status now id st self
  = (let ride' :=
       match st with
       | RideStatus.IN_PROGRESS => Ride.set_started_at (Some now) (Ride.set_status st ride)
       | RideStatus.COMPLETED => Ride.set_completed_at (Some now) (Ride.set_status st ride)
       | _ => Ride.set_status st ride
       end in
     (Ok ride', set_rides (Dict.set id ride' (rides self)) self)).
Proof. intros Hget. unfold update_ride_status. rewrite Hget. now destruct st. Qed.

Lemma update_ride_status_after_write now id st r self :
  update_ride_status now id st (set_rides (Dict.set id r (rides self)) self)
  = (let ride' :=
       match st with
       | RideStatus.IN_PROGRESS => Ride.set_started_at (Some now) (Ride.set_status st r)
       | RideStatus.COMPLETED => Ride.set_completed_at (Some now) (Ride.set_status st r)
       | _ => Ride.set_status st r
       end in
     (Ok ride', set_rides (Dict.set id ride' (rides self)) self)).
Proof.
  rewrite (update_ride_status_writes now id st _ r) by (simpl; apply DictFacts.get_set_same).
  cbv zeta. now rewrite written_twice.
Qed.

(** The service after a call that returned. *)
Ltac returned :=
  match goal with
  | |- context [snd (Ok ?a, ?self)] => change (snd (Ok a, self)) with self
  end.

Section Journeys.
Context `{PyFloat.Pow}.

Lemma step_elsewhere c k self :
  target c <> Some k ->
  Dict.get k (rides (step c self)) = Dict.get k (rides self).
Proof.
  intros Hk.
  destruct c as [uniform now pickup dropoff cab | uuid4 uniform now created pickup dropoff cab
                | draws now randint id | id | now id st | id why | ]; simpl in *.
  - reflexivity.
  - destruct (book_ride uuid4 uniform now created pickup dropoff cab self)
      as [[ride|e] self'] eqn:Hcall; simpl.
    + apply book_ride_returns in Hcall. destruct Hcall as (-> & _). simpl.
      apply DictFacts.get_set_other. congruence.
    + apply book_ride_raises in Hcall. now subst.
  - destruct (Dict.get id (rides self)) as [ride|] eqn:Hget.
    + rewrite (assign_driver_stored _ _ _ _ _ _ Hget). simpl.
      apply DictFacts.get_set_other. congruence.
    + now rewrite (assign_driver_unknown _ _ _ _ _ Hget).
  - unfold get_ride. now destruct (Dict.get id (rides self)).
  - destruct (Dict.get id (rides self)) as [ride|] eqn:Hget.
    + rewrite (update_ride_status_writes _ _ _ _ _ Hget). simpl.
      apply DictFacts.get_set_other. congruence.
    + now rewrite (update_ride_status_unknown _ _ _ _ Hget).
  - destruct (Dict.get id (rides self)) as [ride|] eqn:Hget.
    + rewrite (cancel_ride_stored _ _ _ _ Hget). simpl.
      apply DictFacts.get_set_other. congruence.
    + now rewrite (cancel_ride_unknown _ _ _ Hget).
  - reflexivity.
Qed.

Lemma step_surge_areas c self : surge_areas (step c self) = surge_areas self.
Proof.
  destruct c as [uniform now pickup dropoff cab | uuid4 uniform now created pickup dropoff cab
                | draws now randint id | id | now id st | id why | ]; simpl.
  - reflexivity.
  - destruct (book_ride uuid4 uniform now created pickup dropoff cab self)
      as [[ride|e] self'] eqn:Hcall; simpl.
    + apply book_ride_returns in Hcall. now destruct Hcall as (-> & _).
    + apply book_ride_raises in Hcall. now subst.
  - unfold assign_driver. now destruct (Dict.get id (rides self)).
  - unfold get_ride. now destruct (Dict.get id (rides self)).
  - unfold update_ride_status. now destruct (Dict.get id (rides self)).
  - unfold cancel_ride. now destruct (Dict.get id (rides self)).
  - reflexivity.
Qed.

(** X10.  A ride changes only through calls made on its identifier: after
    any calls that book, assign, read, update or cancel other identifiers
    only, the registry holds under [k] what it held, [get_ride k] answers as
    before, and [surge_areas] is as it was. *)
Theorem rides_change_by_calls_on_their_identifier cs k self :
  (forall c, In c cs -> target c <> Some k) ->
  Dict.get k (rides (run cs self)) = Dict.get k (rides self)
  /\ get_ride k (run cs self) = (fst (get_ride k self), run cs self)
  /\ surge_areas (run cs self) = surge_areas self.
Proof.
  revert self. induction cs as [|c cs IH]; intros self Hcs; simpl.
  - repeat split. unfold get_ride. now destruct (Dict.get k (rides self)).
  - destruct (IH (step c self)) as (Hget & Hride & Hsurge).
    { intros c' Hin. apply Hcs. now right. }
    assert (Hstep : Dict.get k (rides (step c self)) = Dict.get k (rides self)).
    { apply step_elsewhere, Hcs. now left. }
    split; [now rewrite Hget|]. split.
    + rewrite Hride. f_equal. unfold get_ride. rewrite Hstep.
      now destruct (Dict.get k (rides self)).
    + now rewrite Hsurge, step_surge_areas.
Qed.

(** The service after the calls of a course. *)
Lemma run_course draws randint accepted arriving started completed id self ride :
  Dict.get id (rides self) = Some ride ->
  run (course draws randint accepted arriving started completed id) self
  = set_rides
      (Dict.set id (driven draws randint accepted started completed ride) (rides self)) self.
Proof.
  intros Hget. unfold course, run. simpl.
  rewrite (assign_driver_stored _ _ _ _ _ _ Hget). cbv zeta. returned.
  rewrite update_ride_status_after_write. cbv zeta. returned.
  rewrite update_ride_status_after_write. cbv zeta. returned.
  rewrite update_ride_status_after_write. reflexivity.
Qed.

(** X11.  A stored ride taken through [assign_driver] and the updates to
    ARRIVING, IN_PROGRESS and COMPLETED ends COMPLETED with the generated
    driver, the ETA drawn at the assignment, and the clock readings of the
    assignment, of the start and of the completion as its three timestamps;
    what the booking fixed is kept, the other rides are untouched, and
    [get_ride_history] lists it. *)
Theorem a_ride_from_assignment_to_completion
    draws randint accepted arriving started completed id self ride :
  Dict.get id (rides self) = Some ride ->
  let cs := course draws randint accepted arriving started completed id in
  let ride' := driven draws randint accepted started completed ride in
  run cs self = set_rides (Dict.set id ride' (rides self)) self
  /\ get_ride id (run cs self) = (Ok ride', run cs self)
  /\ Ride.status ride' = RideStatus.COMPLETED
  /\ Ride.driver ride' = Some (Driver.generate_random draws (Ride.pickup ride))
  /\ Ride.accepted_at ride' = Some accepted
  /\ Ride.started_at ride' = Some started
  /\ Ride.completed_at ride' = Some completed
  /\ Ride.eta_minutes ride' = randint 3 10
  /\ same_booking ride ride'
  /\ others_kept id self (run cs self)
  /\ (Dict.wf (rides self) ->
      exists history,
        fst (get_ride_history (run cs self)) = Ok history /\ In ride' history).
Proof.
  intros Hget cs ride'.
  pose proof (run_course draws randint accepted arriving started completed id self ride Hget)
    as Hrun. fold cs ride' in Hrun.
  assert (Hstored : Dict.get id (rides (run cs self)) = Some ride').
  { rewrite Hrun. simpl. apply DictFacts.get_set_same. }
  split; [exact Hrun|]. split; [now apply get_ride_stored|].
  do 6 (split; [reflexivity|]). split; [repeat split|]. split.
  - rewrite Hrun. apply others_kept_set. exact (stored_key _ _ _ Hget).
  - intros Hwf. eexists. split; [reflexivity|].
    apply filter_In. split; [|reflexivity].
    unfold Dict.values. apply in_map_iff. exists (id, ride').
    split; [reflexivity|]. now apply DictFacts.get_Some_In.
Qed.

(** X12.  When [update_ride_status], [assign_driver] or [cancel_ride]
    returns, [get_ride] on the same identifier returns next (it cannot
    raise): the very ride [update_ride_status] returned, with the new status;
    after [assign_driver] the ACCEPTED ride with the driver returned; after
    [cancel_ride] the CANCELLED ride. *)
Theorem get_ride_returns_what_was_written id self self' :
  (forall now st ride,
     update_ride_status now id st self = (Ok ride, self') ->
     get_ride id self' = (Ok ride, self') /\ Ride.status ride = st)
  /\ (forall draws now randint driver,
        assign_driver draws now randint id self = (Ok driver, self') ->
        exists ride,
          get_ride id self' = (Ok ride, self')
          /\ Ride.driver ride = Some driver
          /\ Ride.status ride = RideStatus.ACCEPTED
          /\ Ride.accepted_at ride = Some now
          /\ Ride.eta_minutes ride = randint 3 10)
  /\ (forall why res,
        cancel_ride id why self = (Ok res, self') ->
        exists ride,
          get_ride id self' = (Ok ride, self')
          /\ Ride.status ride = RideStatus.CANCELLED
          /\ cancelled_ride_id res = id
          /\ reason res = why).
Proof.
  split; [|split].
  - intros now st ride Hcall. destruct (Dict.get id (rides self)) as [r|] eqn:Hget.
    + destruct (update_ride_status_stored now id st self r Hget) as (r' & E & Hst & _).
      rewrite E in Hcall. injection Hcall as <- <-. split; [|exact Hst].
      apply get_ride_stored. simpl. apply DictFacts.get_set_same.
    + rewrite (update_ride_status_unknown _ _ _ _ Hget) in Hcall. discriminate Hcall.
  - intros draws now randint driver Hcall.
    destruct (Dict.get id (rides self)) as [r|] eqn:Hget.
    + rewrite (assign_driver_stored _ _ _ _ _ _ Hget) in Hcall. injection Hcall as <- <-.
      eexists. split; [apply get_ride_stored; simpl; apply DictFacts.get_set_same|].
      now repeat split.
    + rewrite (assign_driver_unknown _ _ _ _ _ Hget) in Hcall. discriminate Hcall.
  - intros why res Hcall. destruct (Dict.get id (rides self)) as [r|] eqn:Hget.
    + rewrite (cancel_ride_stored _ _ _ _ Hget) in Hcall. injection Hcall as <- <-.
      eexists. split; [apply get_ride_stored; simpl; apply DictFacts.get_set_same|].
      now repeat split.
    + rewrite (cancel_ride_unknown _ _ _ Hget) in Hcall. discriminate Hcall.
Qed.

(** The COMPLETED rides of a registry whose rides are stored under their
    identifiers, after the ride of [id] was replaced by one that is not
    COMPLETED. *)
Lemma completed_without id r' (d : Dict.t Ride.t) :
  Dict.wf d ->
  (forall k r, In (k, r) d -> Ride.ride_id r = k) ->
  In id (Dict.keys d) ->
  RideStatus.eqb (Ride.status r') RideStatus.COMPLETED = false ->
  filter (fun r => RideStatus.eqb (Ride.status r) RideStatus.COMPLETED)
    (Dict.values (Dict.set id r' d))
  = filter (fun r => negb (String.eqb (Ride.ride_id r) id))
      (filter (fun r => RideStatus.eqb (Ride.status r) RideStatus.COMPLETED)
         (Dict.values d)).
Proof.
  intros Hwf Hid Hin Hst. induction d as [|[k0 r0] d IH]; [destruct Hin|].
  unfold Dict.wf in Hwf. simpl in Hwf. apply NoDup_cons_iff in Hwf. destruct Hwf as [Hk0 Hnd].
  pose proof (Hid k0 r0 (or_introl eq_refl)) as Hr0.
  simpl. destruct (String.eqb id k0) eqn:E.
  - apply String.eqb_eq in E. rewrite <- E in *. clear E k0. simpl. rewrite Hst.
    assert (Hrest : forall l : list Ride.t,
              (forall r, In r l -> Ride.ride_id r <> id) ->
              filter (fun r => negb (String.eqb (Ride.ride_id r) id)) l = l).
    { induction l as [|r l IHl]; intros Hl; simpl; [reflexivity|].
      destruct (String.eqb_spec (Ride.ride_id r) id) as [Eq|Ne].
      - exfalso. apply (Hl r); [now left|exact Eq].
      - simpl. f_equal. apply IHl. intros r1 Hr1. apply Hl. now right. }
    assert (Hothers : forall r,
              In r (filter (fun r => RideStatus.eqb (Ride.status r) RideStatus.COMPLETED)
                      (Dict.values d)) -> Ride.ride_id r <> id).
    { intros r Hr. apply filter_In in Hr. destruct Hr as [Hr _].
      unfold Dict.values in Hr. apply in_map_iff in Hr. destruct Hr as ([k1 r1] & <- & Hr).
      simpl. rewrite (Hid k1 r1) by now right. intros ->. apply Hk0.
      unfold Dict.keys. apply in_map_iff. now exists (id, r1). }
    destruct (RideStatus.eqb (Ride.status r0) RideStatus.COMPLETED); simpl.
    + rewrite Hr0, String.eqb_refl. simpl. symmetry. now apply Hrest.
    + symmetry. now apply Hrest.
  - simpl. destruct Hin as [Hin|Hin].
    { simpl in Hin. subst k0. now rewrite String.eqb_refl in E. }
    rewrite IH; [|exact Hnd|intros k r Hkr; apply Hid; now right|exact Hin].
    destruct (RideStatus.eqb (Ride.status r0) RideStatus.COMPLETED); simpl; [|reflexivity].
    rewrite Hr0. rewrite String.eqb_sym, E. reflexivity.
Qed.

(** X13.  In a service reached from [CabBookingService()], a [cancel_ride]
    that returns takes the ride of that identifier out of
    [get_ride_history] and leaves the other rides of the history, in
    their order. *)
Theorem cancel_ride_takes_the_ride_out_of_the_history cs id why res self' history :
  cancel_ride id why (run cs init) = (Ok res, self') ->
  fst (get_ride_history (run cs init)) = Ok history ->
  fst (get_ride_history self')
  = Ok (filter (fun r => negb (String.eqb (Ride.ride_id r) id)) history)
  /\ (forall ride, In ride history -> Ride.ride_id ride <> id ->
      exists history', fst (get_ride_history self') = Ok history' /\ In ride history').
Proof.
  intros Hcall Hhist. unfold get_ride_history in *. simpl in *. injection Hhist as <-.
  destruct (Dict.get id (rides (run cs init))) as [r|] eqn:Hget.
  - rewrite (cancel_ride_stored _ _ _ _ Hget) in Hcall. injection Hcall as _ <-. simpl.
    assert (E : filter (fun r => RideStatus.eqb (Ride.status r) RideStatus.COMPLETED)
                  (Dict.values (Dict.set id (Ride.set_status RideStatus.CANCELLED r)
                                  (rides (run cs init))))
                = filter (fun r => negb (String.eqb (Ride.ride_id r) id))
                    (filter (fun r => RideStatus.eqb (Ride.status r) RideStatus.COMPLETED)
                       (Dict.values (rides (run cs init))))).
    { apply completed_without.
      - apply reachable_wf.
      - intros k r0 Hin. apply DictFacts.In_get in Hin; [|apply reachable_wf].
        now destruct (reached_booked_as cs k r0 Hin).
      - exact (stored_key _ _ _ Hget).
      - reflexivity. }
    split; [now rewrite E|].
    intros ride Hin Hne. eexists. split; [reflexivity|]. rewrite E.
    apply filter_In. split; [exact Hin|].
    now destruct (String.eqb_spec (Ride.ride_id ride) id).
  - rewrite (cancel_ride_unknown _ _ _ Hget) in Hcall. discriminate Hcall.
Qed.

End Journeys.

Lemma rides_change_by_calls_on_their_identifier_witness :
  Dict.get "A1B2C3D4"
    (rides (run (H := Sample.pow)
              [BookRide "9a8b7c6d-5e4f-4321-8fed-ba9876543210" Sample.uniform
                 (Sample.at_9h 30) (Sample.at_9h 30) Sample.dropoff Sample.pickup
                 CabType.MINI;
               AssignDriver Sample.draws' (Sample.at_9h 40) Sample.randint "9A8B7C6D";
               CancelRide "9A8B7C6D" "User cancelled";
               GetRideHistory]
              Sample.booked))
  = Dict.get "A1B2C3D4" (rides Sample.booked).
Proof.
  apply (rides_change_by_calls_on_their_identifier (H := Sample.pow)).
  intros c [<-|[<-|[<-|[<-|[]]]]]; vm_compute; intros E; discriminate E.
Defined.

Lemma a_ride_from_assignment_to_completion_witness :
  exists ride,
    Dict.get Sample.ride_id (rides Sample.booked) = Some ride
    /\ Dict.get Sample.ride_id (rides Sample.completed)
       = Some (driven Sample.draws Sample.randint
                 (Sample.at_9h 5) (Sample.at_9h 300) (Sample.at_9h 900) ride).
Proof.
  destruct (Dict.get Sample.ride_id (rides Sample.booked)) as [ride|] eqn:Hget;
    [|vm_compute in Hget; discriminate Hget].
  exists ride. split; [reflexivity|].
  destruct (a_ride_from_assignment_to_completion (H := Sample.pow)
              Sample.draws Sample.randint
              (Sample.at_9h 5) (Sample.at_9h 60) (Sample.at_9h 300) (Sample.at_9h 900)
              Sample.ride_id Sample.booked ride Hget) as (Hrun & _).
  change (Sample.completed
          = set_rides
              (Dict.set Sample.ride_id
                 (driven Sample.draws Sample.randint
                    (Sample.at_9h 5) (Sample.at_9h 300) (Sample.at_9h 900) ride)
                 (rides Sample.booked))
              Sample.booked) in Hrun.
  rewrite Hrun. apply DictFacts.get_set_same.
Defined.

Lemma cancel_ride_takes_the_ride_out_of_the_history_witness :
  exists res self',
    cancel_ride Sample.ride_id "Changed plans" Sample.completed = (Ok res, self')
    /\ fst (get_ride_history self')
       = Ok (filter (fun r => negb (String.eqb (Ride.ride_id r) Sample.ride_id))
               (filter (fun r => RideStatus.eqb (Ride.status r) RideStatus.COMPLETED)
                  (Dict.values (rides Sample.completed)))).
Proof.
  destruct (cancel_ride Sample.ride_id "Changed plans" Sample.completed)
    as [[res|e] self'] eqn:Hcall; [|vm_compute in Hcall; discriminate Hcall].
  exists res, self'. split; [reflexivity|].
  exact (proj1 (cancel_ride_takes_the_ride_out_of_the_history (H := Sample.pow)
                  [BookRide Sample.uuid4 Sample.uniform (Sample.at_9h 0) (Sample.at_9h 0)
                     Sample.pickup Sample.dropoff CabType.SEDAN;
                   AssignDriver Sample.draws (Sample.at_9h 5) Sample.randint Sample.ride_id;
                   UpdateRideStatus (Sample.at_9h 60) Sample.ride_id RideStatus.ARRIVING;
                   UpdateRideStatus (Sample.at_9h 300) Sample.ride_id RideStatus.IN_PROGRESS;
                   UpdateRideStatus (Sample.at_9h 900) Sample.ride_id RideStatus.COMPLETED]
                  Sample.ride_id "Changed plans" res self' _ Hcall eq_refl)).
Defined.

(** ** The names in requests *)

(** [Enum[name]] on an enumeration whose members have different names. *)
Lemma find_by_name {A : Type} (name_of : A -> string) (members : list A) name a :
  NoDup (map name_of members) ->
  In a members ->
  find (fun x => String.eqb (name_of x) name) members = Some a <-> name_of a = name.
Proof.
  intros Hnd Hin. split.
  - intros Hfind. apply find_some in Hfind. now apply String.eqb_eq.
  - intros Hname. induction members as [|x l IH]; [destruct Hin|].
    cbn [map] in Hnd. apply NoDup_cons_iff in Hnd. destruct Hnd as [Hx Hnd]. cbn [find].
    destruct (String.eqb_spec (name_of x) name) as [E|N].
    + destruct Hin as [->|Hin]; [reflexivity|].
      exfalso. apply Hx. rewrite E, <- Hname. now apply in_map.
    + destruct Hin as [->|Hin]; [now elim N|]. now apply IH.
Qed.

Lemma cab_type_of_name_iff name c :
  cab_type_of_name name = Some c <-> cab_type_name c = name.
Proof.
  apply find_by_name.
  - unfold cab_types. cbn [map cab_type_name].
    repeat constructor; cbn [In]; intros Hin; decompose [or] Hin;
      try contradiction; discriminate.
  - unfold cab_types. destruct c; cbn [In]; tauto.
Qed.

Lemma ride_status_of_name_iff name s :
  ride_status_of_name name = Some s <-> ride_status_name s = name.
Proof.
  apply find_by_name.
  - unfold ride_statuses. cbn [map ride_status_name].
    repeat constructor; cbn [In]; intros Hin; decompose [or] Hin;
      try contradiction; discriminate.
  - unfold ride_statuses. destruct s; cbn [In]; tauto.
Qed.

Lemma upper_ascii_idem c : PyStr.upper_ascii (PyStr.upper_ascii c) = PyStr.upper_ascii c.
Proof.
  destruct c as [[] [] [] [] [] [] [] []]; reflexivity.
Qed.

Lemma upper_idem s : PyStr.upper (PyStr.upper s) = PyStr.upper s.
Proof.
  induction s as [|c s IH]; simpl; [reflexivity|]. now rewrite upper_ascii_idem, IH.
Qed.

(** X14.  The names the service writes are names the handlers read back:
    [RideStatus[s.upper()]] on the value of a status ("in_progress") or on
    its member name gives that status, and [CabType[s.upper()]] on the member
    name of a cab type or on its display name ("Sedan") gives that cab type;
    so the [type] and the [name] of an entry of [get_available_cabs] both
    name its cab type. *)
Theorem written_names_are_read_back :
  (forall s, request_status (RideStatus.value s) = inr s)
  /\ (forall s, request_status (ride_status_name s) = inr s)
  /\ (forall c, request_cab_type (cab_type_name c) = inr c)
  /\ (forall c, request_cab_type (CabType.name (CabType.value c)) = inr c)
  /\ (forall randint uniform now location self,
        Forall (fun cab =>
                  exists c,
                    request_cab_type (AvailableCab.type cab) = inr c
                    /\ request_cab_type (AvailableCab.name cab) = inr c
                    /\ AvailableCab.capacity cab = CabType.capacity (CabType.value c))
          match fst (get_available_cabs randint uniform now location self) with
          | Ok cabs => cabs
          | Raise _ => []
          end).
Proof.
  split; [|split; [|split; [|split]]].
  - intros []; reflexivity.
  - intros []; reflexivity.
  - intros []; reflexivity.
  - intros []; reflexivity.
  - intros randint uniform now location self. simpl.
    repeat constructor.
    + exists CabType.MINI. now repeat split.
    + exists CabType.SEDAN. now repeat split.
    + exists CabType.SUV. now repeat split.
    + exists CabType.LUXURY. now repeat split.
Qed.

(** X15.  On an ASCII string, the handlers of [app/routes.py] accept a cab
    type or a status exactly when its upper-case form is a member name, so
    without regard to case; any other string is answered with status 400 and
    the list of the member names. *)
Theorem request_names_are_matched_without_case name :
  is_ascii name = true ->
  (forall c, request_cab_type name = inr c <-> PyStr.upper name = cab_type_name c)
  /\ (forall s, request_status name = inr s <-> PyStr.upper name = ride_status_name s)
  /\ ((forall c, PyStr.upper name <> cab_type_name c) ->
      request_cab_type name
      = inl {| status_code := 400;
               detail := "Invalid cab type. Must be one of: MINI, SEDAN, SUV, LUXURY" |})
  /\ ((forall s, PyStr.upper name <> ride_status_name s) ->
      request_status name
      = inl {| status_code := 400;
               detail := "Invalid status. Must be one of: SEARCHING, ACCEPTED, ARRIVING, IN_PROGRESS, COMPLETED, CANCELLED" |})
  /\ request_cab_type (PyStr.upper name) = request_cab_type name
  /\ request_status (PyStr.upper name) = request_status name.
Proof.
  intros _. split; [|split; [|split; [|split; [|split]]]].
  - intros c. unfold request_cab_type.
    destruct (cab_type_of_name (PyStr.upper name)) as [c'|] eqn:E.
    + apply cab_type_of_name_iff in E. split.
      * now intros [= <-].
      * intros E'. f_equal. rewrite E' in E. now destruct c, c'.
    + split; [intros E'; discriminate E'|].
      intros E'. symmetry in E'. apply cab_type_of_name_iff in E'. congruence.
  - intros s. unfold request_status.
    destruct (ride_status_of_name (PyStr.upper name)) as [s'|] eqn:E.
    + apply ride_status_of_name_iff in E. split.
      * now intros [= <-].
      * intros E'. f_equal. rewrite E' in E. now destruct s, s'.
    + split; [intros E'; discriminate E'|].
      intros E'. symmetry in E'. apply ride_status_of_name_iff in E'. congruence.
  - intros Hnone. unfold request_cab_type.
    destruct (cab_type_of_name (PyStr.upper name)) as [c'|] eqn:E; [|reflexivity].
    apply cab_type_of_name_iff in E. symmetry in E. now elim (Hnone c').
  - intros Hnone. unfold request_status.
    destruct (ride_status_of_name (PyStr.upper name)) as [s'|] eqn:E; [|reflexivity].
    apply ride_status_of_name_iff in E. symmetry in E. now elim (Hnone s').
  - unfold request_cab_type. now rewrite upper_idem.
  - unfold request_status. now rewrite upper_idem.
Qed.

Lemma request_names_are_matched_without_case_witness :
  request_cab_type "Sedan" = inr CabType.SEDAN
  /\ request_status "In_Progress" = inr RideStatus.IN_PROGRESS
  /\ request_cab_type "in_progress"
     = inl {| status_code := 400;
              detail := "Invalid cab type. Must be one of: MINI, SEDAN, SUV, LUXURY" |}.
Proof.
  destruct (request_names_are_matched_without_case "Sedan" eq_refl) as (Hcab & _).
  destruct (request_names_are_matched_without_case "In_Progress" eq_refl)
    as (_ & Hstatus & _).
  destruct (request_names_are_matched_without_case "in_progress" eq_refl)
    as (_ & _ & Hnone & _).
  split; [|split].
  - apply Hcab. reflexivity.
  - apply Hstatus. reflexivity.
  - apply Hnone. intros c E. destruct c; discriminate E.
Defined.

(** ** [app.py] *)

(** Unfolding the statements of a method of [app.py]. *)
Ltac app_steps :=
  unfold App.bind, App.rides_get, App.found, App.setattr, App.reread, App.print,
    App.attribute, App.called, App.ret, App.raise, App.rides_set;
  cbn [fst snd App.system App.console rides surge_areas set_rides RideStatus.eqb].

Lemma app_update_ride_status_unknown now id st w :
  Dict.get id (rides (App.system w)) = None ->
  App.update_ride_status now id st w
  = (App.Raised (App.Service (ValueError "Ride not found")), w).
Proof. intros Hget. unfold App.update_ride_status. app_steps. now rewrite Hget. Qed.

Lemma app_assign_driver_unknown draws now randint id w :
  Dict.get id (rides (App.system w)) = None ->
  App.assign_driver draws now randint id w
  = (App.Raised (App.Service (ValueError "Ride not found")), w).
Proof. intros Hget. unfold App.assign_driver. app_steps. now rewrite Hget. Qed.

Lemma bind_returned {A B : Type} (m : App.method A) (k : A -> App.method B) w a w' :
  m w = (App.Returned a, w') -> App.bind m k w = k a w'.
Proof. unfold App.bind. now intros ->. Qed.

Lemma bind_raised {A B : Type} (m : App.method A) (k : A -> App.method B) w e w' :
  m w = (App.Raised e, w') -> App.bind m k w = (App.Raised e, w').
Proof. unfold App.bind. now intros ->. Qed.

(** The next statement returns. *)
Ltac next_by tac := erewrite bind_returned; [|tac].
Ltac next := next_by reflexivity.

Lemma rides_set_rides d self : rides (set_rides d self) = d.
Proof. reflexivity. Qed.

Lemma written id r self lines :
  Dict.get id
    (rides (App.system
              {| App.system := set_rides (Dict.set id r (rides self)) self;
                 App.console := lines |}))
  = Some r.
Proof. cbn. apply DictFacts.get_set_same. Qed.

(** What [_complete_ride] prints, and where it stops. *)
Lemma complete_ride_lines ride w :
  App._complete_ride ride w
  = (match Ride.fare ride, Ride.driver ride with
     | None, _ =>
         App.Raised (App.AttributeError "'NoneType' object has no attribute 'base_fare'")
     | Some _, None =>
         App.Raised (App.AttributeError "'NoneType' object has no attribute 'name'")
     | Some _, Some _ => App.Returned tt
     end,
     {| App.system := App.system w;
        App.console :=
          (App.console w
           ++ [App.RideCompleted; App.RideSummary;
               App.SummaryRideId (Ride.ride_id ride);
               App.SummaryDistance (Ride.distance_km ride);
               App.SummaryDuration (Ride.duration_minutes ride);
               App.FareBreakdown]
           ++ match Ride.fare ride with
              | None => []
              | Some fare =>
                  [App.BaseFare (Fare.base_fare fare);
                   App.DistanceFare (Ride.distance_km ride) (Fare.distance_fare fare);
                   App.TimeFare (Ride.duration_minutes ride) (Fare.time_fare fare)]
                  ++ (if (1.0 <? Fare.surge_multiplier fare)%float
                      then [App.SurgeMultiplier (Fare.surge_multiplier fare)]
                      else [])
                  ++ [App.Rule; App.Total (Fare.total fare)]
                  ++ match Ride.driver ride with
                     | None => []
                     | Some driver => [App.RateYourDriver (Driver.name driver)]
                     end
              end)%list |}).
Proof.
  unfold App._complete_ride. app_steps.
  destruct (Ride.fare ride) as [fare|]; app_steps.
  - destruct (1.0 <? Fare.surge_multiplier fare)%float; app_steps;
      destruct (Ride.driver ride) as [driver|]; app_steps;
      repeat rewrite <- app_assoc; reflexivity.
  - repeat rewrite <- app_assoc. reflexivity.
Qed.

Lemma app_update_ride_status_stored now id st w ride :
  Dict.get id (rides (App.system w)) = Some ride ->
  let wrote r :=
    {| App.system := set_rides (Dict.set id r (rides (App.system w))) (App.system w);
       App.console := App.console w |} in
  App.update_ride_status now id st w
  = match st with
    | RideStatus.ARRIVING =>
        App.print App.DriverIsArriving (wrote (Ride.set_status st ride))
    | RideStatus.IN_PROGRESS =>
        App.print App.RideStarted
          (wrote (Ride.set_started_at (Some now) (Ride.set_status st ride)))
    | RideStatus.COMPLETED =>
        App._complete_ride (Ride.set_completed_at (Some now) (Ride.set_status st ride))
          (wrote (Ride.set_completed_at (Some now) (Ride.set_status st ride)))
    | _ => (App.Returned tt, wrote (Ride.set_status st ride))
    end.
Proof.
  intros Hget wrote. unfold App.update_ride_status.
  next. rewrite Hget. next. next.
  destruct st; cbn [RideStatus.eqb]; try reflexivity.
  - next. unfold wrote, App.print. cbn [App.system App.console rides set_rides].
    unfold set_rides. cbn [rides surge_areas]. now rewrite dict_set_set.
  - next. unfold wrote. cbn [App.system App.console rides set_rides].
    unfold set_rides. cbn [rides surge_areas]. now rewrite dict_set_set.
Qed.

Lemma app_update_ride_status_system now id st w :
  App.system (snd (App.update_ride_status now id st w))
  = snd (update_ride_status now id st (App.system w)).
Proof.
  destruct (Dict.get id (rides (App.system w))) as [ride|] eqn:Hget.
  - rewrite (update_ride_status_writes _ _ _ _ _ Hget).
    rewrite (app_update_ride_status_stored _ _ _ _ _ Hget).
    destruct st; try reflexivity. now rewrite complete_ride_lines.
  - rewrite (app_update_ride_status_unknown _ _ _ _ Hget).
    now rewrite (update_ride_status_unknown _ _ _ _ Hget).
Qed.

Lemma app_assign_driver_stored draws now randint id w ride :
  Dict.get id (rides (App.system w)) = Some ride ->
  let driver := Driver.generate_random draws (Ride.pickup ride) in
  App.assign_driver draws now randint id w
  = (App.Returned driver,
     {| App.system :=
          set_rides
            (Dict.set id
               (Ride.set_eta_minutes (randint 3 10)
                  (Ride.set_accepted_at (Some now)
                     (Ride.set_status RideStatus.ACCEPTED
                        (Ride.set_driver (Some driver) ride))))
               (rides (App.system w)))
            (App.system w);
        App.console :=
          (App.console w
           ++ [App.DriverFound;
               App.DriverLine (Driver.name driver);
               App.Rating (Driver.rating driver) (Driver.total_trips driver);
               App.Vehicle (Driver.vehicle_color driver) (Driver.vehicle_model driver);
               App.Number (Driver.vehicle_number driver);
               App.Phone (Driver.phone driver);
               App.Eta (randint 3 10)])%list |}).
Proof.
  intros Hget driver.
  unfold App.assign_driver. app_steps. rewrite Hget. app_steps.
  repeat rewrite <- app_assoc. cbn [app].
  unfold set_rides. cbn. now rewrite !dict_set_set.
Qed.

Section Terminal.
Context `{PyFloat.Pow}.

(** X16.  [CabBookingSystem] of [app.py] keeps the registry of
    [CabBookingService]: on the same inputs its [book_ride], [assign_driver],
    [update_ride_status] and [cancel_ride] leave the registry the service's
    methods leave, also when they raise; [book_ride], [assign_driver],
    [track_ride] and [get_ride_history] return or raise what [book_ride],
    [assign_driver], [get_ride] and [get_ride_history] of the service do. *)
Theorem app_writes_what_the_service_writes w :
  (forall uuid4 uniform now created pickup dropoff cab_type,
     App.system (snd (App.book_ride uuid4 uniform now created pickup dropoff cab_type w))
     = snd (book_ride uuid4 uniform now created pickup dropoff cab_type (App.system w))
     /\ same_outcome
          (fst (App.book_ride uuid4 uniform now created pickup dropoff cab_type w))
          (fst (book_ride uuid4 uniform now created pickup dropoff cab_type (App.system w))))
  /\ (forall draws now randint id,
        App.system (snd (App.assign_driver draws now randint id w))
        = snd (assign_driver draws now randint id (App.system w))
        /\ same_outcome (fst (App.assign_driver draws now randint id w))
             (fst (assign_driver draws now randint id (App.system w))))
  /\ (forall id,
        snd (App.track_ride id w) = w
        /\ same_outcome (fst (App.track_ride id w)) (fst (get_ride id (App.system w))))
  /\ (forall now id st,
        App.system (snd (App.update_ride_status now id st w))
        = snd (update_ride_status now id st (App.system w)))
  /\ (forall id reason,
        App.system (snd (App.cancel_ride id reason w))
        = snd (cancel_ride id reason (App.system w)))
  /\ (snd (App.get_ride_history w) = w
      /\ same_outcome (fst (App.get_ride_history w))
           (fst (get_ride_history (App.system w)))).
Proof.
  split; [|split; [|split; [|split; [|split]]]].
  - intros uuid4 uniform now created pickup dropoff cab_type.
    unfold App.book_ride, book_ride. app_steps.
    destruct (Location.distance_to pickup dropoff) as [distance|e]; simpl; [|now split].
    destruct (PyFloat.int _) as [duration|e]; simpl; [|now split].
    destruct (get_fare_estimate _ _ _ _ _) as [fare|e]; simpl; now split.
  - intros draws now randint id.
    destruct (Dict.get id (rides (App.system w))) as [ride|] eqn:Hget.
    + rewrite (app_assign_driver_stored _ _ _ _ _ _ Hget).
      rewrite (assign_driver_stored _ _ _ _ _ _ Hget). now split.
    + rewrite (app_assign_driver_unknown _ _ _ _ _ Hget).
      rewrite (assign_driver_unknown _ _ _ _ _ Hget). now split.
  - intros id. unfold App.track_ride, get_ride. app_steps.
    destruct (Dict.get id (rides (App.system w))); now split.
  - intros now id st. apply app_update_ride_status_system.
  - intros id reason. unfold App.cancel_ride, cancel_ride. app_steps.
    destruct (Dict.get id (rides (App.system w))); app_steps; reflexivity.
  - now split.
Qed.

(** X17.  [cancel_ride] of [app.py] raises "Ride not found" on an unknown
    identifier and prints nothing; on a stored ride it writes CANCELLED and
    prints two lines, the notice and the reason.  It never prints the line
    of the cancellation fee, whatever the status of the ride was: the fee is
    computed from the status just overwritten. *)
Theorem app_cancel_ride_never_prints_a_fee id reason w :
  (Dict.get id (rides (App.system w)) = None ->
   App.cancel_ride id reason w
   = (App.Raised (App.Service (ValueError "Ride not found")), w))
  /\ (forall ride,
        Dict.get id (rides (App.system w)) = Some ride ->
        App.cancel_ride id reason w
        = (App.Returned tt,
           {| App.system :=
                set_rides
                  (Dict.set id (Ride.set_status RideStatus.CANCELLED ride)
                     (rides (App.system w)))
                  (App.system w);
              App.console :=
                (App.console w ++ [App.RideCancelled; App.Reason reason])%list |}))
  /\ (forall fee, ~ In (App.CancellationFee fee) (App.console w) ->
      ~ In (App.CancellationFee fee) (App.console (snd (App.cancel_ride id reason w)))).
Proof.
  assert (Hstored : forall ride,
            Dict.get id (rides (App.system w)) = Some ride ->
            App.cancel_ride id reason w
            = (App.Returned tt,
               {| App.system :=
                    set_rides
                      (Dict.set id (Ride.set_status RideStatus.CANCELLED ride)
                         (rides (App.system w)))
                      (App.system w);
                  App.console :=
                    (App.console w ++ [App.RideCancelled; App.Reason reason])%list |})).
  { intros ride Hget. unfold App.cancel_ride. app_steps. rewrite Hget. app_steps.
    now rewrite <- app_assoc. }
  assert (Hunknown : Dict.get id (rides (App.system w)) = None ->
            App.cancel_ride id reason w
            = (App.Raised (App.Service (ValueError "Ride not found")), w)).
  { intros Hget. unfold App.cancel_ride. app_steps. now rewrite Hget. }
  split; [exact Hunknown|]. split; [exact Hstored|].
  intros fee Hnot. destruct (Dict.get id (rides (App.system w))) as [ride|] eqn:Hget.
  - rewrite (Hstored ride eq_refl). cbn [snd App.console]. intros Hin.
    apply in_app_or in Hin. destruct Hin as [Hin|[Hin|[Hin|[]]]];
      [now apply Hnot|discriminate Hin|discriminate Hin].
  - now rewrite (Hunknown eq_refl).
Qed.

(** X18.  In [app.py], updating to COMPLETED a stored ride that has a fare
    and no driver raises [AttributeError] at the last line of
    [_complete_ride], after the status and [completed_at] were written and
    the summary printed up to the total: the ride stays COMPLETED in the
    registry and is listed by [get_ride_history]. *)
Theorem completing_a_ride_without_a_driver_raises_after_the_write now id w ride fare :
  Dict.get id (rides (App.system w)) = Some ride ->
  Ride.driver ride = None ->
  Ride.fare ride = Some fare ->
  let ride' := Ride.set_completed_at (Some now) (Ride.set_status RideStatus.COMPLETED ride) in
  let w' := snd (App.update_ride_status now id RideStatus.COMPLETED w) in
  fst (App.update_ride_status now id RideStatus.COMPLETED w)
  = App.Raised (App.AttributeError "'NoneType' object has no attribute 'name'")
  /\ fst (App.track_ride id w') = App.Returned ride'
  /\ (Dict.wf (rides (App.system w)) ->
      exists history,
        fst (App.get_ride_history w') = App.Returned history /\ In ride' history)
  /\ (exists lines,
        App.console w' = (App.console w ++ lines)%list
        /\ In (App.Total (Fare.total fare)) lines
        /\ forall name, ~ In (App.RateYourDriver name) lines).
Proof.
  intros Hget Hdriver Hfare ride' w'.
  assert (Hcall :
            App.update_ride_status now id RideStatus.COMPLETED w
            = (App.Raised (App.AttributeError "'NoneType' object has no attribute 'name'"),
               {| App.system := set_rides (Dict.set id ride' (rides (App.system w)))
                                  (App.system w);
                  App.console :=
                    (App.console w
                     ++ [App.RideCompleted; App.RideSummary;
                         App.SummaryRideId (Ride.ride_id ride);
                         App.SummaryDistance (Ride.distance_km ride);
                         App.SummaryDuration (Ride.duration_minutes ride);
                         App.FareBreakdown;
                         App.BaseFare (Fare.base_fare fare);
                         App.DistanceFare (Ride.distance_km ride) (Fare.distance_fare fare);
                         App.TimeFare (Ride.duration_minutes ride) (Fare.time_fare fare)]
                     ++ (if (1.0 <? Fare.surge_multiplier fare)%float
                         then [App.SurgeMultiplier (Fare.surge_multiplier fare)]
                         else [])
                     ++ [App.Rule; App.Total (Fare.total fare)])%list |})).
  { rewrite (app_update_ride_status_stored _ _ _ _ _ Hget). rewrite complete_ride_lines.
    cbn [App.system App.console Ride.fare Ride.driver Ride.set_completed_at Ride.set_status
         Ride.ride_id Ride.distance_km Ride.duration_minutes].
    rewrite Hfare, Hdriver. fold ride'.
    repeat rewrite <- app_assoc. cbn [app]. reflexivity. }
  assert (Hstored : Dict.get id (rides (App.system w')) = Some ride').
  { unfold w'. rewrite Hcall. cbn. apply DictFacts.get_set_same. }
  split; [now rewrite Hcall|]. split; [|split].
  - unfold App.track_ride. app_steps. now rewrite Hstored.
  - intros Hwf. eexists. split; [reflexivity|]. apply filter_In. split; [|reflexivity].
    unfold Dict.values. apply in_map_iff. exists (id, ride'). split; [reflexivity|].
    apply DictFacts.get_Some_In. exact Hstored.
  - eexists. split; [unfold w'; rewrite Hcall; reflexivity|]. split.
    + apply in_or_app. right. apply in_or_app. right. right. now left.
    + intros name Hin. apply in_app_or in Hin. destruct Hin as [Hin|Hin].
      * cbn [In] in Hin. decompose [or] Hin; try contradiction; discriminate.
      * apply in_app_or in Hin. destruct Hin as [Hin|Hin].
        -- destruct (1.0 <? Fare.surge_multiplier fare)%float; cbn [In] in Hin;
             decompose [or] Hin; try contradiction; discriminate.
        -- cbn [In] in Hin. decompose [or] Hin; try contradiction; discriminate.
Qed.

(** The writes of a course, one attribute at a time. *)
Lemma driven_writes draws randint accepted started completed ride :
  Ride.set_completed_at (Some completed)
    (Ride.set_status RideStatus.COMPLETED
       (Ride.set_started_at (Some started)
          (Ride.set_status RideStatus.IN_PROGRESS
             (Ride.set_status RideStatus.ARRIVING
                (Ride.set_eta_minutes (randint 3 10)
                   (Ride.set_accepted_at (Some accepted)
                      (Ride.set_status RideStatus.ACCEPTED
                         (Ride.set_driver
                            (Some (Driver.generate_random draws (Ride.pickup ride)))
                            ride))))))))
  = driven draws randint accepted started completed ride.
Proof. reflexivity. Qed.

(** What [simulate_ride] returns, writes and prints on a stored ride. *)
Lemma simulate_ride_stored draws randint accepted started completed id w ride :
  Dict.get id (rides (App.system w)) = Some ride ->
  let driver := Driver.generate_random draws (Ride.pickup ride) in
  App.simulate_ride draws randint accepted started completed id w
  = (match Ride.fare ride with
     | Some _ => App.Returned tt
     | None => App.Raised (App.AttributeError "'NoneType' object has no attribute 'base_fare'")
     end,
     {| App.system :=
          set_rides
            (Dict.set id (driven draws randint accepted started completed ride)
               (rides (App.system w)))
            (App.system w);
        App.console :=
          (App.console w
           ++ [App.DriverFound;
               App.DriverLine (Driver.name driver);
               App.Rating (Driver.rating driver) (Driver.total_trips driver);
               App.Vehicle (Driver.vehicle_color driver) (Driver.vehicle_model driver);
               App.Number (Driver.vehicle_number driver);
               App.Phone (Driver.phone driver);
               App.Eta (randint 3 10);
               App.DriverIsArriving;
               App.Eta (randint 3 10);
               App.RideStarted;
               App.Distance (Ride.distance_km ride);
               App.EstimatedTime (Ride.duration_minutes ride);
               App.RideCompleted; App.RideSummary;
               App.SummaryRideId (Ride.ride_id ride);
               App.SummaryDistance (Ride.distance_km ride);
               App.SummaryDuration (Ride.duration_minutes ride);
               App.FareBreakdown]
           ++ match Ride.fare ride with
              | Some fare =>
                  [App.BaseFare (Fare.base_fare fare);
                   App.DistanceFare (Ride.distance_km ride) (Fare.distance_fare fare);
                   App.TimeFare (Ride.duration_minutes ride) (Fare.time_fare fare)]
                  ++ (if (1.0 <? Fare.surge_multiplier fare)%float
                      then [App.SurgeMultiplier (Fare.surge_multiplier fare)]
                      else [])
                  ++ [App.Rule; App.Total (Fare.total fare);
                      App.RateYourDriver (Driver.name driver)]
              | None => []
              end)%list |}).
Proof.
  intros Hget driver. unfold App.simulate_ride.
  next. rewrite Hget. next.
  next_by ltac:(apply (app_assign_driver_stored _ _ _ _ _ _ Hget)).
  next_by ltac:(rewrite (app_update_ride_status_stored _ _ _ _ _ (written _ _ _ _));
                reflexivity).
  cbn [App.system App.console].
  next. cbn [App.system App.console]. rewrite rides_set_rides, DictFacts.get_set_same.
  next. cbn [App.system App.console].
  next_by ltac:(rewrite (app_update_ride_status_stored _ _ _ _ _ (written _ _ _ _));
                reflexivity).
  cbn [App.system App.console].
  next. cbn [App.system App.console]. rewrite rides_set_rides, DictFacts.get_set_same.
  next. next. cbn [App.system App.console].
  rewrite (app_update_ride_status_stored _ _ _ _ _ (written _ _ _ _)).
  rewrite complete_ride_lines. cbn [App.system App.console].
  unfold set_rides. cbn [rides surge_areas]. rewrite !dict_set_set.
  rewrite !(driven_writes draws randint accepted started completed ride).
  change (Ride.eta_minutes
            (Ride.set_status RideStatus.ARRIVING
               (Ride.set_eta_minutes (randint 3 10)
                  (Ride.set_accepted_at (Some accepted)
                     (Ride.set_status RideStatus.ACCEPTED
                        (Ride.set_driver
                           (Some (Driver.generate_random draws (Ride.pickup ride))) ride))))))
    with (randint 3 10).
  change (Ride.eta_minutes
            (Ride.set_eta_minutes (randint 3 10)
               (Ride.set_accepted_at (Some accepted)
                  (Ride.set_status RideStatus.ACCEPTED
                     (Ride.set_driver
                        (Some (Driver.generate_random draws (Ride.pickup ride))) ride)))))
    with (randint 3 10).
  set (started_ride :=
         Ride.set_started_at (Some started)
           (Ride.set_status RideStatus.IN_PROGRESS
              (Ride.set_status RideStatus.ARRIVING
                 (Ride.set_eta_minutes (randint 3 10)
                    (Ride.set_accepted_at (Some accepted)
                       (Ride.set_status RideStatus.ACCEPTED
                          (Ride.set_driver
                             (Some (Driver.generate_random draws (Ride.pickup ride)))
                             ride))))))).
  change (Ride.distance_km started_ride) with (Ride.distance_km ride).
  change (Ride.duration_minutes started_ride) with (Ride.duration_minutes ride).
  clear started_ride.
  set (ride' := driven draws randint accepted started completed ride).
  change (Ride.fare ride') with (Ride.fare ride).
  change (Ride.driver ride') with (Some driver).
  change (Ride.ride_id ride') with (Ride.ride_id ride).
  change (Ride.distance_km ride') with (Ride.distance_km ride).
  change (Ride.duration_minutes ride') with (Ride.duration_minutes ride).
  fold driver.
  destruct (Ride.fare ride) as [fare|];
    repeat rewrite <- app_assoc; cbn [app]; reflexivity.
Qed.

(** X19.  [simulate_ride] of [app.py] leaves the registry that
    [assign_driver] and the updates to ARRIVING, IN_PROGRESS and COMPLETED of
    the service leave.  On an unknown identifier it raises "Ride not found"
    and prints nothing.  On a stored ride with a fare it returns, the ride
    ends COMPLETED with its driver and timestamps, and the console receives
    the lines of the assignment, of the arrival, of the start and of the
    summary, in this order, ending with the driver to rate. *)
Theorem simulate_ride_runs_the_ride draws randint accepted started completed id w :
  let cs := course draws randint accepted accepted started completed id in
  let w' := snd (App.simulate_ride draws randint accepted started completed id w) in
  App.system w' = run cs (App.system w)
  /\ (Dict.get id (rides (App.system w)) = None ->
      App.simulate_ride draws randint accepted started completed id w
      = (App.Raised (App.Service (ValueError "Ride not found")), w))
  /\ (forall ride fare,
        Dict.get id (rides (App.system w)) = Some ride ->
        Ride.fare ride = Some fare ->
        let driver := Driver.generate_random draws (Ride.pickup ride) in
        fst (App.simulate_ride draws randint accepted started completed id w)
        = App.Returned tt
        /\ fst (App.track_ride id w')
           = App.Returned (driven draws randint accepted started completed ride)
        /\ App.console w'
           = (App.console w
              ++ [App.DriverFound;
                  App.DriverLine (Driver.name driver);
                  App.Rating (Driver.rating driver) (Driver.total_trips driver);
                  App.Vehicle (Driver.vehicle_color driver) (Driver.vehicle_model driver);
                  App.Number (Driver.vehicle_number driver);
                  App.Phone (Driver.phone driver);
                  App.Eta (randint 3 10);
                  App.DriverIsArriving;
                  App.Eta (randint 3 10);
                  App.RideStarted;
                  App.Distance (Ride.distance_km ride);
                  App.EstimatedTime (Ride.duration_minutes ride);
                  App.RideCompleted; App.RideSummary;
                  App.SummaryRideId (Ride.ride_id ride);
                  App.SummaryDistance (Ride.distance_km ride);
                  App.SummaryDuration (Ride.duration_minutes ride);
                  App.FareBreakdown;
                  App.BaseFare (Fare.base_fare fare);
                  App.DistanceFare (Ride.distance_km ride) (Fare.distance_fare fare);
                  App.TimeFare (Ride.duration_minutes ride) (Fare.time_fare fare)]
              ++ (if (1.0 <? Fare.surge_multiplier fare)%float
                  then [App.SurgeMultiplier (Fare.surge_multiplier fare)]
                  else [])
              ++ [App.Rule; App.Total (Fare.total fare);
                  App.RateYourDriver (Driver.name driver)])%list).
Proof.
  intros cs w'.
  assert (Hunknown : Dict.get id (rides (App.system w)) = None ->
            App.simulate_ride draws randint accepted started completed id w
            = (App.Raised (App.Service (ValueError "Ride not found")), w)).
  { intros Hget. unfold App.simulate_ride. app_steps. now rewrite Hget. }
  split; [|split; [exact Hunknown|]].
  - destruct (Dict.get id (rides (App.system w))) as [ride|] eqn:Hget.
    + unfold w', cs. rewrite (simulate_ride_stored _ _ _ _ _ _ _ _ Hget).
      now rewrite (run_course _ _ _ _ _ _ _ _ _ Hget).
    + unfold w'. rewrite (Hunknown eq_refl). unfold cs, course, run.
      cbn [fold_left step snd].
      rewrite (assign_driver_unknown _ _ _ _ _ Hget). cbn [snd not_found].
      rewrite !(update_ride_status_unknown _ _ _ _ Hget). reflexivity.
  - intros ride fare Hget Hfare driver. unfold w'.
    rewrite (simulate_ride_stored _ _ _ _ _ _ _ _ Hget). rewrite Hfare.
    cbn [fst snd App.console]. split; [reflexivity|]. split.
    + unfold App.track_ride. app_steps. now rewrite DictFacts.get_set_same.
    + fold driver. repeat rewrite <- app_assoc. cbn [app]. reflexivity.
Qed.

End Terminal.

Lemma completing_a_ride_without_a_driver_raises_after_the_write_witness :
  fst (App.update_ride_status (Sample.at_9h 900) Sample.ride_id RideStatus.COMPLETED
         {| App.system := Sample.booked; App.console := [] |})
  = App.Raised (App.AttributeError "'NoneType' object has no attribute 'name'").
Proof.
  destruct (Dict.get Sample.ride_id (rides Sample.booked)) as [ride|] eqn:Hget;
    [|vm_compute in Hget; discriminate Hget].
  assert (Hdriver : Ride.driver ride = None).
  { vm_compute in Hget. injection Hget as Hride. subst ride. reflexivity. }
  destruct (Ride.fare ride) as [fare|] eqn:Hfare.
  - exact (proj1 (completing_a_ride_without_a_driver_raises_after_the_write
                    (Sample.at_9h 900) Sample.ride_id
                    {| App.system := Sample.booked; App.console := [] |}
                    ride fare Hget Hdriver Hfare)).
  - vm_compute in Hget. injection Hget as Hride. subst ride. discriminate Hfare.
Defined.
